(** * The calendar "edit event" page: a shallow embedding

    Source: [src/addons/calendar/pages/edit-event/edit-event.page.ts]
    (class [AddonCalendarEditEventPage]).

    The page is a form controller.  Its methods read and write the fields of
    the component, call services of the application and await their answers.
    The embedding keeps that shape:

    - the component is a record [Page]; a method is a computation in a small
      monad [M] that threads the page, may throw, and logs every call that
      leaves the component (modals, the sync lock, the remote submit, the
      event bus, navigation) in a trace of [Effect]s;
    - values held by form controls are JavaScript primitives, [JsVal], with
      the coercions the code relies on ([!x], [x || y], [x == y], [parseInt]);
    - pure helpers of other files ([CoreTimeUtils], [Translate], ...) are the
      fields of a [Platform]; answers of asynchronous services are the fields
      of a [World]. *)

From Stdlib Require Import ZArith String Ascii List Bool Lia.
From stdpp Require Import base option gmap strings list sorting.

Local Open Scope string_scope.
Local Open Scope list_scope.
Local Open Scope Z_scope.

(** ** JavaScript primitives *)

(** Numbers.  Every number this page computes with is an integer (ids,
    counts, timestamps in seconds or milliseconds) or [NaN]. *)
Inductive Num : Type :=
| Fin (z : Z)
| NaN.

Inductive JsVal : Type :=
| JUndefined
| JNull
| JBool (b : bool)
| JNum (n : Num)
| JStr (s : string).

#[global] Instance Num_eq_dec : EqDecision Num.
Proof. solve_decision. Defined.

#[global] Instance JsVal_eq_dec : EqDecision JsVal.
Proof. solve_decision. Defined.

Module Js.

(** [isNaN] on a number. *)
Definition isNaN (n : Num) : bool :=
  match n with NaN => true | Fin _ => false end.

(** [a > b], [a < b], [a === b] on numbers: false as soon as one is [NaN]. *)
Definition gt (a b : Num) : bool :=
  match a, b with Fin x, Fin y => y <? x | _, _ => false end.

Definition lt (a b : Num) : bool :=
  match a, b with Fin x, Fin y => x <? y | _, _ => false end.

Definition num_eq (a b : Num) : bool :=
  match a, b with Fin x, Fin y => x =? y | _, _ => false end.

Definition add (a b : Num) : Num :=
  match a, b with Fin x, Fin y => Fin (x + y) | _, _ => NaN end.

Definition mul (a b : Num) : Num :=
  match a, b with Fin x, Fin y => Fin (x * y) | _, _ => NaN end.

(** ToBoolean: what [if (v)], [!v] and [v || w] test. *)
Definition truthy (v : JsVal) : bool :=
  match v with
  | JUndefined | JNull => false
  | JBool b => b
  | JNum (Fin z) => negb (z =? 0)
  | JNum NaN => false
  | JStr s => negb (String.eqb s "")
  end.

(** [v || w]. *)
Definition or (v w : JsVal) : JsVal := if truthy v then v else w.

(** [!!v]. *)
Definition bangbang (v : JsVal) : JsVal := JBool (truthy v).

(** An optional numeric property of an object: absent reads [undefined]. *)
Definition of_opt (o : option Z) : JsVal :=
  match o with Some z => JNum (Fin z) | None => JUndefined end.

Definition of_opt_str (o : option string) : JsVal :=
  match o with Some s => JStr s | None => JUndefined end.

(** *** [parseInt(s, 10)]

    A string holds the UTF-8 bytes of its text.  [parseInt] first drops the
    white space and the line terminators at the head of the string: the
    characters TAB, LF, VT, FF, CR and SP of one byte; U+00A0 (bytes C2 A0);
    and, of three bytes, U+1680 (E1 9A 80), U+2000 to U+200A (E2 80 80 to
    E2 80 8A), U+2028 and U+2029 (E2 80 A8, E2 80 A9), U+202F (E2 80 AF),
    U+205F (E2 81 9F), U+3000 (E3 80 80) and U+FEFF (EF BB BF). *)

Definition is_space (c : ascii) : bool :=
  let n := nat_of_ascii c in
  (Nat.eqb n 32 || Nat.eqb n 9 || Nat.eqb n 10 || Nat.eqb n 11
   || Nat.eqb n 12 || Nat.eqb n 13)%bool.

Definition is_space2 (c d : ascii) : bool :=
  (Nat.eqb (nat_of_ascii c) 194 && Nat.eqb (nat_of_ascii d) 160)%bool.

Definition is_space3 (c d e : ascii) : bool :=
  let c := nat_of_ascii c in
  let d := nat_of_ascii d in
  let e := nat_of_ascii e in
  ((Nat.eqb c 225 && Nat.eqb d 154 && Nat.eqb e 128)
   || (Nat.eqb c 226 && Nat.eqb d 128
       && ((Nat.leb 128 e && Nat.leb e 138)
           || Nat.eqb e 168 || Nat.eqb e 169 || Nat.eqb e 175))
   || (Nat.eqb c 226 && Nat.eqb d 129 && Nat.eqb e 159)
   || (Nat.eqb c 227 && Nat.eqb d 128 && Nat.eqb e 128)
   || (Nat.eqb c 239 && Nat.eqb d 187 && Nat.eqb e 191))%bool.

Definition digit_of (c : ascii) : option Z :=
  let n := nat_of_ascii c in
  if (Nat.leb 48 n && Nat.leb n 57)%bool then Some (Z.of_nat n - 48) else None.

Fixpoint skip_spaces (s : string) : string :=
  match s with
  | String c r =>
      if is_space c then skip_spaces r
      else
        match r with
        | String d r2 =>
            if is_space2 c d then skip_spaces r2
            else
              match r2 with
              | String e r3 => if is_space3 c d e then skip_spaces r3 else s
              | EmptyString => s
              end
        | EmptyString => s
        end
  | EmptyString => s
  end.

(** Reads the longest prefix of decimal digits; [acc] is [None] until a
    digit has been read. *)
Fixpoint digits (s : string) (acc : option Z) : option Z :=
  match s with
  | String c r =>
      match digit_of c with
      | Some d => digits r (Some (10 * default 0 acc + d))
      | None => acc
      end
  | EmptyString => acc
  end.

Definition parseInt10 (s : string) : Num :=
  match skip_spaces s with
  | String "-" r => match digits r None with Some z => Fin (- z) | None => NaN end
  | String "+" r => match digits r None with Some z => Fin z | None => NaN end
  | r => match digits r None with Some z => Fin z | None => NaN end
  end.

(** [parseInt(v, 10)] on a primitive: the argument is first turned into a
    string.  The decimal string of an integer parses back to that integer;
    ["undefined"], ["null"], ["true"], ["false"] and ["NaN"] have no
    leading digit. *)
Definition parseInt (v : JsVal) : Num :=
  match v with
  | JStr s => parseInt10 s
  | JNum n => n
  | _ => NaN
  end.

End Js.

(** ** Pure helpers of other files

    None of these is defined in the page's file; the page only calls them. *)
Inductive AddonCalendarEventType : Type :=
| COURSE | GROUP | CATEGORY | USER | SITE.

(** Modelled from the spec: the enum [AddonCalendarEventType] is declared in
    [services/calendar]; the spec lists its members as
    Course/Group/Category/User/Site.  Its members are string constants, one
    per event type. *)
Definition type_value (t : AddonCalendarEventType) : string :=
  match t with
  | COURSE => "course"
  | GROUP => "group"
  | CATEGORY => "category"
  | USER => "user"
  | SITE => "site"
  end.

Record AddonCalendarEventTypeOption : Type := {
  opt_name : string;
  opt_value : AddonCalendarEventType;
}.

Record Platform : Type := {
  (** ToNumber applied to a string, as [==] and [Number()] do; the names of
      the event types are not numerals. *)
  StringToNumber : string -> Num;
  StringToNumber_type : forall t, StringToNumber (type_value t) = NaN;
  (** [CoreTimeUtils.convertToTimestamp(date, true)]. *)
  convertToTimestamp : JsVal -> Num;
  (** [CoreTimeUtils.toDatetimeFormat(timestamp)]; the argument is
      [undefined] when the call passes none. *)
  toDatetimeFormat : JsVal -> string;
  (** [Translate.instant(key)]. *)
  instant : string -> string;
  (** [String.prototype.toLowerCase] and [localeCompare]. *)
  toLowerCase : string -> string;
  localeCompare : string -> string -> Z;
  (** [AddonCalendarHelper.getEventTypeOptions(types)]. *)
  getEventTypeOptions : gmap string bool -> list AddonCalendarEventTypeOption;
  (** [CoreUtils.isTrueOrOne(value)]. *)
  isTrueOrOne : JsVal -> bool;
}.

(** ** Data of the services *)

(** [CoreCourseSearchedData | CoreEnrolledCourseData]: the page reads [id]
    and [fullname], and tests whether the object has a [contacts] property
    (only searched courses have one). *)
Record CoreCourseData : Type := {
  course_id : Z;
  fullname : string;
  has_contacts : bool;
}.

Record CoreCategoryData : Type := {
  category_id : Z;
  category_name : string;
}.

Record CoreGroup : Type := {
  group_id : Z;
  group_name : string;
}.

(** [AddonCalendarGetCalendarAccessInformationWSResponse]. *)
Record AccessInformation : Type := {
  canmanageentries : bool;
  canmanageownentries : bool;
  canmanagegroupentries : bool;
}.

(** [AddonCalendarEvent], the fields the page reads.  [course] holds
    [course.id] when the event has a course. *)
Module Online.
Record t : Type := mk {
  id : Z;
  name : string;
  timestart : Z;
  timeduration : Z;
  eventtype : string;
  categoryid : option Z;
  course : option Z;
  groupid : option Z;
  description : string;
  location : option string;
  repeatid : option Z;
  eventcount : option Z;
}.
End Online.

(** [AddonCalendarOfflineEventDBRecord]. *)
Module Offline.
Record t : Type := mk {
  id : Z;
  name : string;
  timestart : Z;
  eventtype : string;
  categoryid : option Z;
  courseid : option Z;
  groupcourseid : option Z;
  groupid : option Z;
  description : option string;
  location : option string;
  duration : option Z;
  timedurationuntil : option Z;
  timedurationminutes : option Z;
  repeat : option Z;
  repeats : option Z;
  repeatid : option Z;
  repeateditall : option Z;
}.
End Offline.

(** [AddonCalendarEvent | AddonCalendarOfflineEventDBRecord].  The page
    casts one value to both types and reads properties of either; a
    property the object does not have reads [undefined]. *)
Inductive CalendarEvent : Type :=
| OnlineEvent (e : Online.t)
| OfflineEvent (e : Offline.t).

Module Ev.
Definition id (ev : CalendarEvent) : Z :=
  match ev with OnlineEvent e => Online.id e | OfflineEvent e => Offline.id e end.
Definition name (ev : CalendarEvent) : JsVal :=
  match ev with
  | OnlineEvent e => JStr (Online.name e)
  | OfflineEvent e => JStr (Offline.name e)
  end.
Definition timestart (ev : CalendarEvent) : Num :=
  match ev with
  | OnlineEvent e => Fin (Online.timestart e)
  | OfflineEvent e => Fin (Offline.timestart e)
  end.
Definition eventtype (ev : CalendarEvent) : string :=
  match ev with
  | OnlineEvent e => Online.eventtype e
  | OfflineEvent e => Offline.eventtype e
  end.
Definition categoryid (ev : CalendarEvent) : JsVal :=
  match ev with
  | OnlineEvent e => Js.of_opt (Online.categoryid e)
  | OfflineEvent e => Js.of_opt (Offline.categoryid e)
  end.
Definition groupid (ev : CalendarEvent) : JsVal :=
  match ev with
  | OnlineEvent e => Js.of_opt (Online.groupid e)
  | OfflineEvent e => Js.of_opt (Offline.groupid e)
  end.
Definition description (ev : CalendarEvent) : JsVal :=
  match ev with
  | OnlineEvent e => JStr (Online.description e)
  | OfflineEvent e => Js.of_opt_str (Offline.description e)
  end.
Definition location (ev : CalendarEvent) : JsVal :=
  match ev with
  | OnlineEvent e => Js.of_opt_str (Online.location e)
  | OfflineEvent e => Js.of_opt_str (Offline.location e)
  end.
(** [offlineEvent.courseid]. *)
Definition courseid (ev : CalendarEvent) : JsVal :=
  match ev with OfflineEvent e => Js.of_opt (Offline.courseid e) | _ => JUndefined end.
(** [onlineEvent.course?.id]. *)
Definition course_id (ev : CalendarEvent) : JsVal :=
  match ev with OnlineEvent e => Js.of_opt (Online.course e) | _ => JUndefined end.
Definition duration (ev : CalendarEvent) : JsVal :=
  match ev with OfflineEvent e => Js.of_opt (Offline.duration e) | _ => JUndefined end.
Definition timedurationuntil (ev : CalendarEvent) : JsVal :=
  match ev with
  | OfflineEvent e => Js.of_opt (Offline.timedurationuntil e)
  | _ => JUndefined
  end.
Definition timedurationminutes (ev : CalendarEvent) : JsVal :=
  match ev with
  | OfflineEvent e => Js.of_opt (Offline.timedurationminutes e)
  | _ => JUndefined
  end.
Definition repeat (ev : CalendarEvent) : JsVal :=
  match ev with OfflineEvent e => Js.of_opt (Offline.repeat e) | _ => JUndefined end.
Definition repeats (ev : CalendarEvent) : JsVal :=
  match ev with OfflineEvent e => Js.of_opt (Offline.repeats e) | _ => JUndefined end.
Definition repeateditall (ev : CalendarEvent) : JsVal :=
  match ev with
  | OfflineEvent e => Js.of_opt (Offline.repeateditall e)
  | _ => JUndefined
  end.
(** [onlineEvent.timeduration], [onlineEvent.repeatid],
    [onlineEvent.eventcount]. *)
Definition timeduration (ev : CalendarEvent) : JsVal :=
  match ev with OnlineEvent e => JNum (Fin (Online.timeduration e)) | _ => JUndefined end.
Definition repeatid (ev : CalendarEvent) : JsVal :=
  match ev with
  | OnlineEvent e => Js.of_opt (Online.repeatid e)
  | OfflineEvent e => Js.of_opt (Offline.repeatid e)
  end.
Definition eventcount (ev : CalendarEvent) : JsVal :=
  match ev with OnlineEvent e => Js.of_opt (Online.eventcount e) | _ => JUndefined end.
End Ev.

(** [AddonCalendarSubmitCreateUpdateFormDataWSParams]: the payload of the
    remote submit.  An optional property that was never assigned is [None]. *)
Module Data.
Record t : Type := mk {
  name : JsVal;
  eventtype : JsVal;
  timestart : Num;
  description_text : JsVal;
  description_format : Z;
  location : JsVal;
  duration : JsVal;
  repeat : JsVal;
  courseid : option JsVal;
  groupcourseid : option JsVal;
  groupid : option JsVal;
  categoryid : option JsVal;
  timedurationuntil : option JsVal;
  timedurationminutes : option JsVal;
  repeats : option JsVal;
  repeatid : option JsVal;
  repeateditall : option JsVal;
}.

(** [data.prop = v]. *)
Definition set_courseid (v : option JsVal) (r : t) : t :=
  {| name := name r; eventtype := eventtype r; timestart := timestart r;
     description_text := description_text r;
     description_format := description_format r; location := location r;
     duration := duration r; repeat := repeat r; courseid := v;
     groupcourseid := groupcourseid r; groupid := groupid r;
     categoryid := categoryid r; timedurationuntil := timedurationuntil r;
     timedurationminutes := timedurationminutes r; repeats := repeats r;
     repeatid := repeatid r; repeateditall := repeateditall r |}.

Definition set_groupcourseid (v : option JsVal) (r : t) : t :=
  {| name := name r; eventtype := eventtype r; timestart := timestart r;
     description_text := description_text r;
     description_format := description_format r; location := location r;
     duration := duration r; repeat := repeat r; courseid := courseid r;
     groupcourseid := v; groupid := groupid r; categoryid := categoryid r;
     timedurationuntil := timedurationuntil r;
     timedurationminutes := timedurationminutes r; repeats := repeats r;
     repeatid := repeatid r; repeateditall := repeateditall r |}.

Definition set_groupid (v : option JsVal) (r : t) : t :=
  {| name := name r; eventtype := eventtype r; timestart := timestart r;
     description_text := description_text r;
     description_format := description_format r; location := location r;
     duration := duration r; repeat := repeat r; courseid := courseid r;
     groupcourseid := groupcourseid r; groupid := v; categoryid := categoryid r;
     timedurationuntil := timedurationuntil r;
     timedurationminutes := timedurationminutes r; repeats := repeats r;
     repeatid := repeatid r; repeateditall := repeateditall r |}.

Definition set_categoryid (v : option JsVal) (r : t) : t :=
  {| name := name r; eventtype := eventtype r; timestart := timestart r;
     description_text := description_text r;
     description_format := description_format r; location := location r;
     duration := duration r; repeat := repeat r; courseid := courseid r;
     groupcourseid := groupcourseid r; groupid := groupid r; categoryid := v;
     timedurationuntil := timedurationuntil r;
     timedurationminutes := timedurationminutes r; repeats := repeats r;
     repeatid := repeatid r; repeateditall := repeateditall r |}.

Definition set_timedurationuntil (v : option JsVal) (r : t) : t :=
  {| name := name r; eventtype := eventtype r; timestart := timestart r;
     description_text := description_text r;
     description_format := description_format r; location := location r;
     duration := duration r; repeat := repeat r; courseid := courseid r;
     groupcourseid := groupcourseid r; groupid := groupid r;
     categoryid := categoryid r; timedurationuntil := v;
     timedurationminutes := timedurationminutes r; repeats := repeats r;
     repeatid := repeatid r; repeateditall := repeateditall r |}.

Definition set_timedurationminutes (v : option JsVal) (r : t) : t :=
  {| name := name r; eventtype := eventtype r; timestart := timestart r;
     description_text := description_text r;
     description_format := description_format r; location := location r;
     duration := duration r; repeat := repeat r; courseid := courseid r;
     groupcourseid := groupcourseid r; groupid := groupid r;
     categoryid := categoryid r; timedurationuntil := timedurationuntil r;
     timedurationminutes := v; repeats := repeats r; repeatid := repeatid r;
     repeateditall := repeateditall r |}.

Definition set_repeats (v : option JsVal) (r : t) : t :=
  {| name := name r; eventtype := eventtype r; timestart := timestart r;
     description_text := description_text r;
     description_format := description_format r; location := location r;
     duration := duration r; repeat := repeat r; courseid := courseid r;
     groupcourseid := groupcourseid r; groupid := groupid r;
     categoryid := categoryid r; timedurationuntil := timedurationuntil r;
     timedurationminutes := timedurationminutes r; repeats := v;
     repeatid := repeatid r; repeateditall := repeateditall r |}.

Definition set_repeatid (v : option JsVal) (r : t) : t :=
  {| name := name r; eventtype := eventtype r; timestart := timestart r;
     description_text := description_text r;
     description_format := description_format r; location := location r;
     duration := duration r; repeat := repeat r; courseid := courseid r;
     groupcourseid := groupcourseid r; groupid := groupid r;
     categoryid := categoryid r; timedurationuntil := timedurationuntil r;
     timedurationminutes := timedurationminutes r; repeats := repeats r;
     repeatid := v; repeateditall := repeateditall r |}.

Definition set_repeateditall (v : option JsVal) (r : t) : t :=
  {| name := name r; eventtype := eventtype r; timestart := timestart r;
     description_text := description_text r;
     description_format := description_format r; location := location r;
     duration := duration r; repeat := repeat r; courseid := courseid r;
     groupcourseid := groupcourseid r; groupid := groupid r;
     categoryid := categoryid r; timedurationuntil := timedurationuntil r;
     timedurationminutes := timedurationminutes r; repeats := repeats r;
     repeatid := repeatid r; repeateditall := v |}.
End Data.

(** ** The component *)

(** The fields of [AddonCalendarEditEventPage] that its methods read or
    write.  [form] is [this.form.value]: the value of each control under its
    name ([typeControl], [groupControl] and [descriptionControl] are the
    controls named [eventtype], [groupid] and [description]). *)
Module Page.
Record t : Type := mk {
  loaded : bool;
  hasOffline : bool;
  eventTypes : list AddonCalendarEventTypeOption;
  categories : list CoreCategoryData;
  courses : list CoreCourseData;
  groups : list CoreGroup;
  loadingGroups : bool;
  courseGroupSet : bool;
  error : bool;
  eventRepeatId : option Z;
  otherEventsCount : Z;
  eventId : option Z;
  form : gmap string JsVal;
  courseId : Z;
  originalData : option (gmap string JsVal);
  types : gmap string bool;
  showAll : bool;
  isDestroyed : bool;
  gotEventData : bool;
}.

(** [this.field = v]. *)
Definition set_loaded (v : bool) (r : t) : t :=
  {| loaded := v; hasOffline := hasOffline r; eventTypes := eventTypes r;
     categories := categories r; courses := courses r; groups := groups r;
     loadingGroups := loadingGroups r; courseGroupSet := courseGroupSet r;
     error := error r; eventRepeatId := eventRepeatId r;
     otherEventsCount := otherEventsCount r; eventId := eventId r; form := form r;
     courseId := courseId r; originalData := originalData r; types := types r;
     showAll := showAll r; isDestroyed := isDestroyed r;
     gotEventData := gotEventData r |}.

Definition set_hasOffline (v : bool) (r : t) : t :=
  {| loaded := loaded r; hasOffline := v; eventTypes := eventTypes r;
     categories := categories r; courses := courses r; groups := groups r;
     loadingGroups := loadingGroups r; courseGroupSet := courseGroupSet r;
     error := error r; eventRepeatId := eventRepeatId r;
     otherEventsCount := otherEventsCount r; eventId := eventId r; form := form r;
     courseId := courseId r; originalData := originalData r; types := types r;
     showAll := showAll r; isDestroyed := isDestroyed r;
     gotEventData := gotEventData r |}.

Definition set_eventTypes (v : list AddonCalendarEventTypeOption) (r : t) : t :=
  {| loaded := loaded r; hasOffline := hasOffline r; eventTypes := v;
     categories := categories r; courses := courses r; groups := groups r;
     loadingGroups := loadingGroups r; courseGroupSet := courseGroupSet r;
     error := error r; eventRepeatId := eventRepeatId r;
     otherEventsCount := otherEventsCount r; eventId := eventId r; form := form r;
     courseId := courseId r; originalData := originalData r; types := types r;
     showAll := showAll r; isDestroyed := isDestroyed r;
     gotEventData := gotEventData r |}.

Definition set_categories (v : list CoreCategoryData) (r : t) : t :=
  {| loaded := loaded r; hasOffline := hasOffline r; eventTypes := eventTypes r;
     categories := v; courses := courses r; groups := groups r;
     loadingGroups := loadingGroups r; courseGroupSet := courseGroupSet r;
     error := error r; eventRepeatId := eventRepeatId r;
     otherEventsCount := otherEventsCount r; eventId := eventId r; form := form r;
     courseId := courseId r; originalData := originalData r; types := types r;
     showAll := showAll r; isDestroyed := isDestroyed r;
     gotEventData := gotEventData r |}.

Definition set_courses (v : list CoreCourseData) (r : t) : t :=
  {| loaded := loaded r; hasOffline := hasOffline r; eventTypes := eventTypes r;
     categories := categories r; courses := v; groups := groups r;
     loadingGroups := loadingGroups r; courseGroupSet := courseGroupSet r;
     error := error r; eventRepeatId := eventRepeatId r;
     otherEventsCount := otherEventsCount r; eventId := eventId r; form := form r;
     courseId := courseId r; originalData := originalData r; types := types r;
     showAll := showAll r; isDestroyed := isDestroyed r;
     gotEventData := gotEventData r |}.

Definition set_groups (v : list CoreGroup) (r : t) : t :=
  {| loaded := loaded r; hasOffline := hasOffline r; eventTypes := eventTypes r;
     categories := categories r; courses := courses r; groups := v;
     loadingGroups := loadingGroups r; courseGroupSet := courseGroupSet r;
     error := error r; eventRepeatId := eventRepeatId r;
     otherEventsCount := otherEventsCount r; eventId := eventId r; form := form r;
     courseId := courseId r; originalData := originalData r; types := types r;
     showAll := showAll r; isDestroyed := isDestroyed r;
     gotEventData := gotEventData r |}.

Definition set_loadingGroups (v : bool) (r : t) : t :=
  {| loaded := loaded r; hasOffline := hasOffline r; eventTypes := eventTypes r;
     categories := categories r; courses := courses r; groups := groups r;
     loadingGroups := v; courseGroupSet := courseGroupSet r; error := error r;
     eventRepeatId := eventRepeatId r; otherEventsCount := otherEventsCount r;
     eventId := eventId r; form := form r; courseId := courseId r;
     originalData := originalData r; types := types r; showAll := showAll r;
     isDestroyed := isDestroyed r; gotEventData := gotEventData r |}.

Definition set_courseGroupSet (v : bool) (r : t) : t :=
  {| loaded := loaded r; hasOffline := hasOffline r; eventTypes := eventTypes r;
     categories := categories r; courses := courses r; groups := groups r;
     loadingGroups := loadingGroups r; courseGroupSet := v; error := error r;
     eventRepeatId := eventRepeatId r; otherEventsCount := otherEventsCount r;
     eventId := eventId r; form := form r; courseId := courseId r;
     originalData := originalData r; types := types r; showAll := showAll r;
     isDestroyed := isDestroyed r; gotEventData := gotEventData r |}.

Definition set_error (v : bool) (r : t) : t :=
  {| loaded := loaded r; hasOffline := hasOffline r; eventTypes := eventTypes r;
     categories := categories r; courses := courses r; groups := groups r;
     loadingGroups := loadingGroups r; courseGroupSet := courseGroupSet r;
     error := v; eventRepeatId := eventRepeatId r;
     otherEventsCount := otherEventsCount r; eventId := eventId r; form := form r;
     courseId := courseId r; originalData := originalData r; types := types r;
     showAll := showAll r; isDestroyed := isDestroyed r;
     gotEventData := gotEventData r |}.

Definition set_eventRepeatId (v : option Z) (r : t) : t :=
  {| loaded := loaded r; hasOffline := hasOffline r; eventTypes := eventTypes r;
     categories := categories r; courses := courses r; groups := groups r;
     loadingGroups := loadingGroups r; courseGroupSet := courseGroupSet r;
     error := error r; eventRepeatId := v; otherEventsCount := otherEventsCount r;
     eventId := eventId r; form := form r; courseId := courseId r;
     originalData := originalData r; types := types r; showAll := showAll r;
     isDestroyed := isDestroyed r; gotEventData := gotEventData r |}.

Definition set_otherEventsCount (v : Z) (r : t) : t :=
  {| loaded := loaded r; hasOffline := hasOffline r; eventTypes := eventTypes r;
     categories := categories r; courses := courses r; groups := groups r;
     loadingGroups := loadingGroups r; courseGroupSet := courseGroupSet r;
     error := error r; eventRepeatId := eventRepeatId r; otherEventsCount := v;
     eventId := eventId r; form := form r; courseId := courseId r;
     originalData := originalData r; types := types r; showAll := showAll r;
     isDestroyed := isDestroyed r; gotEventData := gotEventData r |}.

Definition set_eventId (v : option Z) (r : t) : t :=
  {| loaded := loaded r; hasOffline := hasOffline r; eventTypes := eventTypes r;
     categories := categories r; courses := courses r; groups := groups r;
     loadingGroups := loadingGroups r; courseGroupSet := courseGroupSet r;
     error := error r; eventRepeatId := eventRepeatId r;
     otherEventsCount := otherEventsCount r; eventId := v; form := form r;
     courseId := courseId r; originalData := originalData r; types := types r;
     showAll := showAll r; isDestroyed := isDestroyed r;
     gotEventData := gotEventData r |}.

Definition set_form (v : gmap string JsVal) (r : t) : t :=
  {| loaded := loaded r; hasOffline := hasOffline r; eventTypes := eventTypes r;
     categories := categories r; courses := courses r; groups := groups r;
     loadingGroups := loadingGroups r; courseGroupSet := courseGroupSet r;
     error := error r; eventRepeatId := eventRepeatId r;
     otherEventsCount := otherEventsCount r; eventId := eventId r; form := v;
     courseId := courseId r; originalData := originalData r; types := types r;
     showAll := showAll r; isDestroyed := isDestroyed r;
     gotEventData := gotEventData r |}.

Definition set_courseId (v : Z) (r : t) : t :=
  {| loaded := loaded r; hasOffline := hasOffline r; eventTypes := eventTypes r;
     categories := categories r; courses := courses r; groups := groups r;
     loadingGroups := loadingGroups r; courseGroupSet := courseGroupSet r;
     error := error r; eventRepeatId := eventRepeatId r;
     otherEventsCount := otherEventsCount r; eventId := eventId r; form := form r;
     courseId := v; originalData := originalData r; types := types r;
     showAll := showAll r; isDestroyed := isDestroyed r;
     gotEventData := gotEventData r |}.

Definition set_originalData (v : option (gmap string JsVal)) (r : t) : t :=
  {| loaded := loaded r; hasOffline := hasOffline r; eventTypes := eventTypes r;
     categories := categories r; courses := courses r; groups := groups r;
     loadingGroups := loadingGroups r; courseGroupSet := courseGroupSet r;
     error := error r; eventRepeatId := eventRepeatId r;
     otherEventsCount := otherEventsCount r; eventId := eventId r; form := form r;
     courseId := courseId r; originalData := v; types := types r;
     showAll := showAll r; isDestroyed := isDestroyed r;
     gotEventData := gotEventData r |}.

Definition set_types (v : gmap string bool) (r : t) : t :=
  {| loaded := loaded r; hasOffline := hasOffline r; eventTypes := eventTypes r;
     categories := categories r; courses := courses r; groups := groups r;
     loadingGroups := loadingGroups r; courseGroupSet := courseGroupSet r;
     error := error r; eventRepeatId := eventRepeatId r;
     otherEventsCount := otherEventsCount r; eventId := eventId r; form := form r;
     courseId := courseId r; originalData := originalData r; types := v;
     showAll := showAll r; isDestroyed := isDestroyed r;
     gotEventData := gotEventData r |}.

Definition set_showAll (v : bool) (r : t) : t :=
  {| loaded := loaded r; hasOffline := hasOffline r; eventTypes := eventTypes r;
     categories := categories r; courses := courses r; groups := groups r;
     loadingGroups := loadingGroups r; courseGroupSet := courseGroupSet r;
     error := error r; eventRepeatId := eventRepeatId r;
     otherEventsCount := otherEventsCount r; eventId := eventId r; form := form r;
     courseId := courseId r; originalData := originalData r; types := types r;
     showAll := v; isDestroyed := isDestroyed r; gotEventData := gotEventData r |}.

Definition set_isDestroyed (v : bool) (r : t) : t :=
  {| loaded := loaded r; hasOffline := hasOffline r; eventTypes := eventTypes r;
     categories := categories r; courses := courses r; groups := groups r;
     loadingGroups := loadingGroups r; courseGroupSet := courseGroupSet r;
     error := error r; eventRepeatId := eventRepeatId r;
     otherEventsCount := otherEventsCount r; eventId := eventId r; form := form r;
     courseId := courseId r; originalData := originalData r; types := types r;
     showAll := showAll r; isDestroyed := v; gotEventData := gotEventData r |}.

Definition set_gotEventData (v : bool) (r : t) : t :=
  {| loaded := loaded r; hasOffline := hasOffline r; eventTypes := eventTypes r;
     categories := categories r; courses := courses r; groups := groups r;
     loadingGroups := loadingGroups r; courseGroupSet := courseGroupSet r;
     error := error r; eventRepeatId := eventRepeatId r;
     otherEventsCount := otherEventsCount r; eventId := eventId r; form := form r;
     courseId := courseId r; originalData := originalData r; types := types r;
     showAll := showAll r; isDestroyed := isDestroyed r; gotEventData := v |}.
End Page.

(** ** Errors, effects and the answers of the services *)

Inductive Err : Type :=
| CoreError (msg : string)
| TypeError (msg : string)
| ServiceError (msg : string).

Inductive outcome (A : Type) : Type :=
| Ok (a : A)
| Throw (e : Err).
Arguments Ok {A} a.
Arguments Throw {A} e.

(** [AddonCalendar.submitEvent] resolves with [{ sent, event }]. *)
Record SubmitResult : Type := {
  sent : bool;
  event : CalendarEvent;
}.

(** Calls that leave the component.  Fetches that only read are not logged;
    their answers come from the [World]. *)
Inductive Effect : Type :=
| BlockOperation (component : string) (id : Z)
| UnblockOperation (component : string) (id : Z)
| ShowErrorModal (message : string)
| ShowErrorModalDefault (e : Err) (defaultMessage : string)
| ShowModalLoading (text : string)
| ModalDismiss
| SubmitEvent (eventId : option Z) (data : Data.t)
| TriggerFormSubmittedEvent (online : bool) (siteId : string)
| RefreshAfterChangeEvent (ev : CalendarEvent) (repeated : JsVal)
| EventsTrigger (eventName : string) (eventId : option Z) (siteId : string)
| NavigatorBack.

(** What the rest of the application answers. *)
Record World : Type := {
  routeEventId : option Z;
  routeCourseId : option Z;
  routeTimestamp : option Z;
  getAccessInformation : Z -> outcome AccessInformation;
  getAllowedEventTypes : Z -> outcome (gmap string bool);
  waitForSync : outcome unit;
  offlineGetEvent : Z -> outcome Offline.t;
  getEventById : Z -> outcome (option Online.t);
  getCategories : outcome (list CoreCategoryData);
  getCoursesByField : outcome (list CoreCourseData);
  getUserCourses : outcome (list CoreCourseData);
  getFiltersAndFormatText : string -> Z -> outcome string;
  getCurrentSiteHomeId : Z;
  getUserGroupsInCourse : JsVal -> outcome (list CoreGroup);
  calendar_adminseesall : JsVal;
  submitEvent : option Z -> Data.t -> outcome SubmitResult;
  refreshAfterChangeEvent : CalendarEvent -> JsVal -> outcome unit;
  outletActivated : bool;
  dateNow : Z;
  siteId : string;
}.

(** Constants of [AddonCalendarProvider] and [AddonCalendarSyncProvider]. *)
Definition COMPONENT : string := "AddonCalendarEvents".
Definition EDIT_EVENT_EVENT : string := "addon_calendar_edit_event".
Definition NEW_EVENT_EVENT : string := "addon_calendar_new_event".
Definition NEW_EVENT_DISCARDED_EVENT : string := "addon_calendar_new_event_discarded".

(** ** The monad of the methods

    A method runs from a page to an outcome, the page it leaves and the calls
    it made, in order.  A rejected promise and a thrown exception are both
    [Throw]. *)
Definition M (A : Type) : Type := Page.t -> outcome A * Page.t * list Effect.

Definition ret {A} (a : A) : M A := fun p => (Ok a, p, []).

Definition bind {A B} (m : M A) (k : A -> M B) : M B :=
  fun p =>
    match m p with
    | (Ok a, p1, t1) => let '(r, p2, t2) := k a p1 in (r, p2, t1 ++ t2)
    | (Throw e, p1, t1) => (Throw e, p1, t1)
    end.

#[global] Instance M_ret : MRet M := @ret.
#[global] Instance M_bind : MBind M := fun A B k m => bind m k.

Definition throw {A} (e : Err) : M A := fun p => (Throw e, p, []).

(** [await promise], the promise settled as the world says. *)
Definition await {A} (o : outcome A) : M A := fun p => (o, p, []).

Definition get : M Page.t := fun p => (Ok p, p, []).

Definition modify (f : Page.t -> Page.t) : M unit := fun p => (Ok tt, f p, []).

Definition emit (e : Effect) : M unit := fun p => (Ok tt, p, [e]).

(** [try { m } catch (e) { h e }]. *)
Definition try_catch {A} (m : M A) (h : Err -> M A) : M A :=
  fun p =>
    match m p with
    | (Throw e, p1, t1) => let '(r, p2, t2) := h e p1 in (r, p2, t1 ++ t2)
    | r => r
    end.

(** [try { m } finally { f }]. *)
Definition try_finally {A} (m : M A) (f : M unit) : M A :=
  fun p =>
    let '(r, p1, t1) := m p in
    match f p1 with
    | (Ok _, p2, t2) => (r, p2, t1 ++ t2)
    | (Throw e, p2, t2) => (Throw e, p2, t1 ++ t2)
    end.

(** [Promise.all(promises)], observed once every task has settled: each task
    runs to its end, and the result is rejected when a task was.  Which task
    settles first is a matter of the services' timing, which a [World] does
    not hold; the tasks are run here in the order they were pushed, so the
    order between the logged calls of two tasks, and which of several errors
    is the reported one, are those of that order.  The theorems on
    [fetchData], [ngOnInit] and [refreshData] are stated on what does not
    depend on it. *)
Fixpoint promise_all (promises : list (M unit)) : M unit :=
  match promises with
  | [] => ret tt
  | m :: rest =>
      fun p =>
        let '(r, p1, t1) := m p in
        let '(rs, p2, t2) := promise_all rest p1 in
        (match r with Ok _ => rs | Throw e => Throw e end, p2, t1 ++ t2)
  end.

(** [this.form.controls[name].setValue(v)] and [formData[name]].  The
    constructor and [ngOnInit] add the controls before any method sets one
    ([has_controls]); the methods are run on such forms.  On a form without
    the control the code throws a [TypeError], where the map gains the key. *)
Definition setValue (name : string) (v : JsVal) : M unit :=
  modify (fun p => Page.set_form (<[name := v]> (Page.form p)) p).

Definition field (formData : gmap string JsVal) (name : string) : JsVal :=
  default JUndefined (formData !! name).

(** The controls of the form: those of the constructor (lines 108-125) and
    the three that [ngOnInit] adds (lines 143-146). *)
Definition form_controls : list string :=
  ["name"; "eventtype"; "categoryid"; "groupcourseid"; "groupid";
   "description"; "location"; "duration"; "timedurationminutes"; "repeat";
   "repeats"; "repeateditall"; "timestart"; "timedurationuntil"; "courseid"].

Definition has_controls (form : gmap string JsVal) : bool :=
  forallb (fun name => match form !! name with Some _ => true | None => false end)
          form_controls.

(** [control.reset(v)]: the parameter defaults to [null], so a control given
    no value, or [undefined], holds [null]. *)
Definition reset_value (v : option JsVal) : JsVal :=
  match v with
  | Some JUndefined | None => JNull
  | Some v => v
  end.

(** [this.form.reset(value)]: every control is reset to its value in [value]
    ([value] defaults to the empty object). *)
Definition form_reset (value : option (gmap string JsVal))
    (form : gmap string JsVal) : gmap string JsVal :=
  map_imap (fun k _ => Some (reset_value (default ∅ value !! k))) form.

(** [this.types[name]], a missing key reading [undefined]. *)
Definition allowed (types : gmap string bool) (name : string) : bool :=
  default false (types !! name).

(** ** Coercions that need the platform *)

Section Coercions.
Context (pf : Platform).

(** ToNumber, as [Number(v)] computes it. *)
Definition ToNumber (v : JsVal) : Num :=
  match v with
  | JUndefined => NaN
  | JNull => Fin 0
  | JBool b => Fin (if b then 1 else 0)
  | JNum n => n
  | JStr s => StringToNumber pf s
  end.

Definition unbool (v : JsVal) : JsVal :=
  match v with JBool _ => JNum (ToNumber v) | _ => v end.

(** [a == b] on primitives: a boolean operand is first turned into a number,
    a string facing a number is turned into a number, [null] and [undefined]
    equal each other and nothing else. *)
Definition loose_eq (a b : JsVal) : bool :=
  match unbool a, unbool b with
  | JUndefined, JUndefined | JUndefined, JNull
  | JNull, JUndefined | JNull, JNull => true
  | JNum x, JNum y => Js.num_eq x y
  | JStr s, JStr t => String.eqb s t
  | JNum x, JStr s => Js.num_eq x (StringToNumber pf s)
  | JStr s, JNum y => Js.num_eq (StringToNumber pf s) y
  | _, _ => false
  end.

(** [v > 0] where [v] may be any primitive. *)
Definition gt_zero (v : JsVal) : bool := Js.gt (ToNumber v) (Fin 0).

End Coercions.

(** [formData.eventtype == AddonCalendarEventType.X]. *)
Definition is_type (pf : Platform) (formData : gmap string JsVal)
    (t : AddonCalendarEventType) : bool :=
  loose_eq pf (field formData "eventtype") (JStr (type_value t)).

(** [formData.duration == n]. *)
Definition duration_is (pf : Platform) (formData : gmap string JsVal) (n : Z) : bool :=
  loose_eq pf (field formData "duration") (JNum (Fin n)).

(** ** The methods *)

Section Methods.
Context (pf : Platform) (w : World).

(** [unblockSync] (lines 626-630). *)
Definition unblockSync : M unit :=
  p ← get;
  if Js.truthy (Js.of_opt (Page.eventId p))
  then emit (UnblockOperation COMPONENT (default 0 (Page.eventId p)))
  else ret tt.

(** [ngOnDestroy] (lines 635-638). *)
Definition ngOnDestroy : M unit :=
  unblockSync;;
  modify (Page.set_isDestroyed true).

(** [loadGroups] (lines 425-434). *)
Definition loadGroups (courseId : JsVal) : M unit :=
  modify (Page.set_loadingGroups true);;
  try_finally
    (groups ← await (getUserGroupsInCourse w courseId);
     modify (Page.set_groups groups);;
     modify (Page.set_courseGroupSet true))
    (modify (Page.set_loadingGroups false)).

(** [loadEventData] (lines 308-364).  [event] is [None] for a falsy
    argument. *)
Definition loadEventData (event : option CalendarEvent) (isOffline : bool) : M unit :=
  match event with
  | None => ret tt
  | Some event =>
      let courseId := if isOffline then Ev.courseid event else Ev.course_id event in
      setValue "name" (Ev.name event);;
      setValue "timestart"
        (JStr (toDatetimeFormat pf (JNum (Js.mul (Ev.timestart event) (Fin 1000)))));;
      setValue "eventtype" (JStr (Ev.eventtype event));;
      setValue "categoryid" (Js.or (Ev.categoryid event) (JStr ""));;
      setValue "courseid" (Js.or courseId (JStr ""));;
      setValue "groupcourseid" (Js.or courseId (JStr ""));;
      setValue "groupid" (Js.or (Ev.groupid event) (JStr ""));;
      setValue "description" (Ev.description event);;
      setValue "location" (Ev.location event);;
      (if isOffline then
         setValue "duration" (Ev.duration event);;
         setValue "timedurationuntil"
           (JStr (toDatetimeFormat pf
              (Js.or
                 (JNum (Js.mul
                    (ToNumber pf (Js.or (Ev.timedurationuntil event) (JNum (Fin 0))))
                    (Fin 1000)))
                 (JNum (Fin (dateNow w))))));;
         setValue "timedurationminutes" (Js.or (Ev.timedurationminutes event) (JStr ""));;
         setValue "repeat" (Js.bangbang (Ev.repeat event));;
         setValue "repeats" (Js.or (Ev.repeats event) (JStr "1"));;
         setValue "repeateditall" (Js.or (Ev.repeateditall event) (JNum (Fin 1)))
       else
         (if gt_zero pf (Ev.timeduration event) then
            setValue "duration" (JNum (Fin 1));;
            setValue "timedurationuntil"
              (JStr (toDatetimeFormat pf
                 (JNum (Js.mul
                    (Js.add (Ev.timestart event) (ToNumber pf (Ev.timeduration event)))
                    (Fin 1000)))))
          else
            setValue "duration" (JNum (Fin 0));;
            setValue "timedurationuntil" (JStr (toDatetimeFormat pf JUndefined)));;
         setValue "timedurationminutes" (JStr "");;
         setValue "repeat" (Js.bangbang (Ev.repeatid event));;
         setValue "repeats" (Js.or (Ev.eventcount event) (JStr "1"));;
         setValue "repeateditall" (JNum (Fin 1)));;
      if (String.eqb (Ev.eventtype event) (type_value GROUP) && Js.truthy courseId)%bool
      then loadGroups courseId
      else ret tt
  end.

(** [fetchCategories] (lines 249-251). *)
Definition fetchCategories : M unit :=
  categories ← await (getCategories w);
  modify (Page.set_categories categories).

(** ['contacts' in o]: a [TypeError] when [o] is [undefined]. *)
Definition contacts_in (o : option CoreCourseData) : M bool :=
  match o with
  | Some course => ret (has_contacts course)
  | None =>
      throw (TypeError "Cannot use 'in' operator to search for 'contacts' in undefined")
  end.

(** [courseFillterFullname]: the name becomes the filtered text; a failure
    of the filter is ignored and leaves the name. *)
Definition courseFillterFullname (course : CoreCourseData) : CoreCourseData :=
  match getFiltersAndFormatText w (fullname course) (course_id course) with
  | Ok text =>
      {| course_id := course_id course; fullname := text;
         has_contacts := has_contacts course |}
  | Throw _ => course
  end.

(** The comparison given to [courses.sort]. *)
Definition compare_fullname (a b : CoreCourseData) : Z :=
  localeCompare pf (toLowerCase pf (fullname a)) (toLowerCase pf (fullname b)).

(** [Array.prototype.sort(cmp)], which is stable: an element goes before the
    first later element it does not compare greater than. *)
Fixpoint sort_insert {A} (cmp : A -> A -> Z) (x : A) (l : list A) : list A :=
  match l with
  | [] => [x]
  | y :: r => if cmp x y <=? 0 then x :: l else y :: sort_insert cmp x r
  end.

Fixpoint array_sort {A} (cmp : A -> A -> Z) (l : list A) : list A :=
  match l with
  | [] => []
  | x :: r => sort_insert cmp x (array_sort cmp r)
  end.

(** [fetchCourses] (lines 253-299). *)
Definition fetchCourses : M unit :=
  p ← get;
  courses ← await (if Page.showAll p then getCoursesByField w else getUserCourses w);
  if Z.of_nat (length courses) <? 0 then
    modify (Page.set_courses [])
  else
    courses ← (if Page.showAll p then
                 let siteHomeId := getCurrentSiteHomeId w in
                 searched ← contacts_in (courses !! 0%nat);
                 if (searched : bool)
                 then ret (List.filter
                             (fun course => negb (course_id course =? siteHomeId)) courses)
                 else ret (List.filter
                             (fun course => negb (course_id course =? siteHomeId)) courses)
               else ret courses);
    searched ← contacts_in (courses !! 0%nat);
    let courses := if (searched : bool)
                   then map courseFillterFullname courses
                   else map courseFillterFullname courses in
    modify (Page.set_courses (array_sort compare_fullname courses)).

(** The callback chained on [AddonCalendarSync.waitForSync] in [fetchData]
    (lines 176-217): block the sync, read the offline copy and the server
    copy of the event, load one of them in the form. *)
Definition fetchEvent : M unit :=
  await (waitForSync w);;
  p ← get;
  let eventId := default 0 (Page.eventId p) in
  (if (negb (Page.isDestroyed p) && Js.truthy (Js.of_opt (Page.eventId p)))%bool
   then emit (BlockOperation COMPONENT eventId)
   else ret tt);;
  eventForm ← try_catch
    (offline ← await (offlineGetEvent w eventId);
     modify (Page.set_hasOffline true);;
     ret (Some (OfflineEvent offline)))
    (fun _ => modify (Page.set_hasOffline false);; ret None);
  eventForm ← (if 0 <? eventId then
                 event ← await (getEventById w eventId);
                 let eventForm : option CalendarEvent :=
                   match eventForm with
                   | None => OnlineEvent <$> event
                   | Some _ => eventForm
                   end in
                 let eventRepeatId := event ≫= Online.repeatid in
                 modify (Page.set_eventRepeatId eventRepeatId);;
                 (if Js.truthy (Js.of_opt eventRepeatId) then
                    let eventcount := Js.of_opt (event ≫= Online.eventcount) in
                    modify (Page.set_otherEventsCount
                      (if Js.truthy eventcount
                       then default 0 (event ≫= Online.eventcount) - 1
                       else 0))
                  else ret tt);;
                 ret eventForm
               else ret eventForm);
  modify (Page.set_gotEventData true);;
  match eventForm with
  | Some _ => p ← get; loadEventData eventForm (Page.hasOffline p)
  | None => ret tt
  end.

(** [fetchData], the body of its [try] up to [await Promise.all(promises)]
    (lines 164-231): the allowed types and their options, once every fetch
    has settled. *)
Definition fetchData_load
    : M (gmap string bool * list AddonCalendarEventTypeOption) :=
  p ← get;
  accessInfo ← await (getAccessInformation w (Page.courseId p));
  types ← await (getAllowedEventTypes w (Page.courseId p));
  modify (Page.set_types types);;
  let eventTypes := getEventTypeOptions pf types in
  if (length eventTypes =? 0)%nat then
    throw (CoreError (instant pf "addon.calendar.nopermissiontoupdatecalendar"))
  else
    let promises : list (M unit) := [] in
    let promises :=
      if (Js.truthy (Js.of_opt (Page.eventId p)) && negb (Page.gotEventData p))%bool
      then promises ++ [fetchEvent] else promises in
    let promises :=
      if allowed types "category" then promises ++ [fetchCategories] else promises in
    modify (Page.set_showAll
      (isTrueOrOne pf (calendar_adminseesall w) && canmanageentries accessInfo));;
    let promises :=
      if (allowed types "course" || allowed types "groups")%bool
      then promises ++ [fetchCourses] else promises in
    promise_all promises;;
    ret (types, eventTypes).

(** [fetchData], the rest of the body of its [try] (lines 233-242). *)
Definition fetchData_init (types : gmap string bool)
    (eventTypes : list AddonCalendarEventTypeOption) : M unit :=
  p ← get;
  (if negb (Js.truthy (field (Page.form p) "eventtype")) then
     if allowed types "course" then
       setValue "eventtype" (JStr (type_value COURSE))
     else
       match eventTypes !! 0%nat with
       | Some option => setValue "eventtype" (JStr (type_value (opt_value option)))
       | None => throw (TypeError "Cannot read properties of undefined (reading 'value')")
       end
   else ret tt);;
  modify (Page.set_eventTypes eventTypes).

(** [fetchData] (lines 157-247). *)
Definition fetchData : M unit :=
  modify (Page.set_error false);;
  try_catch
    ('(types, eventTypes) ← fetchData_load;
     fetchData_init types eventTypes)
    (fun error =>
       emit (ShowErrorModalDefault error "Error getting data.");;
       modify (Page.set_error true)).

(** The form the constructor builds (lines 108-125) and the page it leaves. *)
Definition constructor_form : gmap string JsVal :=
  <["repeateditall" := JNum (Fin 1)]>
  (<["repeats" := JStr "1"]>
  (<["repeat" := JBool false]>
  (<["timedurationminutes" := JStr ""]>
  (<["duration" := JNum (Fin 0)]>
  (<["location" := JStr ""]>
  (<["description" := JStr ""]>
  (<["groupid" := JStr ""]>
  (<["groupcourseid" := JStr ""]>
  (<["categoryid" := JStr ""]>
  (<["eventtype" := JStr ""]>
  (<["name" := JStr ""]> ∅))))))))))).

Definition constructor : Page.t :=
  {| Page.loaded := false; Page.hasOffline := false; Page.eventTypes := [];
     Page.categories := []; Page.courses := []; Page.groups := [];
     Page.loadingGroups := false; Page.courseGroupSet := false;
     Page.error := false; Page.eventRepeatId := None; Page.otherEventsCount := 0;
     Page.eventId := None; Page.form := constructor_form; Page.courseId := 0;
     Page.originalData := None; Page.types := ∅; Page.showAll := false;
     Page.isDestroyed := false; Page.gotEventData := false |}.

(** [ngOnInit] (lines 134-149). *)
Definition ngOnInit : M unit :=
  modify (Page.set_eventId
    (if Js.truthy (Js.of_opt (routeEventId w)) then routeEventId w else None));;
  modify (Page.set_courseId
    (if Js.truthy (Js.of_opt (routeCourseId w)) then default 0 (routeCourseId w) else 0));;
  let currentDate := JStr (toDatetimeFormat pf (Js.of_opt (routeTimestamp w))) in
  setValue "timestart" currentDate;;
  setValue "timedurationuntil" currentDate;;
  p ← get;
  setValue "courseid" (JNum (Fin (Page.courseId p)));;
  try_finally fetchData
    (modify (fun p => Page.set_originalData (Some (Page.form p)) p);;
     modify (Page.set_loaded true)).

(** [selectDuration] (lines 443-445). *)
Definition selectDuration (duration : string) : M unit :=
  setValue "duration" (JStr duration).

(** The value of [error] after the chain of tests of [submit] (lines
    452-470): the key of the message of the first rule that fails. *)
Definition submit_error (formData : gmap string JsVal) : option string :=
  let timeStartDate := convertToTimestamp pf (field formData "timestart") in
  let timeUntilDate := convertToTimestamp pf (field formData "timedurationuntil") in
  let timeDurationMinutes :=
    Js.parseInt (Js.or (field formData "timedurationminutes") (JStr "")) in
  if (is_type pf formData COURSE && negb (Js.truthy (field formData "courseid")))%bool then
    Some "core.selectacourse"
  else if (is_type pf formData GROUP
           && negb (Js.truthy (field formData "groupcourseid")))%bool then
    Some "core.selectacourse"
  else if (is_type pf formData GROUP && negb (Js.truthy (field formData "groupid")))%bool then
    Some "core.selectagroup"
  else if (is_type pf formData CATEGORY
           && negb (Js.truthy (field formData "categoryid")))%bool then
    Some "core.selectacategory"
  else if (duration_is pf formData 1 && Js.gt timeStartDate timeUntilDate)%bool then
    Some "addon.calendar.invalidtimedurationuntil"
  else if (duration_is pf formData 2
           && (Js.isNaN timeDurationMinutes || Js.lt timeDurationMinutes (Fin 1)))%bool then
    Some "addon.calendar.invalidtimedurationminutes"
  else None.

(** The payload [data] that [submit] builds (lines 480-515). *)
Definition submit_data (formData : gmap string JsVal) (eventRepeatId : option Z) : Data.t :=
  let timeStartDate := convertToTimestamp pf (field formData "timestart") in
  let timeUntilDate := convertToTimestamp pf (field formData "timedurationuntil") in
  let data :=
    {| Data.name := field formData "name";
       Data.eventtype := field formData "eventtype";
       Data.timestart := timeStartDate;
       Data.description_text := Js.or (field formData "description") (JStr "");
       Data.description_format := 1;
       Data.location := field formData "location";
       Data.duration := field formData "duration";
       Data.repeat := field formData "repeat";
       Data.courseid := None; Data.groupcourseid := None; Data.groupid := None;
       Data.categoryid := None; Data.timedurationuntil := None;
       Data.timedurationminutes := None; Data.repeats := None;
       Data.repeatid := None; Data.repeateditall := None |} in
  let data :=
    if is_type pf formData COURSE then
      Data.set_courseid (Some (field formData "courseid")) data
    else if is_type pf formData GROUP then
      Data.set_groupid (Some (field formData "groupid"))
        (Data.set_groupcourseid (Some (field formData "groupcourseid")) data)
    else if is_type pf formData CATEGORY then
      Data.set_categoryid (Some (field formData "categoryid")) data
    else data in
  let data :=
    if duration_is pf formData 1 then
      Data.set_timedurationuntil (Some (JNum timeUntilDate)) data
    else if duration_is pf formData 2 then
      Data.set_timedurationminutes (Some (field formData "timedurationminutes")) data
    else data in
  let data :=
    if Js.truthy (field formData "repeat") then
      Data.set_repeats (Some (JNum (ToNumber pf (field formData "repeats")))) data
    else data in
  if Js.truthy (Js.of_opt eventRepeatId) then
    Data.set_repeateditall (Some (field formData "repeateditall"))
      (Data.set_repeatid (Some (Js.of_opt eventRepeatId)) data)
  else data.

(** [returnToList] (lines 552-584). *)
Definition returnToList (event : option CalendarEvent) : M unit :=
  unblockSync;;
  p ← get;
  (if (Js.truthy (Js.of_opt (Page.eventId p)) && (0 <? default 0 (Page.eventId p)))%bool then
     emit (EventsTrigger EDIT_EVENT_EVENT (Page.eventId p) (siteId w))
   else
     match event with
     | Some event => emit (EventsTrigger NEW_EVENT_EVENT (Some (Ev.id event)) (siteId w))
     | None => emit (EventsTrigger NEW_EVENT_DISCARDED_EVENT None (siteId w))
     end);;
  if outletActivated w then
    modify (Page.set_hasOffline false);;
    modify (fun p => Page.set_form (form_reset (Page.originalData p) (Page.form p)) p);;
    modify (fun p => Page.set_originalData (Some (Page.form p)) p)
  else
    modify (Page.set_originalData None);;
    emit NavigatorBack.

(** [submit] up to the call of [AddonCalendar.submitEvent] (lines 450-522):
    [None] when a rule failed and the method returned, else the snapshot of
    the form and the payload that was sent. *)
Definition submit_send : M (option (gmap string JsVal * Data.t)) :=
  p ← get;
  let formData := Page.form p in
  match submit_error formData with
  | Some error =>
      emit (ShowErrorModal (instant pf error));;
      ret None
  | None =>
      let data := submit_data formData (Page.eventRepeatId p) in
      emit (ShowModalLoading "core.sending");;
      emit (SubmitEvent (Page.eventId p) data);;
      ret (Some (formData, data))
  end.

(** [submit] from the moment the promise of [submitEvent] settles, with
    [answer], to the end (lines 522-544). *)
Definition submit_resume (formData : gmap string JsVal) (data : Data.t)
    (answer : outcome SubmitResult) : M unit :=
  try_catch
    (result ← await answer;
     emit (TriggerFormSubmittedEvent (sent result) (siteId w));;
     (if sent result then
        p ← get;
        let numberOfRepetitions :=
          if Js.truthy (field formData "repeat") then field formData "repeats"
          else if (Js.truthy (default JUndefined (Data.repeateditall data))
                   && negb (Page.otherEventsCount p =? 0))%bool
               then JNum (Fin (Page.otherEventsCount p + 1))
               else JNum (Fin 1) in
        try_catch
          (emit (RefreshAfterChangeEvent (event result) numberOfRepetitions);;
           await (refreshAfterChangeEvent w (event result) numberOfRepetitions))
          (fun _ => ret tt)
      else ret tt);;
     returnToList (Some (event result)))
    (fun error => emit (ShowErrorModalDefault error "Error sending data."));;
  emit ModalDismiss.

(** [submit] (lines 450-545). *)
Definition submit : M unit :=
  p ← get;
  sending ← submit_send;
  match sending with
  | None => ret tt
  | Some (formData, data) =>
      submit_resume formData data (submitEvent w (Page.eventId p) data)
  end.

End Methods.

(** The promises that [fetchData] has pushed before it calls
    [fetchCourses] (lines 167-223). *)
Definition promises_before (pf : Platform) (w : World) (p : Page.t)
    (types : gmap string bool) : list (M unit) :=
  let promises : list (M unit) := [] in
  let promises :=
    if (Js.truthy (Js.of_opt (Page.eventId p)) && negb (Page.gotEventData p))%bool
    then promises ++ [fetchEvent pf w] else promises in
  if allowed types "category" then promises ++ [fetchCategories w] else promises.

(** ** Observations on a run *)

Definition result_of {A} (r : outcome A * Page.t * list Effect) : outcome A := r.1.1.
Definition page_of {A} (r : outcome A * Page.t * list Effect) : Page.t := r.1.2.
Definition trace_of {A} (r : outcome A * Page.t * list Effect) : list Effect := r.2.

(** Is the call [CoreSync.unblockOperation(COMPONENT, id)]? *)
Definition is_unblock (id : Z) (e : Effect) : bool :=
  match e with
  | UnblockOperation component id' => (String.eqb component COMPONENT && (id' =? id))%bool
  | _ => false
  end.

(** How many times the lock of event [id] was released in a trace. *)
Definition unblock_calls (id : Z) (t : list Effect) : nat :=
  length (List.filter (is_unblock id) t).

(** A computation that never changes what [f] reads in the page. *)
Definition preserves {A X} (f : Page.t -> X) (m : M A) : Prop :=
  forall p, f (page_of (m p)) = f p.

(** Whatever the page it starts from, [m] leaves the value [v] in the
    control [name]. *)
Definition sets {A} (name : string) (v : JsVal) (m : M A) : Prop :=
  forall p, field (Page.form (page_of (m p))) name = v.

(** [m] never changes the value of the control [name]. *)
Definition keeps {A} (name : string) (m : M A) : Prop :=
  preserves (fun p => field (Page.form p) name) m.

(** [m] never throws. *)
Definition never_throws {A} (m : M A) : Prop :=
  forall p, exists a, result_of (m p) = Ok a.

Definition is_submit (e : Effect) : bool :=
  match e with SubmitEvent _ _ => true | _ => false end.

(** No rule on the fields that an event type requires fails: the first four
    tests of [submit] are false. *)
Definition type_rules_hold (pf : Platform) (formData : gmap string JsVal) : bool :=
  (negb (is_type pf formData COURSE && negb (Js.truthy (field formData "courseid")))
   && negb (is_type pf formData GROUP && negb (Js.truthy (field formData "groupcourseid")))
   && negb (is_type pf formData GROUP && negb (Js.truthy (field formData "groupid")))
   && negb (is_type pf formData CATEGORY && negb (Js.truthy (field formData "categoryid"))))%bool.

(** The user submits, the server answers, and the page is destroyed
    afterwards. *)
Definition submit_then_destroy (pf : Platform) (w : World) : M unit :=
  submit pf w;;
  ngOnDestroy.

(** The page is destroyed while [submit] awaits the answer of the server;
    [submit] goes on when the answer comes. *)
Definition destroy_during_submit (pf : Platform) (w : World) : M unit :=
  p ← get;
  sending ← submit_send pf;
  ngOnDestroy;;
  match sending with
  | None => ret tt
  | Some (formData, data) =>
      submit_resume w formData data (submitEvent w (Page.eventId p) data)
  end.

(** ** A platform and a world to run the page on *)

Module Demo.

Definition all_digits (s : string) : bool :=
  forallb (fun c => bool_decide (is_Some (Js.digit_of c))) (list_ascii_of_string s).

Definition toNumber (s : string) : Num :=
  if String.eqb s "" then Fin 0
  else if all_digits s then Js.parseInt10 s else NaN.

Definition timestamp (v : JsVal) : Num :=
  match v with
  | JStr "2021-03-01T09:00" => Fin 1614589200
  | JStr "2021-03-01T10:00" => Fin 1614592800
  | JStr "2021-03-01T11:00" => Fin 1614596400
  | _ => NaN
  end.

Definition datetime (v : JsVal) : string :=
  match v with
  | JNum (Fin 1614589200000) => "2021-03-01T09:00"
  | JNum (Fin 1614592800000) => "2021-03-01T10:00"
  | JNum (Fin 1614596400000) => "2021-03-01T11:00"
  | _ => "2021-03-01T08:00"
  end.

Definition compareNames (a b : string) : Z :=
  match String.compare a b with Lt => -1 | Eq => 0 | Gt => 1 end.

Definition typeOptions (types : gmap string bool)
    : list AddonCalendarEventTypeOption :=
  (if allowed types "user" then [{| opt_name := "core.user"; opt_value := USER |}] else [])
  ++ (if allowed types "group" then [{| opt_name := "core.group"; opt_value := GROUP |}] else [])
  ++ (if allowed types "course" then [{| opt_name := "core.course"; opt_value := COURSE |}] else [])
  ++ (if allowed types "category"
      then [{| opt_name := "core.category"; opt_value := CATEGORY |}] else [])
  ++ (if allowed types "site" then [{| opt_name := "core.site"; opt_value := SITE |}] else []).

Definition trueOrOne (v : JsVal) : bool :=
  match v with
  | JBool b => b
  | JStr s => (String.eqb s "true" || Js.num_eq (Js.parseInt10 s) (Fin 1))%bool
  | JNum n => Js.num_eq n (Fin 1)
  | _ => false
  end.

Definition toNumber_type (t : AddonCalendarEventType)
    : toNumber (type_value t) = NaN :=
  match t with
  | COURSE | GROUP | CATEGORY | USER | SITE => eq_refl
  end.

Definition platform : Platform :=
  {| StringToNumber := toNumber;
     StringToNumber_type := toNumber_type;
     convertToTimestamp := timestamp;
     toDatetimeFormat := datetime;
     instant := fun key => key;
     toLowerCase := fun s => s;
     localeCompare := compareNames;
     getEventTypeOptions := typeOptions;
     isTrueOrOne := trueOrOne |}.

Definition serverEvent : Online.t :=
  {| Online.id := 7; Online.name := "Exam"; Online.timestart := 1614589200;
     Online.timeduration := 3600; Online.eventtype := "user";
     Online.categoryid := None; Online.course := None; Online.groupid := None;
     Online.description := "Room 3"; Online.location := None;
     Online.repeatid := None; Online.eventcount := None |}.

(** A local draft: until-time 11:00, no duration in minutes. *)
Definition draft : Offline.t :=
  {| Offline.id := 7; Offline.name := "Exam"; Offline.timestart := 1614589200;
     Offline.eventtype := "user"; Offline.categoryid := None;
     Offline.courseid := None; Offline.groupcourseid := None;
     Offline.groupid := None; Offline.description := Some "Room 3";
     Offline.location := None; Offline.duration := Some 1;
     Offline.timedurationuntil := Some 1614596400;
     Offline.timedurationminutes := None; Offline.repeat := None;
     Offline.repeats := None; Offline.repeatid := None;
     Offline.repeateditall := None |}.

(** A world where the user may create events of the given types and is
    enrolled in the given courses. *)
Definition make_world (types : gmap string bool) (courses : list CoreCourseData) : World :=
  {| routeEventId := Some 7; routeCourseId := None; routeTimestamp := None;
     getAccessInformation := fun _ =>
       Ok {| canmanageentries := false; canmanageownentries := true;
             canmanagegroupentries := false |};
     getAllowedEventTypes := fun _ => Ok types;
     waitForSync := Ok tt;
     offlineGetEvent := fun _ => Throw (ServiceError "No offline data");
     getEventById := fun _ => Ok (Some serverEvent);
     getCategories := Ok [];
     getCoursesByField := Ok courses;
     getUserCourses := Ok courses;
     getFiltersAndFormatText := fun text _ => Ok text;
     getCurrentSiteHomeId := 1;
     getUserGroupsInCourse := fun _ => Ok [];
     calendar_adminseesall := JUndefined;
     submitEvent := fun _ _ => Ok {| sent := true; event := OnlineEvent serverEvent |};
     refreshAfterChangeEvent := fun _ _ => Ok tt;
     outletActivated := false;
     dateNow := 1614585600000;
     siteId := "site1" |}.

(** User and course events are allowed; the user has no course. *)
Definition world : World :=
  make_world (<["user" := true]> (<["course" := true]> ∅)) [].

(** The same, the user being enrolled in two courses. *)
Definition world_courses : World :=
  make_world (<["user" := true]> (<["course" := true]> ∅))
    [ {| course_id := 12; fullname := "physics"; has_contacts := false |};
      {| course_id := 11; fullname := "algebra"; has_contacts := false |} ].

(** Only user and site events are allowed. *)
Definition world_user : World :=
  make_world (<["site" := true]> (<["user" := true]> ∅)) [].

(** No event type is allowed. *)
Definition world_none : World := make_world ∅ [].

(** The page editing event 7, its form filled by the user. *)
Definition form (eventtype : string) (duration : Z) : gmap string JsVal :=
  <["courseid" := JStr ""]>
  (<["timedurationuntil" := JStr "2021-03-01T09:00"]>
  (<["timestart" := JStr "2021-03-01T10:00"]>
  (<["timedurationminutes" := JStr "abc"]>
  (<["duration" := JNum (Fin duration)]>
  (<["eventtype" := JStr eventtype]>
  (<["name" := JStr "Exam"]> constructor_form)))))).

Definition page (eventtype : string) (duration : Z) : Page.t :=
  Page.set_form (form eventtype duration) (Page.set_eventId (Some 7) constructor).

(** A Group event with the course of the group chosen and no group. *)
Definition group_page : Page.t :=
  Page.set_form (<["groupcourseid" := JNum (Fin 5)]> (form "group" 0)) (page "group" 0).

(** A User event that lasts 45 minutes. *)
Definition minutes_page : Page.t :=
  Page.set_form (<["timedurationminutes" := JStr "45"]> (form "user" 2)) (page "user" 2).

(** A User event from 10:00 until 11:00. *)
Definition until_page : Page.t :=
  Page.set_form (<["timedurationuntil" := JStr "2021-03-01T11:00"]> (form "user" 1))
    (page "user" 1).

(** The worlds above with another answer of the server to [submitEvent], in
    or out of the split view, or with another answer of the offline store. *)
Definition with_submit (answer : outcome SubmitResult) (w : World) : World :=
  {| routeEventId := routeEventId w; routeCourseId := routeCourseId w;
     routeTimestamp := routeTimestamp w;
     getAccessInformation := getAccessInformation w;
     getAllowedEventTypes := getAllowedEventTypes w;
     waitForSync := waitForSync w;
     offlineGetEvent := offlineGetEvent w;
     getEventById := getEventById w;
     getCategories := getCategories w;
     getCoursesByField := getCoursesByField w;
     getUserCourses := getUserCourses w;
     getFiltersAndFormatText := getFiltersAndFormatText w;
     getCurrentSiteHomeId := getCurrentSiteHomeId w;
     getUserGroupsInCourse := getUserGroupsInCourse w;
     calendar_adminseesall := calendar_adminseesall w;
     submitEvent := fun _ _ => answer;
     refreshAfterChangeEvent := refreshAfterChangeEvent w;
     outletActivated := outletActivated w;
     dateNow := dateNow w;
     siteId := siteId w |}.

Definition with_outlet (activated : bool) (w : World) : World :=
  {| routeEventId := routeEventId w; routeCourseId := routeCourseId w;
     routeTimestamp := routeTimestamp w;
     getAccessInformation := getAccessInformation w;
     getAllowedEventTypes := getAllowedEventTypes w;
     waitForSync := waitForSync w;
     offlineGetEvent := offlineGetEvent w;
     getEventById := getEventById w;
     getCategories := getCategories w;
     getCoursesByField := getCoursesByField w;
     getUserCourses := getUserCourses w;
     getFiltersAndFormatText := getFiltersAndFormatText w;
     getCurrentSiteHomeId := getCurrentSiteHomeId w;
     getUserGroupsInCourse := getUserGroupsInCourse w;
     calendar_adminseesall := calendar_adminseesall w;
     submitEvent := submitEvent w;
     refreshAfterChangeEvent := refreshAfterChangeEvent w;
     outletActivated := activated;
     dateNow := dateNow w;
     siteId := siteId w |}.

Definition with_offline (answer : outcome Offline.t) (w : World) : World :=
  {| routeEventId := routeEventId w; routeCourseId := routeCourseId w;
     routeTimestamp := routeTimestamp w;
     getAccessInformation := getAccessInformation w;
     getAllowedEventTypes := getAllowedEventTypes w;
     waitForSync := waitForSync w;
     offlineGetEvent := fun _ => answer;
     getEventById := getEventById w;
     getCategories := getCategories w;
     getCoursesByField := getCoursesByField w;
     getUserCourses := getUserCourses w;
     getFiltersAndFormatText := getFiltersAndFormatText w;
     getCurrentSiteHomeId := getCurrentSiteHomeId w;
     getUserGroupsInCourse := getUserGroupsInCourse w;
     calendar_adminseesall := calendar_adminseesall w;
     submitEvent := submitEvent w;
     refreshAfterChangeEvent := refreshAfterChangeEvent w;
     outletActivated := outletActivated w;
     dateNow := dateNow w;
     siteId := siteId w |}.

Definition with_groups (answer : outcome (list CoreGroup)) (w : World) : World :=
  {| routeEventId := routeEventId w; routeCourseId := routeCourseId w;
     routeTimestamp := routeTimestamp w;
     getAccessInformation := getAccessInformation w;
     getAllowedEventTypes := getAllowedEventTypes w;
     waitForSync := waitForSync w;
     offlineGetEvent := offlineGetEvent w;
     getEventById := getEventById w;
     getCategories := getCategories w;
     getCoursesByField := getCoursesByField w;
     getUserCourses := getUserCourses w;
     getFiltersAndFormatText := getFiltersAndFormatText w;
     getCurrentSiteHomeId := getCurrentSiteHomeId w;
     getUserGroupsInCourse := fun _ => answer;
     calendar_adminseesall := calendar_adminseesall w;
     submitEvent := submitEvent w;
     refreshAfterChangeEvent := refreshAfterChangeEvent w;
     outletActivated := outletActivated w;
     dateNow := dateNow w;
     siteId := siteId w |}.

(** A server event with no duration, the third of a series of five. *)
Definition seriesEvent : Online.t :=
  {| Online.id := 9; Online.name := "Lecture"; Online.timestart := 1614589200;
     Online.timeduration := 0; Online.eventtype := "course";
     Online.categoryid := None; Online.course := Some 12; Online.groupid := None;
     Online.description := ""; Online.location := Some "Hall";
     Online.repeatid := Some 8; Online.eventcount := Some 5 |}.

(** A draft of a Group event: group 4 of course 12. *)
Definition groupDraft : Offline.t :=
  {| Offline.id := -1; Offline.name := "Lab"; Offline.timestart := 1614589200;
     Offline.eventtype := "group"; Offline.categoryid := None;
     Offline.courseid := Some 12; Offline.groupcourseid := Some 13;
     Offline.groupid := Some 4; Offline.description := None;
     Offline.location := None; Offline.duration := Some 2;
     Offline.timedurationuntil := None;
     Offline.timedurationminutes := Some 90; Offline.repeat := None;
     Offline.repeats := None; Offline.repeatid := None;
     Offline.repeateditall := None |}.

(** The site offers its home page as only course. *)
Definition world_site_home : World :=
  make_world (<["course" := true]> ∅)
    [ {| course_id := 1; fullname := "Campus"; has_contacts := true |} ].

(** The page that creates an event: no event id. *)
Definition new_page : Page.t :=
  Page.set_form (form "user" 0) constructor.

(** The page editing event 7, its form recorded as it was loaded (from an
    event without location) and then renamed by the user. *)
Definition edited_page : Page.t :=
  Page.set_form
    (<["name" := JStr "Oral exam"]> (<["location" := JUndefined]> (form "user" 0)))
    (Page.set_originalData (Some (<["location" := JUndefined]> (form "user" 0)))
       (page "user" 0)).

End Demo.

(** ** More of the page *)

(** [groupCourseSelected] (lines 400-417).  The loading modal is asked for
    without a text, logged as the empty text. *)
Definition groupCourseSelected (w : World) : M unit :=
  p ← get;
  let courseId := field (Page.form p) "groupcourseid" in
  if negb (Js.truthy courseId) then ret tt
  else
    emit (ShowModalLoading "");;
    try_catch
      (loadGroups w courseId;;
       setValue "groupid" (JStr ""))
      (fun error => emit (ShowErrorModalDefault error "Error getting data."));;
    emit ModalDismiss.

(** The form once [loadEventData] has loaded [event] in it. *)
Definition loaded_form (pf : Platform) (w : World) (event : CalendarEvent)
    (isOffline : bool) (p : Page.t) : gmap string JsVal :=
  Page.form (page_of (loadEventData pf w (Some event) isOffline p)).

(** Whatever the page it starts from, [m] leaves a page where [Q] holds. *)
Definition ends {A} (Q : Page.t -> Prop) (m : M A) : Prop :=
  forall p, Q (page_of (m p)).

(** Whatever the page it starts from, [m] ends with the outcome [r]. *)
Definition answers {A} (r : outcome A) (m : M A) : Prop :=
  forall p, result_of (m p) = r.

(** [m] makes no call out of the component. *)
Definition silent {A} (m : M A) : Prop :=
  forall p, trace_of (m p) = [].

Definition is_block (e : Effect) : bool :=
  match e with BlockOperation _ _ => true | _ => false end.

Definition is_error_modal (e : Effect) : bool :=
  match e with ShowErrorModalDefault _ _ => true | _ => false end.

(** Every call that the method logs is of the kind [P]. *)
Definition logs_only {A} (P : Effect -> bool) (m : M A) : Prop :=
  forall p, Forall (fun e => P e = true) (trace_of (m p)).

Definition is_trigger (e : Effect) : bool :=
  match e with EventsTrigger _ _ _ => true | _ => false end.

Definition is_refresh (e : Effect) : bool :=
  match e with RefreshAfterChangeEvent _ _ => true | _ => false end.

(** The courses that [fetchCourses] keeps and renames, before it sorts
    them. *)
Definition courses_kept (w : World) (showAll : bool) (courses : list CoreCourseData)
    : list CoreCourseData :=
  map (courseFillterFullname w)
    (if showAll
     then List.filter (fun course => negb (course_id course =? getCurrentSiteHomeId w)) courses
     else courses).

(** The order that [fetchCourses] sorts by. *)
Definition name_before (pf : Platform) (a b : CoreCourseData) : Prop :=
  compare_fullname pf a b <= 0.

(** ** The methods that ask the user

    [discard], [canLeave] and [refreshData] make calls that the methods
    above never make; their traces hold those calls beside the calls of the
    methods they run. *)
Inductive UserCall : Type :=
| PageCall (e : Effect)
| ShowConfirm (message : string)
| DeleteEvent (eventId : option Z)
| TriggerFormCancelledEvent (siteId : string)
| InvalidateAccessInformation (courseId : Z)
| InvalidateAllowedEventTypes (courseId : Z)
| InvalidateCategories
| InvalidateCoursesByField
| InvalidateUserCourses
| RefresherComplete.

(** What the user and the helpers of these methods answer:
    [CoreDomUtils.showConfirm] (rejected when the user cancels),
    [AddonCalendarOffline.deleteEvent] and
    [AddonCalendarHelper.hasEventDataChanged]. *)
Record Answers : Type := {
  showConfirm : string -> outcome unit;
  deleteEvent : option Z -> outcome unit;
  hasEventDataChanged : gmap string JsVal -> option (gmap string JsVal) -> bool;
}.

(** [discard] (lines 589-605). *)
Definition discard (pf : Platform) (w : World) (a : Answers) (p : Page.t)
    : outcome unit * Page.t * list UserCall :=
  match showConfirm a (instant pf "core.areyousure") with
  | Throw _ => (Ok tt, p, [ShowConfirm (instant pf "core.areyousure")])
  | Ok _ =>
      match deleteEvent a (Page.eventId p) with
      | Throw _ =>
          (Ok tt, p,
           [ShowConfirm (instant pf "core.areyousure"); DeleteEvent (Page.eventId p);
            PageCall (ShowErrorModal "Error discarding event.")])
      | Ok _ =>
          let '(r, p', t) := returnToList w None p in
          (Ok tt, p',
           [ShowConfirm (instant pf "core.areyousure"); DeleteEvent (Page.eventId p);
            TriggerFormCancelledEvent (siteId w)]
           ++ map PageCall t
           ++ match r with
              | Ok _ => []
              | Throw _ => [PageCall (ShowErrorModal "Error discarding event.")]
              end)
      end
  end.

(** [canLeave] (lines 612-621). *)
Definition canLeave (pf : Platform) (w : World) (a : Answers) (p : Page.t)
    : outcome bool * Page.t * list UserCall :=
  if hasEventDataChanged a (Page.form p) (Page.originalData p) then
    match showConfirm a (instant pf "core.confirmcanceledit") with
    | Throw e => (Throw e, p, [ShowConfirm (instant pf "core.confirmcanceledit")])
    | Ok _ =>
        (Ok true, p,
         [ShowConfirm (instant pf "core.confirmcanceledit");
          TriggerFormCancelledEvent (siteId w)])
    end
  else (Ok true, p, [TriggerFormCancelledEvent (siteId w)]).

(** [refreshData] (lines 371-395); [refresher] tells whether one was given.
    The invalidations are awaited with [finally]: whatever they answer,
    [fetchData] runs next. *)
Definition refreshData (pf : Platform) (w : World) (refresher : bool) (p : Page.t)
    : outcome unit * Page.t * list UserCall :=
  let promises :=
    [InvalidateAccessInformation (Page.courseId p);
     InvalidateAllowedEventTypes (Page.courseId p)] in
  let promises :=
    if allowed (Page.types p) "category" then promises ++ [InvalidateCategories]
    else promises in
  let promises :=
    if (allowed (Page.types p) "course" || allowed (Page.types p) "groups")%bool then
      if Page.showAll p then promises ++ [InvalidateCoursesByField]
      else promises ++ [InvalidateUserCourses]
    else promises in
  let '(r, p', t) := fetchData pf w p in
  (Ok tt, p',
   promises ++ map PageCall t ++ (if refresher then [RefresherComplete] else [])).

Definition is_invalidation (c : UserCall) : bool :=
  match c with
  | InvalidateAccessInformation _ | InvalidateAllowedEventTypes _
  | InvalidateCategories | InvalidateCoursesByField | InvalidateUserCourses => true
  | _ => false
  end.

(** An [hasEventDataChanged] that compares the form with the recorded data,
    and the answers of a user who accepts everything. *)
Definition sameData (form : gmap string JsVal) (original : option (gmap string JsVal))
    : bool :=
  match original with
  | Some original => negb (bool_decide (form = original))
  | None => false
  end.

Definition accepting : Answers :=
  {| showConfirm := fun _ => Ok tt;
     deleteEvent := fun _ => Ok tt;
     hasEventDataChanged := sameData |}.

(** * Properties *)

(** ** The model at work *)

Example parseInt_leading_digits : Js.parseInt10 " 45min" = Fin 45.
Proof. reflexivity. Qed.

Example parseInt_negative : Js.parseInt10 "-3" = Fin (-3).
Proof. reflexivity. Qed.

Example parseInt_no_digit : Js.parseInt10 "abc" = NaN.
Proof. reflexivity. Qed.

(** A no-break space (U+00A0) and a line separator (U+2028) before the
    digits are skipped; a zero-width space (U+200B) is not white space. *)
Example parseInt_no_break_space :
  Js.parseInt10 (String (ascii_of_nat 194) (String (ascii_of_nat 160) "45")) = Fin 45.
Proof. reflexivity. Qed.

Example parseInt_line_separator :
  Js.parseInt10
    (String (ascii_of_nat 226) (String (ascii_of_nat 128) (String (ascii_of_nat 168) " 7")))
  = Fin 7.
Proof. reflexivity. Qed.

Example parseInt_zero_width_space :
  Js.parseInt10
    (String (ascii_of_nat 226) (String (ascii_of_nat 128) (String (ascii_of_nat 139) "7")))
  = NaN.
Proof. reflexivity. Qed.

(** The template gives [selectDuration] a string; [duration == 1] still
    holds. *)
Example selectDuration_string :
  duration_is Demo.platform (Page.form (page_of (selectDuration "1" constructor))) 1 = true.
Proof. vm_compute; reflexivity. Qed.

(** Opening event 7 for edition: the sync is blocked, the server copy is
    loaded in the form, the courses come sorted by name. *)
Example ngOnInit_edit :
  trace_of (ngOnInit Demo.platform Demo.world_courses constructor)
  = [BlockOperation COMPONENT 7]
  /\ field (Page.form (page_of (ngOnInit Demo.platform Demo.world_courses constructor)))
           "eventtype" = JStr "user"
  /\ map fullname (Page.courses (page_of (ngOnInit Demo.platform Demo.world_courses
                                            constructor)))
     = ["algebra"; "physics"]
  /\ Page.loaded (page_of (ngOnInit Demo.platform Demo.world_courses constructor)) = true.
Proof. repeat split; vm_compute; reflexivity. Qed.

(** ** Coercions *)

Lemma num_eq_Fin (a : Num) (n : Z) : Js.num_eq a (Fin n) = true -> a = Fin n.
Proof.
  destruct a as [x|]; simpl; [|discriminate].
  intros H. apply Z.eqb_eq in H. congruence.
Qed.

Lemma loose_eq_num_inv pf (v : JsVal) (n : Z) :
  loose_eq pf v (JNum (Fin n)) = true -> ToNumber pf v = Fin n.
Proof.
  unfold loose_eq.
  destruct v as [| |b|x|s]; cbn [unbool ToNumber]; try discriminate;
    apply num_eq_Fin.
Qed.

Lemma loose_eq_type_inv pf (v : JsVal) (t : AddonCalendarEventType) :
  loose_eq pf v (JStr (type_value t)) = true -> v = JStr (type_value t).
Proof.
  unfold loose_eq. destruct v as [| |b|x|s]; simpl; try discriminate.
  - rewrite StringToNumber_type. destruct b; discriminate.
  - rewrite StringToNumber_type. destruct x; discriminate.
  - intros H. apply String.eqb_eq in H. congruence.
Qed.

Lemma type_value_inj (t t' : AddonCalendarEventType) :
  type_value t = type_value t' -> t = t'.
Proof. destruct t, t'; simpl; intros H; try reflexivity; discriminate H. Qed.

Section FormFacts.
Context (pf : Platform) (formData : gmap string JsVal).

Lemma is_type_field t :
  is_type pf formData t = true -> field formData "eventtype" = JStr (type_value t).
Proof. apply loose_eq_type_inv. Qed.

(** A form has one event type at most. *)
Lemma is_type_excl t t' :
  is_type pf formData t = true -> t <> t' -> is_type pf formData t' = false.
Proof.
  intros H Hne. destruct (is_type pf formData t') eqn:H'; [|reflexivity].
  apply is_type_field in H, H'. rewrite H in H'.
  exfalso. apply Hne, type_value_inj. congruence.
Qed.

(** ... and one duration mode at most. *)
Lemma duration_is_excl n n' :
  duration_is pf formData n = true -> n <> n' -> duration_is pf formData n' = false.
Proof.
  intros H Hne. destruct (duration_is pf formData n') eqn:H'; [|reflexivity].
  apply loose_eq_num_inv in H, H'. congruence.
Qed.

(** When the rules of the event type hold, what remains of the chain of
    [submit] is the two tests on the duration. *)
Lemma submit_error_durations :
  type_rules_hold pf formData = true ->
  submit_error pf formData =
    if (duration_is pf formData 1
        && Js.gt (convertToTimestamp pf (field formData "timestart"))
                 (convertToTimestamp pf (field formData "timedurationuntil")))%bool
    then Some "addon.calendar.invalidtimedurationuntil"
    else if (duration_is pf formData 2
             && (Js.isNaN (Js.parseInt (Js.or (field formData "timedurationminutes") (JStr "")))
                 || Js.lt (Js.parseInt (Js.or (field formData "timedurationminutes") (JStr "")))
                          (Fin 1)))%bool
    then Some "addon.calendar.invalidtimedurationminutes"
    else None.
Proof.
  unfold type_rules_hold, submit_error. intros H.
  repeat (apply andb_prop in H; destruct H as [H ?]).
  repeat match goal with
         | H : negb ?b = true |- _ => apply negb_true_iff in H; rewrite H
         end.
  reflexivity.
Qed.

(** When a rule of the event type fails, the chain stops on it. *)
Lemma submit_error_type_rule :
  type_rules_hold pf formData = false ->
  exists error, submit_error pf formData = Some error
    /\ error <> "addon.calendar.invalidtimedurationuntil"
    /\ error <> "addon.calendar.invalidtimedurationminutes".
Proof.
  unfold type_rules_hold, submit_error. intros H.
  destruct (is_type pf formData COURSE && negb (Js.truthy (field formData "courseid")))%bool;
    [eexists; split; [reflexivity | split; discriminate] |].
  destruct (is_type pf formData GROUP
            && negb (Js.truthy (field formData "groupcourseid")))%bool;
    [eexists; split; [reflexivity | split; discriminate] |].
  destruct (is_type pf formData GROUP && negb (Js.truthy (field formData "groupid")))%bool;
    [eexists; split; [reflexivity | split; discriminate] |].
  destruct (is_type pf formData CATEGORY
            && negb (Js.truthy (field formData "categoryid")))%bool;
    [eexists; split; [reflexivity | split; discriminate] |].
  discriminate H.
Qed.

End FormFacts.

(** ** Running [submit] *)

Ltac unfold_monad :=
  unfold mbind, M_bind, mret, M_ret, bind, ret, get, emit, modify, throw, await,
    try_catch, try_finally in *.

(** A failed rule: [submit] shows the message and returns. *)
Lemma submit_blocked (pf : Platform) (w : World) (p : Page.t) (error : string) :
  submit_error pf (Page.form p) = Some error ->
  submit pf w p = (Ok tt, p, [ShowErrorModal (instant pf error)])
  /\ submit_send pf p = (Ok None, p, [ShowErrorModal (instant pf error)]).
Proof.
  intros H. unfold submit, submit_send. unfold_monad. rewrite H. split; reflexivity.
Qed.

(** No failed rule: [submit] builds the payload and sends it. *)
Lemma submit_sends (pf : Platform) (p : Page.t) :
  submit_error pf (Page.form p) = None ->
  submit_send pf p =
    (Ok (Some (Page.form p, submit_data pf (Page.form p) (Page.eventRepeatId p))), p,
     [ShowModalLoading "core.sending";
      SubmitEvent (Page.eventId p) (submit_data pf (Page.form p) (Page.eventRepeatId p))]).
Proof.
  intros H. unfold submit_send. unfold_monad. rewrite H. reflexivity.
Qed.

(** The optional properties of the payload, one by one. *)
Lemma submit_data_optional (pf : Platform) (formData : gmap string JsVal)
    (eventRepeatId : option Z) :
  let data := submit_data pf formData eventRepeatId in
  Data.courseid data =
    (if is_type pf formData COURSE then Some (field formData "courseid") else None)
  /\ Data.groupcourseid data =
    (if is_type pf formData COURSE then None
     else if is_type pf formData GROUP then Some (field formData "groupcourseid") else None)
  /\ Data.groupid data =
    (if is_type pf formData COURSE then None
     else if is_type pf formData GROUP then Some (field formData "groupid") else None)
  /\ Data.categoryid data =
    (if is_type pf formData COURSE then None
     else if is_type pf formData GROUP then None
     else if is_type pf formData CATEGORY then Some (field formData "categoryid") else None)
  /\ Data.timedurationuntil data =
    (if duration_is pf formData 1
     then Some (JNum (convertToTimestamp pf (field formData "timedurationuntil")))
     else None)
  /\ Data.timedurationminutes data =
    (if duration_is pf formData 1 then None
     else if duration_is pf formData 2 then Some (field formData "timedurationminutes")
     else None)
  /\ Data.repeats data =
    (if Js.truthy (field formData "repeat")
     then Some (JNum (ToNumber pf (field formData "repeats"))) else None).
Proof.
  unfold submit_data.
  destruct (Js.truthy (Js.of_opt eventRepeatId)), (Js.truthy (field formData "repeat"));
    (destruct (duration_is pf formData 1); [| destruct (duration_is pf formData 2)]);
    (destruct (is_type pf formData COURSE);
     [| destruct (is_type pf formData GROUP);
        [| destruct (is_type pf formData CATEGORY)]]);
    repeat split.
Qed.

Lemma if_is_Some {A} (b : bool) (x : A) : is_Some (if b then Some x else None) <-> b = true.
Proof.
  destruct b; split; intros H; try reflexivity; try discriminate.
  - eexists; reflexivity.
  - destruct H as [y Hy]; discriminate.
Qed.

(** The same for a property assigned in a later branch of an [if]-[else if]
    chain, when the branches exclude each other. *)
Lemma guarded_is_Some {A} (a b : bool) (x : A) :
  (b = true -> a = false) ->
  is_Some (if a then None else if b then Some x else None) <-> b = true.
Proof.
  intros Hab. destruct b.
  - rewrite (Hab eq_refl). apply (if_is_Some true x).
  - destruct a; apply (if_is_Some false x).
Qed.

Lemma guarded2_is_Some {A} (a a' b : bool) (x : A) :
  (b = true -> a = false) -> (b = true -> a' = false) ->
  is_Some (if a then None else if a' then None else if b then Some x else None)
  <-> b = true.
Proof.
  intros Hab Hab'. destruct b.
  - rewrite (Hab eq_refl), (Hab' eq_refl). apply (if_is_Some true x).
  - destruct a, a'; apply (if_is_Some false x).
Qed.

(** ** The rules of [submit] *)

(** C8. When a rule of [submit] fails, the method only shows the translated
    message of that rule and returns: the trace holds that one call (so no
    remote submit, no notification on the event bus, no release of the
    lock), no payload was built, and the page, its form included, is the
    page it started from. *)
Theorem submit_validation_error_atomic (pf : Platform) (w : World) (p : Page.t)
    (error : string) :
  submit_error pf (Page.form p) = Some error ->
  trace_of (submit pf w p) = [ShowErrorModal (instant pf error)]
  /\ page_of (submit pf w p) = p
  /\ result_of (submit pf w p) = Ok tt
  /\ result_of (submit_send pf p) = Ok None.
Proof.
  intros H. destruct (submit_blocked pf w p error H) as [Hs Hd].
  rewrite Hs, Hd. repeat split.
Qed.

Lemma submit_validation_error_atomic_witness :
  submit_error Demo.platform (Page.form (Demo.page "course" 0)) = Some "core.selectacourse"
  /\ trace_of (submit Demo.platform Demo.world (Demo.page "course" 0))
     = [ShowErrorModal "core.selectacourse"]
  /\ page_of (submit Demo.platform Demo.world (Demo.page "course" 0)) = Demo.page "course" 0.
Proof.
  split; [vm_compute; reflexivity |].
  destruct (submit_validation_error_atomic Demo.platform Demo.world
              (Demo.page "course" 0) "core.selectacourse") as (Ht & Hp & _).
  - vm_compute; reflexivity.
  - split; [exact Ht | exact Hp].
Defined.

(** C3, as the claim states it, fails: a Group event with no group and no
    course either is stopped with the message asking for a course. *)
Lemma submit_group_counterexample :
  is_type Demo.platform (Page.form (Demo.page "group" 0)) GROUP = true
  /\ Js.truthy (field (Page.form (Demo.page "group" 0)) "groupid") = false
  /\ trace_of (submit Demo.platform Demo.world (Demo.page "group" 0))
     = [ShowErrorModal (instant Demo.platform "core.selectacourse")]
  /\ trace_of (submit Demo.platform Demo.world (Demo.page "group" 0))
     <> [ShowErrorModal (instant Demo.platform "core.selectagroup")].
Proof.
  repeat split; try (vm_compute; reflexivity).
  vm_compute. discriminate.
Qed.

(** C3, amended. For every form whose event type is Group and whose group
    is empty, [submit] stops on a message, builds no payload and does not
    call the remote submit; the message asks for a group
    (['core.selectagroup']) when the course of the group is set, and for a
    course (['core.selectacourse']) when it is empty too. *)
Theorem submit_group_without_group (pf : Platform) (w : World) (p : Page.t) :
  is_type pf (Page.form p) GROUP = true ->
  Js.truthy (field (Page.form p) "groupid") = false ->
  trace_of (submit pf w p) =
    [ShowErrorModal (instant pf
       (if Js.truthy (field (Page.form p) "groupcourseid")
        then "core.selectagroup" else "core.selectacourse"))]
  /\ page_of (submit pf w p) = p
  /\ result_of (submit_send pf p) = Ok None.
Proof.
  intros Hg Hid.
  assert (He : submit_error pf (Page.form p) =
               Some (if Js.truthy (field (Page.form p) "groupcourseid")
                     then "core.selectagroup" else "core.selectacourse")).
  { unfold submit_error.
    rewrite (is_type_excl pf _ GROUP COURSE Hg) by discriminate.
    rewrite Hg, Hid.
    destruct (Js.truthy (field (Page.form p) "groupcourseid")); reflexivity. }
  destruct (submit_blocked pf w p _ He) as [Hs Hd].
  rewrite Hs, Hd. repeat split.
Qed.

Lemma submit_group_without_group_witness :
  is_type Demo.platform (Page.form Demo.group_page) GROUP = true
  /\ Js.truthy (field (Page.form Demo.group_page) "groupid") = false
  /\ trace_of (submit Demo.platform Demo.world Demo.group_page)
     = [ShowErrorModal "core.selectagroup"].
Proof.
  split; [vm_compute; reflexivity |].
  split; [vm_compute; reflexivity |].
  destruct (submit_group_without_group Demo.platform Demo.world Demo.group_page) as (Ht & _).
  - vm_compute; reflexivity.
  - vm_compute; reflexivity.
  - exact Ht.
Defined.

(** C5, as the claim states it, fails: with the until-time mode and an
    until-time before the start, a Course event with no course is stopped
    with the message asking for a course. *)
Lemma submit_until_counterexample :
  duration_is Demo.platform (Page.form (Demo.page "course" 1)) 1 = true
  /\ Js.gt (convertToTimestamp Demo.platform
              (field (Page.form (Demo.page "course" 1)) "timestart"))
           (convertToTimestamp Demo.platform
              (field (Page.form (Demo.page "course" 1)) "timedurationuntil")) = true
  /\ trace_of (submit Demo.platform Demo.world (Demo.page "course" 1))
     = [ShowErrorModal (instant Demo.platform "core.selectacourse")]
  /\ trace_of (submit Demo.platform Demo.world (Demo.page "course" 1))
     <> [ShowErrorModal (instant Demo.platform "addon.calendar.invalidtimedurationuntil")].
Proof.
  repeat split; try (vm_compute; reflexivity).
  vm_compute. discriminate.
Qed.

(** C5, amended. For every form in the until-time mode ([duration == 1]):
    if the until-time converts to a timestamp strictly before the start,
    [submit] stops on a message, which is the invalid-until-time one when no
    rule on the fields of the event type fails before; and when no such rule
    fails, the form passes the validation iff the until-time does not
    precede the start. *)
Theorem submit_until_time_check (pf : Platform) (w : World) (p : Page.t) :
  duration_is pf (Page.form p) 1 = true ->
  (Js.gt (convertToTimestamp pf (field (Page.form p) "timestart"))
         (convertToTimestamp pf (field (Page.form p) "timedurationuntil")) = true ->
   exists error,
     trace_of (submit pf w p) = [ShowErrorModal (instant pf error)]
     /\ page_of (submit pf w p) = p
     /\ (type_rules_hold pf (Page.form p) = true ->
         error = "addon.calendar.invalidtimedurationuntil"))
  /\ (type_rules_hold pf (Page.form p) = true ->
      (submit_error pf (Page.form p) = None <->
       Js.gt (convertToTimestamp pf (field (Page.form p) "timestart"))
             (convertToTimestamp pf (field (Page.form p) "timedurationuntil")) = false)).
Proof.
  intros Hd.
  pose proof (duration_is_excl pf _ 1 2 Hd ltac:(lia)) as Hd2.
  split.
  - intros Hgt.
    destruct (type_rules_hold pf (Page.form p)) eqn:Hr.
    + exists "addon.calendar.invalidtimedurationuntil".
      assert (He : submit_error pf (Page.form p)
                   = Some "addon.calendar.invalidtimedurationuntil").
      { rewrite submit_error_durations by exact Hr. rewrite Hd, Hgt. reflexivity. }
      destruct (submit_blocked pf w p _ He) as [Hs _]. rewrite Hs. repeat split.
    + destruct (submit_error_type_rule pf _ Hr) as (error & He & _).
      exists error. destruct (submit_blocked pf w p _ He) as [Hs _]. rewrite Hs.
      repeat split. discriminate.
  - intros Hr. rewrite submit_error_durations by exact Hr. rewrite Hd, Hd2.
    destruct (Js.gt _ _); simpl; split; intros H; try reflexivity; discriminate H.
Qed.

Lemma submit_until_time_check_witness :
  duration_is Demo.platform (Page.form (Demo.page "user" 1)) 1 = true
  /\ Js.gt (convertToTimestamp Demo.platform
              (field (Page.form (Demo.page "user" 1)) "timestart"))
           (convertToTimestamp Demo.platform
              (field (Page.form (Demo.page "user" 1)) "timedurationuntil")) = true
  /\ (exists error,
        trace_of (submit Demo.platform Demo.world (Demo.page "user" 1))
        = [ShowErrorModal error]
        /\ error = "addon.calendar.invalidtimedurationuntil")
  /\ duration_is Demo.platform (Page.form Demo.until_page) 1 = true
  /\ submit_error Demo.platform (Page.form Demo.until_page) = None.
Proof.
  split; [vm_compute; reflexivity |].
  split; [vm_compute; reflexivity |].
  split.
  - destruct (submit_until_time_check Demo.platform Demo.world (Demo.page "user" 1))
      as [H _]; [vm_compute; reflexivity |].
    destruct H as (error & Ht & _ & He); [vm_compute; reflexivity |].
    exists error. split; [exact Ht | apply He; vm_compute; reflexivity].
  - split; [vm_compute; reflexivity |].
    destruct (submit_until_time_check Demo.platform Demo.world Demo.until_page) as [_ H].
    + vm_compute; reflexivity.
    + apply H; vm_compute; reflexivity.
Defined.

(** What [submit] accepts as a duration in minutes: an integer, 1 at least. *)
Lemma minutes_accepted (m : Num) :
  (Js.isNaN m || Js.lt m (Fin 1))%bool = false <-> exists z, m = Fin z /\ 1 <= z.
Proof.
  destruct m as [z|]; simpl.
  - rewrite Z.ltb_ge. split.
    + intros H. exists z. split; [reflexivity | exact H].
    + intros (z' & Hz & Hle). congruence.
  - split; [discriminate | intros (z & Hz & _); discriminate].
Qed.

(** C6, as the claim states it, fails: with the minutes mode and minutes
    that are no number, a Course event with no course is stopped with the
    message asking for a course. *)
Lemma submit_minutes_counterexample :
  duration_is Demo.platform (Page.form (Demo.page "course" 2)) 2 = true
  /\ Js.parseInt (Js.or (field (Page.form (Demo.page "course" 2)) "timedurationminutes")
                        (JStr "")) = NaN
  /\ trace_of (submit Demo.platform Demo.world (Demo.page "course" 2))
     = [ShowErrorModal (instant Demo.platform "core.selectacourse")]
  /\ trace_of (submit Demo.platform Demo.world (Demo.page "course" 2))
     <> [ShowErrorModal (instant Demo.platform "addon.calendar.invalidtimedurationminutes")].
Proof.
  repeat split; try (vm_compute; reflexivity).
  vm_compute. discriminate.
Qed.

(** C6, amended. For every form in the minutes mode ([duration == 2]):
    unless [parseInt] reads in the minutes an integer that is 1 at least,
    [submit] stops on a message, which is the invalid-minutes one when no
    rule on the fields of the event type fails before; and when no such rule
    fails, the form passes the validation iff the minutes parse to an
    integer that is 1 at least. *)
Theorem submit_minutes_check (pf : Platform) (w : World) (p : Page.t) :
  duration_is pf (Page.form p) 2 = true ->
  (~ (exists z, Js.parseInt (Js.or (field (Page.form p) "timedurationminutes") (JStr ""))
                = Fin z /\ 1 <= z) ->
   exists error,
     trace_of (submit pf w p) = [ShowErrorModal (instant pf error)]
     /\ page_of (submit pf w p) = p
     /\ (type_rules_hold pf (Page.form p) = true ->
         error = "addon.calendar.invalidtimedurationminutes"))
  /\ (type_rules_hold pf (Page.form p) = true ->
      (submit_error pf (Page.form p) = None <->
       exists z, Js.parseInt (Js.or (field (Page.form p) "timedurationminutes") (JStr ""))
                 = Fin z /\ 1 <= z)).
Proof.
  intros Hd.
  pose proof (duration_is_excl pf _ 2 1 Hd ltac:(lia)) as Hd1.
  split.
  - intros Hbad. rewrite <- minutes_accepted in Hbad. apply not_false_is_true in Hbad.
    destruct (type_rules_hold pf (Page.form p)) eqn:Hr.
    + exists "addon.calendar.invalidtimedurationminutes".
      assert (He : submit_error pf (Page.form p)
                   = Some "addon.calendar.invalidtimedurationminutes").
      { rewrite submit_error_durations by exact Hr. rewrite Hd, Hd1, Hbad. reflexivity. }
      destruct (submit_blocked pf w p _ He) as [Hs _]. rewrite Hs. repeat split.
    + destruct (submit_error_type_rule pf _ Hr) as (error & He & _).
      exists error. destruct (submit_blocked pf w p _ He) as [Hs _]. rewrite Hs.
      repeat split. discriminate.
  - intros Hr. rewrite <- minutes_accepted.
    rewrite submit_error_durations by exact Hr. rewrite Hd, Hd1. simpl.
    destruct (_ || _)%bool; split; intros H; try reflexivity; discriminate H.
Qed.

Lemma submit_minutes_check_witness :
  duration_is Demo.platform (Page.form (Demo.page "user" 2)) 2 = true
  /\ (exists error,
        trace_of (submit Demo.platform Demo.world (Demo.page "user" 2))
        = [ShowErrorModal error]
        /\ error = "addon.calendar.invalidtimedurationminutes")
  /\ duration_is Demo.platform (Page.form Demo.minutes_page) 2 = true
  /\ submit_error Demo.platform (Page.form Demo.minutes_page) = None.
Proof.
  split; [vm_compute; reflexivity |].
  split.
  - destruct (submit_minutes_check Demo.platform Demo.world (Demo.page "user" 2))
      as [H _]; [vm_compute; reflexivity |].
    destruct H as (error & Ht & _ & He).
    + vm_compute. intros (z & Hz & _). discriminate Hz.
    + exists error. split; [exact Ht | apply He; vm_compute; reflexivity].
  - split; [vm_compute; reflexivity |].
    destruct (submit_minutes_check Demo.platform Demo.world Demo.minutes_page) as [_ H].
    + vm_compute; reflexivity.
    + apply H; [vm_compute; reflexivity |].
      exists 45. split; [vm_compute; reflexivity | lia].
Defined.

(** C7. When [submit] passes the validation it sends a payload, and that
    payload has [courseid] iff the type is Course, [groupcourseid] and
    [groupid] iff it is Group, [categoryid] iff it is Category,
    [timedurationuntil] iff the duration mode is 1, [timedurationminutes]
    iff it is 2, and [repeats] iff the repeat flag is set. *)
Theorem submit_payload_fields (pf : Platform) (w : World) (p : Page.t) :
  submit_error pf (Page.form p) = None ->
  exists data rest,
    trace_of (submit pf w p)
    = ShowModalLoading "core.sending" :: SubmitEvent (Page.eventId p) data :: rest
    /\ (is_Some (Data.courseid data) <-> is_type pf (Page.form p) COURSE = true)
    /\ (is_Some (Data.groupcourseid data) <-> is_type pf (Page.form p) GROUP = true)
    /\ (is_Some (Data.groupid data) <-> is_type pf (Page.form p) GROUP = true)
    /\ (is_Some (Data.categoryid data) <-> is_type pf (Page.form p) CATEGORY = true)
    /\ (is_Some (Data.timedurationuntil data) <-> duration_is pf (Page.form p) 1 = true)
    /\ (is_Some (Data.timedurationminutes data) <-> duration_is pf (Page.form p) 2 = true)
    /\ (is_Some (Data.repeats data) <-> Js.truthy (field (Page.form p) "repeat") = true).
Proof.
  intros Hv.
  exists (submit_data pf (Page.form p) (Page.eventRepeatId p)).
  assert (Ht : exists rest, trace_of (submit pf w p)
     = ShowModalLoading "core.sending"
       :: SubmitEvent (Page.eventId p) (submit_data pf (Page.form p) (Page.eventRepeatId p))
       :: rest).
  { unfold submit. unfold_monad. rewrite (submit_sends pf p Hv).
    destruct (submit_resume _ _ _ _ _) as [[r p'] t]. exists t. reflexivity. }
  destruct Ht as [rest Ht]. exists rest. split; [exact Ht |].
  destruct (submit_data_optional pf (Page.form p) (Page.eventRepeatId p))
    as (Hc & Hgc & Hg & Hcat & Hu & Hm & Hr).
  rewrite Hc, Hgc, Hg, Hcat, Hu, Hm, Hr.
  assert (Hgroup : is_type pf (Page.form p) GROUP = true ->
                   is_type pf (Page.form p) COURSE = false)
    by (intros H; apply (is_type_excl pf _ GROUP COURSE H); discriminate).
  assert (Hcat1 : is_type pf (Page.form p) CATEGORY = true ->
                  is_type pf (Page.form p) COURSE = false)
    by (intros H; apply (is_type_excl pf _ CATEGORY COURSE H); discriminate).
  assert (Hcat2 : is_type pf (Page.form p) CATEGORY = true ->
                  is_type pf (Page.form p) GROUP = false)
    by (intros H; apply (is_type_excl pf _ CATEGORY GROUP H); discriminate).
  assert (Hmin : duration_is pf (Page.form p) 2 = true ->
                 duration_is pf (Page.form p) 1 = false)
    by (intros H; apply (duration_is_excl pf _ 2 1 H); lia).
  split; [apply if_is_Some |].
  split; [apply guarded_is_Some; exact Hgroup |].
  split; [apply guarded_is_Some; exact Hgroup |].
  split; [apply guarded2_is_Some; assumption |].
  split; [apply if_is_Some |].
  split; [apply guarded_is_Some; exact Hmin |].
  apply if_is_Some.
Qed.

Lemma submit_payload_fields_witness :
  submit_error Demo.platform (Page.form Demo.minutes_page) = None
  /\ exists data rest,
       trace_of (submit Demo.platform Demo.world Demo.minutes_page)
       = ShowModalLoading "core.sending" :: SubmitEvent (Some 7) data :: rest
       /\ Data.timedurationminutes data = Some (JStr "45")
       /\ Data.courseid data = None.
Proof.
  split; [vm_compute; reflexivity |].
  destruct (submit_payload_fields Demo.platform Demo.world Demo.minutes_page)
    as (data & rest & Ht & _).
  - vm_compute; reflexivity.
  - exists data, rest. split; [exact Ht |].
    vm_compute in Ht. injection Ht as Hd _. subst data. split; reflexivity.
Defined.

(** ** What a method leaves alone *)

Section Preserves.
Context {X : Type} (f : Page.t -> X).

Lemma preserves_ret {A} (a : A) : preserves f (ret a).
Proof. intros p. reflexivity. Qed.

Lemma preserves_throw {A} (e : Err) : preserves f (@throw A e).
Proof. intros p. reflexivity. Qed.

Lemma preserves_await {A} (o : outcome A) : preserves f (await o).
Proof. intros p. reflexivity. Qed.

Lemma preserves_get : preserves f get.
Proof. intros p. reflexivity. Qed.

Lemma preserves_emit (e : Effect) : preserves f (emit e).
Proof. intros p. reflexivity. Qed.

Lemma preserves_modify (g : Page.t -> Page.t) :
  (forall p, f (g p) = f p) -> preserves f (modify g).
Proof. intros H p. apply H. Qed.

Lemma preserves_bind {A B} (m : M A) (k : A -> M B) :
  preserves f m -> (forall a, preserves f (k a)) -> preserves f (m ≫= k).
Proof.
  intros Hm Hk p. specialize (Hm p).
  unfold mbind, M_bind, bind, page_of in *.
  destruct (m p) as [[[a|e] p1] t1]; cbn [fst snd] in *; [|exact Hm].
  specialize (Hk a p1). unfold page_of in Hk.
  destruct (k a p1) as [[r p2] t2]; cbn [fst snd] in *. congruence.
Qed.

Lemma preserves_try_catch {A} (m : M A) (h : Err -> M A) :
  preserves f m -> (forall e, preserves f (h e)) -> preserves f (try_catch m h).
Proof.
  intros Hm Hh p. specialize (Hm p).
  unfold try_catch, page_of in *.
  destruct (m p) as [[[a|e] p1] t1]; cbn [fst snd] in *; [exact Hm|].
  specialize (Hh e p1). unfold page_of in Hh.
  destruct (h e p1) as [[r p2] t2]; cbn [fst snd] in *. congruence.
Qed.

Lemma preserves_try_finally {A} (m : M A) (g : M unit) :
  preserves f m -> preserves f g -> preserves f (try_finally m g).
Proof.
  intros Hm Hg p. specialize (Hm p).
  unfold try_finally, page_of in *.
  destruct (m p) as [[r p1] t1]; cbn [fst snd] in *.
  specialize (Hg p1). unfold page_of in Hg.
  destruct (g p1) as [[[u|e] p2] t2]; cbn [fst snd] in *; exact (eq_trans Hg Hm).
Qed.

Lemma preserves_promise_all (promises : list (M unit)) :
  Forall (preserves f) promises -> preserves f (promise_all promises).
Proof.
  induction 1 as [|m rest Hm _ IH]; intros p; [reflexivity|].
  specialize (Hm p). cbn [promise_all]. unfold page_of in *.
  destruct (m p) as [[r p1] t1]; cbn [fst snd] in *.
  specialize (IH p1). unfold page_of in IH.
  destruct (promise_all rest p1) as [[rs p2] t2]; cbn [fst snd] in *. congruence.
Qed.

End Preserves.

(** Reading a control that was just set, or set before another one. *)
Lemma field_insert_eq (form : gmap string JsVal) (name : string) (v : JsVal) :
  field (<[name := v]> form) name = v.
Proof. unfold field. rewrite lookup_insert_eq. reflexivity. Qed.

Lemma field_insert_ne (form : gmap string JsVal) (name name' : string) (v : JsVal) :
  name <> name' -> field (<[name := v]> form) name' = field form name'.
Proof. intros H. unfold field. rewrite lookup_insert_ne by exact H. reflexivity. Qed.

Lemma keeps_setValue (name name' : string) (v : JsVal) :
  name <> name' -> preserves (fun p => field (Page.form p) name') (setValue name v).
Proof. intros H [] . cbn. apply field_insert_ne, H. Qed.

(** Walks through a method: every step either leaves the page alone or sets
    a field other than the one observed. *)
Ltac frame :=
  repeat
    (cbv beta zeta;
     lazymatch goal with
     | |- preserves _ (_ ≫= _) => apply preserves_bind; [| intros ?]
     | |- preserves _ (ret _) => apply preserves_ret
     | |- preserves _ (throw _) => apply preserves_throw
     | |- preserves _ (await _) => apply preserves_await
     | |- preserves _ get => apply preserves_get
     | |- preserves _ (emit _) => apply preserves_emit
     | |- preserves _ (modify _) => apply preserves_modify; intros []; reflexivity
     | |- preserves _ (setValue _ _) =>
         first [ apply keeps_setValue; discriminate | unfold setValue ]
     | |- preserves _ (loadGroups _ _) => unfold loadGroups
     | |- preserves _ (try_catch _ _) => apply preserves_try_catch; [| intros ?]
     | |- preserves _ (try_finally _ _) => apply preserves_try_finally
     | |- preserves _ (promise_all _) => apply preserves_promise_all
     | |- preserves _ (if ?b then _ else _) => destruct b
     | |- preserves _ (match ?x with _ => _ end) => destruct x
     | |- Forall _ (_ ++ _) => apply Forall_app; split
     | |- Forall _ [] => constructor
     | |- Forall _ (_ :: _) => constructor
     | |- Forall _ (if ?b then _ else _) => destruct b
     end).


(** ** Loading an event in the form *)

Section Sets.
Context (name : string) (v : JsVal).

Lemma sets_setValue : sets name v (setValue name v).
Proof. intros []. cbn. apply field_insert_eq. Qed.

(** The value is set by the first part of a sequence and kept by the rest. *)
Lemma sets_bind_l {A B} (m : M A) (k : A -> M B) :
  sets name v m -> (forall a, keeps name (k a)) -> sets name v (m ≫= k).
Proof.
  intros Hm Hk p. specialize (Hm p).
  unfold mbind, M_bind, bind, page_of in *.
  destruct (m p) as [[[a|e] p1] t1]; cbn [fst snd] in *; [|exact Hm].
  specialize (Hk a p1). unfold page_of in Hk.
  destruct (k a p1) as [[r p2] t2]; cbn [fst snd] in *.
  rewrite Hk. exact Hm.
Qed.

(** The value is set by the rest of a sequence whose first part cannot
    throw. *)
Lemma sets_bind_r {A B} (m : M A) (k : A -> M B) :
  never_throws m -> (forall a, sets name v (k a)) -> sets name v (m ≫= k).
Proof.
  intros Hm Hk p. destruct (Hm p) as [a Ha].
  unfold mbind, M_bind, bind, page_of, result_of in *.
  destruct (m p) as [[r p1] t1]; cbn [fst snd] in *. subst r.
  specialize (Hk a p1). unfold page_of in Hk.
  destruct (k a p1) as [[r p2] t2]; cbn [fst snd] in *. exact Hk.
Qed.

End Sets.

Lemma never_throws_setValue (name : string) (v : JsVal) : never_throws (setValue name v).
Proof. intros p. exists tt. reflexivity. Qed.

Ltac keep := unfold keeps; frame.

(** Finds the step of a sequence of [setValue] that sets the control, and
    checks that the steps after it keep it. *)
Ltac establish :=
  cbv beta iota;
  lazymatch goal with
  | |- sets _ _ (setValue _ _) => apply sets_setValue
  | |- sets _ _ (_ ≫= _) =>
      first [ apply sets_bind_l; [ solve [establish] | intros ?; solve [keep] ]
            | apply sets_bind_r; [ apply never_throws_setValue | intros ?; establish ] ]
  end.

(** The form after a local draft was loaded: the three controls of the
    duration. *)
Lemma loadEventData_offline_form (pf : Platform) (w : World) (e : Offline.t) :
  sets "duration" (Js.of_opt (Offline.duration e))
    (loadEventData pf w (Some (OfflineEvent e)) true)
  /\ sets "timedurationuntil"
       (JStr (toDatetimeFormat pf
          (Js.or
             (JNum (Js.mul
                (ToNumber pf (Js.or (Js.of_opt (Offline.timedurationuntil e)) (JNum (Fin 0))))
                (Fin 1000)))
             (JNum (Fin (dateNow w))))))
       (loadEventData pf w (Some (OfflineEvent e)) true)
  /\ sets "timedurationminutes"
       (Js.or (Js.of_opt (Offline.timedurationminutes e)) (JStr ""))
       (loadEventData pf w (Some (OfflineEvent e)) true).
Proof. unfold loadEventData. repeat split; establish. Qed.

(** C2, as the claim states it, fails: the draft stores its until-time as a
    number of seconds and no duration in minutes; the form, which has all
    its controls, gets a date string for the first and the empty string for
    the second. *)
Lemma loadEventData_offline_counterexample :
  has_controls (Page.form (Demo.page "user" 0)) = true
  /\ field (Page.form (page_of (loadEventData Demo.platform Demo.world
                                  (Some (OfflineEvent Demo.draft)) true
                                  (Demo.page "user" 0))))
           "timedurationuntil" = JStr "2021-03-01T11:00"
  /\ Js.of_opt (Offline.timedurationuntil Demo.draft) = JNum (Fin 1614596400)
  /\ field (Page.form (page_of (loadEventData Demo.platform Demo.world
                                  (Some (OfflineEvent Demo.draft)) true
                                  (Demo.page "user" 0))))
           "timedurationminutes" = JStr ""
  /\ Js.of_opt (Offline.timedurationminutes Demo.draft) = JUndefined
  /\ ~ (field (Page.form (page_of (loadEventData Demo.platform Demo.world
                                     (Some (OfflineEvent Demo.draft)) true
                                     (Demo.page "user" 0))))
              "duration" = Js.of_opt (Offline.duration Demo.draft)
        /\ field (Page.form (page_of (loadEventData Demo.platform Demo.world
                                        (Some (OfflineEvent Demo.draft)) true
                                        (Demo.page "user" 0))))
                 "timedurationuntil" = Js.of_opt (Offline.timedurationuntil Demo.draft)
        /\ field (Page.form (page_of (loadEventData Demo.platform Demo.world
                                        (Some (OfflineEvent Demo.draft)) true
                                        (Demo.page "user" 0))))
                 "timedurationminutes" = Js.of_opt (Offline.timedurationminutes Demo.draft)).
Proof.
  repeat split; try (vm_compute; reflexivity).
  vm_compute. intros (_ & H & _). discriminate H.
Qed.

(** C2, amended. Loading a local draft ([isOffline] true) copies the stored
    duration mode in the form as it is; the until-time control gets the date
    string of the stored until-time (seconds, times 1000), or of the current
    time when the draft stores none or 0; the minutes control gets the
    stored minutes, or the empty string when the draft stores none or 0. *)
Theorem loadEventData_offline_duration (pf : Platform) (w : World) (p : Page.t)
    (e : Offline.t) :
  field (Page.form (page_of (loadEventData pf w (Some (OfflineEvent e)) true p))) "duration"
  = Js.of_opt (Offline.duration e)
  /\ field (Page.form (page_of (loadEventData pf w (Some (OfflineEvent e)) true p)))
           "timedurationuntil"
     = JStr (toDatetimeFormat pf (JNum (Fin
         match Offline.timedurationuntil e with
         | Some seconds => if seconds =? 0 then dateNow w else seconds * 1000
         | None => dateNow w
         end)))
  /\ field (Page.form (page_of (loadEventData pf w (Some (OfflineEvent e)) true p)))
           "timedurationminutes"
     = match Offline.timedurationminutes e with
       | Some minutes => if minutes =? 0 then JStr "" else JNum (Fin minutes)
       | None => JStr ""
       end.
Proof.
  destruct (loadEventData_offline_form pf w e) as (Hd & Hu & Hm).
  specialize (Hd p). specialize (Hu p). specialize (Hm p).
  split; [exact Hd |]. split.
  - rewrite Hu. destruct (Offline.timedurationuntil e) as [seconds|]; [|reflexivity].
    unfold Js.or; cbn.
    destruct (seconds =? 0) eqn:Hz; cbn.
    + reflexivity.
    + rewrite Z.eqb_neq in Hz.
      assert (Hn : (seconds * 1000 =? 0) = false) by (apply Z.eqb_neq; lia).
      rewrite Hn. reflexivity.
  - rewrite Hm. destruct (Offline.timedurationminutes e) as [minutes|]; [|reflexivity].
    unfold Js.or; cbn. destruct (minutes =? 0); reflexivity.
Qed.

(** The form after a server event with a duration was loaded. *)
Lemma loadEventData_online_form (pf : Platform) (w : World) (e : Online.t) :
  (0 <? Online.timeduration e) = true ->
  sets "duration" (JNum (Fin 1)) (loadEventData pf w (Some (OnlineEvent e)) false)
  /\ sets "timedurationuntil"
       (JStr (toDatetimeFormat pf
          (JNum (Fin ((Online.timestart e + Online.timeduration e) * 1000)))))
       (loadEventData pf w (Some (OnlineEvent e)) false).
Proof.
  intros Hpos.
  assert (Hgt : gt_zero pf (Ev.timeduration (OnlineEvent e)) = true) by exact Hpos.
  unfold loadEventData. rewrite Hgt. split; establish.
Qed.

(** C4. Loading a server event ([isOffline] false) whose [timeduration] is
    positive sets the duration mode to 1 (until a time) and the until-time
    control to the date string of [(timestart + timeduration) * 1000]. *)
Theorem loadEventData_online_duration (pf : Platform) (w : World) (p : Page.t)
    (e : Online.t) :
  0 < Online.timeduration e ->
  field (Page.form (page_of (loadEventData pf w (Some (OnlineEvent e)) false p))) "duration"
  = JNum (Fin 1)
  /\ field (Page.form (page_of (loadEventData pf w (Some (OnlineEvent e)) false p)))
           "timedurationuntil"
     = JStr (toDatetimeFormat pf
         (JNum (Fin ((Online.timestart e + Online.timeduration e) * 1000)))).
Proof.
  intros Hpos. apply Z.ltb_lt in Hpos.
  destruct (loadEventData_online_form pf w e Hpos) as (Hd & Hu).
  split; [apply Hd | apply Hu].
Qed.

Lemma loadEventData_online_duration_witness :
  has_controls (Page.form (Demo.page "user" 0)) = true
  /\ field (Page.form (Demo.page "user" 0)) "duration" = JNum (Fin 0)
  /\ 0 < Online.timeduration Demo.serverEvent
  /\ field (Page.form (page_of (loadEventData Demo.platform Demo.world
                                  (Some (OnlineEvent Demo.serverEvent)) false
                                  (Demo.page "user" 0))))
           "duration" = JNum (Fin 1)
  /\ field (Page.form (page_of (loadEventData Demo.platform Demo.world
                                  (Some (OnlineEvent Demo.serverEvent)) false
                                  (Demo.page "user" 0))))
           "timedurationuntil" = JStr "2021-03-01T10:00".
Proof.
  split; [vm_compute; reflexivity |]. split; [vm_compute; reflexivity |].
  split; [vm_compute; reflexivity |].
  apply (loadEventData_online_duration Demo.platform Demo.world (Demo.page "user" 0)
           Demo.serverEvent).
  vm_compute; reflexivity.
Defined.

(** ** The lock of the sync *)

Lemma unblock_calls_app (id : Z) (t t' : list Effect) :
  unblock_calls id (t ++ t') = (unblock_calls id t + unblock_calls id t')%nat.
Proof. unfold unblock_calls. rewrite List.filter_app, length_app. reflexivity. Qed.

Lemma unblock_calls_other (id : Z) (e : Effect) (t : list Effect) :
  is_unblock id e = false -> unblock_calls id (e :: t) = unblock_calls id t.
Proof. intros H. unfold unblock_calls. cbn [List.filter]. rewrite H. reflexivity. Qed.

Lemma unblock_calls_nil (id : Z) : unblock_calls id [] = 0%nat.
Proof. reflexivity. Qed.

Ltac count_unblock :=
  repeat first
    [ rewrite unblock_calls_app
    | rewrite unblock_calls_other by reflexivity
    | rewrite unblock_calls_nil
    | rewrite Nat.add_0_r ].

Lemma truthy_id (id : Z) : id <> 0 -> Js.truthy (Js.of_opt (Some id)) = true.
Proof. intros H. cbn. apply Z.eqb_neq in H. rewrite H. reflexivity. Qed.

(** [unblockSync] with an event id releases the lock, once. *)
Lemma unblockSync_run (p : Page.t) (id : Z) :
  Page.eventId p = Some id -> id <> 0 ->
  unblockSync p = (Ok tt, p, [UnblockOperation COMPONENT id]).
Proof.
  intros He Hid. unfold unblockSync. unfold_monad.
  rewrite He, (truthy_id id Hid). reflexivity.
Qed.

(** ... and with none it does nothing. *)
Lemma unblockSync_no_id (p : Page.t) :
  Js.truthy (Js.of_opt (Page.eventId p)) = false ->
  unblockSync p = (Ok tt, p, []).
Proof. intros He. unfold unblockSync. unfold_monad. rewrite He. reflexivity. Qed.

Lemma ngOnDestroy_run (p : Page.t) (id : Z) :
  Page.eventId p = Some id -> id <> 0 ->
  ngOnDestroy p = (Ok tt, Page.set_isDestroyed true p, [UnblockOperation COMPONENT id]).
Proof.
  intros He Hid. unfold ngOnDestroy. unfold_monad.
  rewrite (unblockSync_run p id He Hid). reflexivity.
Qed.

Lemma unblock_calls_one (id : Z) :
  unblock_calls id [UnblockOperation COMPONENT id] = 1%nat.
Proof. unfold unblock_calls. cbn. rewrite Z.eqb_refl. reflexivity. Qed.

(** [returnToList] releases the lock once and keeps the event id. *)
Lemma returnToList_unblock (w : World) (event : option CalendarEvent) (p : Page.t) (id : Z) :
  Page.eventId p = Some id -> id <> 0 ->
  result_of (returnToList w event p) = Ok tt
  /\ Page.eventId (page_of (returnToList w event p)) = Some id
  /\ unblock_calls id (trace_of (returnToList w event p)) = 1%nat.
Proof.
  intros He Hid. unfold returnToList. unfold_monad.
  rewrite (unblockSync_run p id He Hid), He, (truthy_id id Hid).
  destruct p; cbn in He; subst; cbn.
  destruct (0 <? id), event, (outletActivated w); cbn;
    rewrite Z.eqb_refl; repeat split.
Qed.

(** The rest of [submit] once the server accepted the event: it ends well,
    keeps the event id and releases the lock once. *)
Lemma submit_resume_unblock (w : World) (formData : gmap string JsVal) (data : Data.t)
    (result : SubmitResult) (p : Page.t) (id : Z) :
  Page.eventId p = Some id -> id <> 0 ->
  result_of (submit_resume w formData data (Ok result) p) = Ok tt
  /\ Page.eventId (page_of (submit_resume w formData data (Ok result) p)) = Some id
  /\ unblock_calls id (trace_of (submit_resume w formData data (Ok result) p)) = 1%nat.
Proof.
  intros He Hid.
  pose proof (returnToList_unblock w (Some (event result)) p id He Hid) as Hret.
  unfold submit_resume, result_of, page_of, trace_of in *. unfold_monad.
  destruct (sent result);
    [ match goal with
      | |- context [refreshAfterChangeEvent ?w ?e ?n] =>
          destruct (refreshAfterChangeEvent w e n)
      end | ];
    cbn [fst snd app] in *;
    destruct (returnToList w (Some (event result)) p) as [[r q] t];
    cbn [fst snd app] in *;
    destruct Hret as (-> & Hq & Ht);
    cbn [fst snd app];
    count_unblock; rewrite ?Ht; repeat split; assumption.
Qed.

(** C1, as the claim states it, fails: event 7 is edited, the server accepts
    the submission and the page is destroyed; the lock of event 7 was
    released twice, whether the page is destroyed after [submit] ended or
    while it awaited the server. *)
Lemma unblock_once_counterexample :
  Page.eventId (Demo.page "user" 0) = Some 7
  /\ result_of (submit_then_destroy Demo.platform Demo.world (Demo.page "user" 0)) = Ok tt
  /\ List.filter is_submit
       (trace_of (submit_then_destroy Demo.platform Demo.world (Demo.page "user" 0))) <> []
  /\ unblock_calls 7
       (trace_of (submit_then_destroy Demo.platform Demo.world (Demo.page "user" 0))) = 2%nat
  /\ unblock_calls 7
       (trace_of (destroy_during_submit Demo.platform Demo.world (Demo.page "user" 0))) = 2%nat
  /\ unblock_calls 7
       (trace_of (submit_then_destroy Demo.platform Demo.world (Demo.page "user" 0))) <> 1%nat.
Proof.
  repeat split; try (vm_compute; reflexivity); vm_compute; discriminate.
Qed.

(** C1, amended. When the page edits an event (its id is set), the form
    passes the validation and the server accepts the submission, the lock of
    that event is released once by [returnToList] and once more by
    [ngOnDestroy]: [CoreSync.unblockOperation] is called twice for the event
    id, whether the page is destroyed after [submit] ended or while [submit]
    awaited the server. *)
Theorem unblock_after_submit_and_destroy (pf : Platform) (w : World) (p : Page.t)
    (id : Z) (result : SubmitResult) :
  Page.eventId p = Some id ->
  id <> 0 ->
  submit_error pf (Page.form p) = None ->
  submitEvent w (Some id) (submit_data pf (Page.form p) (Page.eventRepeatId p)) = Ok result ->
  unblock_calls id (trace_of (submit_then_destroy pf w p)) = 2%nat
  /\ unblock_calls id (trace_of (destroy_during_submit pf w p)) = 2%nat.
Proof.
  intros He Hid Hv Hok.
  split.
  - pose proof (submit_resume_unblock w (Page.form p)
                  (submit_data pf (Page.form p) (Page.eventRepeatId p)) result p id He Hid)
      as (Hr & Hq & Ht).
    unfold submit_then_destroy, submit, result_of, page_of, trace_of in *. unfold_monad.
    rewrite (submit_sends pf p Hv), He, Hok.
    destruct (submit_resume _ _ _ _ _) as [[r q] t]. cbn [fst snd] in *. subst r.
    rewrite (ngOnDestroy_run q id Hq Hid). cbn [fst snd app].
    count_unblock. rewrite Ht, unblock_calls_one. reflexivity.
  - assert (Hd : Page.eventId (Page.set_isDestroyed true p) = Some id)
      by (destruct p; exact He).
    pose proof (submit_resume_unblock w (Page.form p)
                  (submit_data pf (Page.form p) (Page.eventRepeatId p)) result
                  (Page.set_isDestroyed true p) id Hd Hid) as (Hr & Hq & Ht).
    unfold destroy_during_submit, result_of, page_of, trace_of in *. unfold_monad.
    rewrite (submit_sends pf p Hv), (ngOnDestroy_run p id He Hid), He, Hok.
    destruct (submit_resume _ _ _ _ _) as [[r q] t]. cbn [fst snd app] in *.
    count_unblock.
    change (UnblockOperation COMPONENT id :: t) with ([UnblockOperation COMPONENT id] ++ t).
    rewrite unblock_calls_app, unblock_calls_one, Ht. reflexivity.
Qed.

Lemma unblock_after_submit_and_destroy_witness :
  Page.eventId (Demo.page "user" 0) = Some 7
  /\ submit_error Demo.platform (Page.form (Demo.page "user" 0)) = None
  /\ unblock_calls 7
       (trace_of (submit_then_destroy Demo.platform Demo.world (Demo.page "user" 0))) = 2%nat
  /\ unblock_calls 7
       (trace_of (destroy_during_submit Demo.platform Demo.world (Demo.page "user" 0))) = 2%nat.
Proof.
  split; [vm_compute; reflexivity |].
  split; [vm_compute; reflexivity |].
  apply (unblock_after_submit_and_destroy Demo.platform Demo.world (Demo.page "user" 0) 7
           {| sent := true; event := OnlineEvent Demo.serverEvent |}).
  - vm_compute; reflexivity.
  - lia.
  - vm_compute; reflexivity.
  - vm_compute; reflexivity.
Defined.
Section FetchFrames.
Context (pf : Platform) (w : World).

Lemma fetchEvent_showAll : preserves Page.showAll (fetchEvent pf w).
Proof. unfold fetchEvent, loadEventData, loadGroups, setValue. frame. Qed.

Lemma fetchEvent_courses : preserves Page.courses (fetchEvent pf w).
Proof. unfold fetchEvent, loadEventData, loadGroups, setValue. frame. Qed.

Lemma fetchEvent_error : preserves Page.error (fetchEvent pf w).
Proof. unfold fetchEvent, loadEventData, loadGroups, setValue. frame. Qed.

Lemma fetchCategories_showAll : preserves Page.showAll (fetchCategories w).
Proof. unfold fetchCategories. frame. Qed.

Lemma fetchCategories_courses : preserves Page.courses (fetchCategories w).
Proof. unfold fetchCategories. frame. Qed.

Lemma fetchCategories_error : preserves Page.error (fetchCategories w).
Proof. unfold fetchCategories. frame. Qed.

Lemma fetchCourses_error : preserves Page.error (fetchCourses pf w).
Proof. unfold fetchCourses, contacts_in. frame. Qed.

Lemma fetchData_load_error : preserves Page.error (fetchData_load pf w).
Proof.
  unfold fetchData_load. frame.
  all: first [ apply fetchEvent_error | apply fetchCategories_error
          | apply fetchCourses_error ].
Qed.

End FetchFrames.

(** ** Fetching the data of the form *)

(** [Promise.all] with one more promise at the end. *)
Lemma promise_all_snoc (promises : list (M unit)) (m : M unit) (p : Page.t) :
  promise_all (promises ++ [m]) p =
    let '(r1, p1, t1) := promise_all promises p in
    let '(r2, p2, t2) := m p1 in
    (match r1 with Ok _ => r2 | Throw e => Throw e end, p2, t1 ++ t2).
Proof.
  revert p. induction promises as [|m' rest IH]; intros p.
  - cbn. destruct (m p) as [[[[]|e] p1] t1]; rewrite app_nil_r; reflexivity.
  - cbn [app promise_all]. destruct (m' p) as [[r p1] t1].
    rewrite IH. destruct (promise_all rest p1) as [[rs p2] t2].
    destruct (m p2) as [[r2 p3] t3]. rewrite app_assoc.
    destruct r, rs; reflexivity.
Qed.

(** The test [courses.length < 0] of [fetchCourses] is false for every
    list. *)
Lemma length_not_negative {A} (l : list A) : (Z.of_nat (length l) <? 0) = false.
Proof. apply Z.ltb_ge. lia. Qed.

(** [fetchCourses] on an empty list of courses. *)
Lemma fetchCourses_empty (pf : Platform) (w : World) (p : Page.t) :
  (if Page.showAll p then getCoursesByField w else getUserCourses w) = Ok [] ->
  fetchCourses pf w p
  = (Throw (TypeError "Cannot use 'in' operator to search for 'contacts' in undefined"),
     p, []).
Proof.
  intros H. unfold fetchCourses, contacts_in. unfold_monad. rewrite H.
  destruct (Page.showAll p); reflexivity.
Qed.

(** How [fetchData] ends when its fetches failed, and when they did not. *)
Lemma fetchData_load_fails (pf : Platform) (w : World) (p q : Page.t) (e : Err)
    (t : list Effect) :
  fetchData_load pf w (Page.set_error false p) = (Throw e, q, t) ->
  fetchData pf w p
  = (Ok tt, Page.set_error true q, t ++ [ShowErrorModalDefault e "Error getting data."]).
Proof.
  intros H. unfold fetchData. unfold_monad. rewrite H. reflexivity.
Qed.

Lemma fetchData_load_succeeds (pf : Platform) (w : World) (p q : Page.t)
    (types : gmap string bool) (first : AddonCalendarEventTypeOption)
    (rest : list AddonCalendarEventTypeOption) (t : list Effect) :
  fetchData_load pf w (Page.set_error false p) = (Ok (types, first :: rest), q, t) ->
  fetchData pf w p
  = (Ok tt,
     Page.set_eventTypes (first :: rest)
       (if Js.truthy (field (Page.form q) "eventtype") then q
        else Page.set_form
               (<["eventtype" :=
                    JStr (type_value (if allowed types "course" then COURSE
                                      else opt_value first))]> (Page.form q)) q),
     t).
Proof.
  intros H. unfold fetchData, fetchData_init, setValue. unfold_monad. rewrite H.
  destruct (Js.truthy (field (Page.form q) "eventtype")), (allowed types "course");
    cbn; rewrite ?app_nil_r; reflexivity.
Qed.

Section FetchData.
Context (pf : Platform) (w : World) (p : Page.t).
Context (accessInfo : AccessInformation) (types : gmap string bool).
Hypothesis Haccess : getAccessInformation w (Page.courseId p) = Ok accessInfo.
Hypothesis Htypes : getAllowedEventTypes w (Page.courseId p) = Ok types.

Lemma promises_before_showAll : Forall (preserves Page.showAll) (promises_before pf w p types).
Proof.
  unfold promises_before. frame;
    first [ apply fetchEvent_showAll | apply fetchCategories_showAll ].
Qed.

Lemma promises_before_courses : Forall (preserves Page.courses) (promises_before pf w p types).
Proof.
  unfold promises_before. frame;
    first [ apply fetchEvent_courses | apply fetchCategories_courses ].
Qed.

(** No event type is allowed: the load fails at once. *)
Lemma fetchData_load_no_type :
  getEventTypeOptions pf types = [] ->
  fetchData_load pf w p
  = (Throw (CoreError (instant pf "addon.calendar.nopermissiontoupdatecalendar")),
     Page.set_types types p, []).
Proof.
  intros Hnone. unfold fetchData_load. unfold_monad.
  rewrite Haccess, Htypes, Hnone. reflexivity.
Qed.

(** The load ended well: it answers the allowed types and their options,
    and there is an option. *)
Lemma fetchData_load_answer (r : gmap string bool * list AddonCalendarEventTypeOption)
    (q : Page.t) (t : list Effect) :
  fetchData_load pf w p = (Ok r, q, t) ->
  r = (types, getEventTypeOptions pf types) /\ getEventTypeOptions pf types <> [].
Proof.
  unfold fetchData_load. unfold_monad. rewrite Haccess, Htypes.
  destruct (getEventTypeOptions pf types) as [|first rest]; [discriminate|].
  cbn [length Nat.eqb].
  destruct (promise_all _ _) as [[[[]|e] q'] t']; [|discriminate].
  intros H. injection H as <- _ _. split; [reflexivity | discriminate].
Qed.

(** Courses are wanted and the list that comes is empty: the load fails,
    and the courses of the page are those it had. *)
Lemma fetchData_load_no_course :
  getEventTypeOptions pf types <> [] ->
  (allowed types "course" || allowed types "groups")%bool = true ->
  (if (isTrueOrOne pf (calendar_adminseesall w) && canmanageentries accessInfo)%bool
   then getCoursesByField w else getUserCourses w) = Ok [] ->
  exists e,
    result_of (fetchData_load pf w p) = Throw e
    /\ Page.courses (page_of (fetchData_load pf w p)) = Page.courses p.
Proof.
  intros Hsome Hwanted Hempty.
  unfold fetchData_load. unfold_monad. rewrite Haccess, Htypes.
  destruct (getEventTypeOptions pf types) as [|first rest]; [contradiction|].
  cbn [length Nat.eqb]. rewrite Hwanted.
  match goal with
  | |- context [promise_all (?ms ++ [fetchCourses pf w]) ?q] =>
      change ms with (promises_before pf w p types); set (start := q)
  end.
  rewrite promise_all_snoc.
  pose proof (preserves_promise_all Page.showAll _ promises_before_showAll start) as Hs.
  pose proof (preserves_promise_all Page.courses _ promises_before_courses start) as Hc.
  unfold page_of in Hs, Hc.
  destruct (promise_all (promises_before pf w p types) start) as [[r1 p1] t1].
  cbn [fst snd] in Hs, Hc.
  rewrite (fetchCourses_empty pf w p1).
  - assert (Hstart : Page.courses start = Page.courses p) by (destruct p; reflexivity).
    destruct r1 as [[]|e]; eexists; (split; [reflexivity |]);
      cbn [page_of fst snd]; rewrite Hc; exact Hstart.
  - rewrite Hs. subst start. destruct p; exact Hempty.
Qed.

End FetchData.

(** C9. [fetchCourses] is not total on an empty list of courses.  Its guard
    [courses.length < 0] is false for every list, so the early return that
    would set an empty list is never taken; on an empty list the test
    ['contacts' in courses[0]] reads an undefined element and throws, and
    the page is left as it was.  In [fetchData] the fault surfaces as the
    generic load error: the error modal with 'Error getting data.' is shown,
    [error] is set, and the courses of the page are not replaced. *)
Theorem fetchCourses_empty_list_faults (pf : Platform) (w : World) (p : Page.t)
    (accessInfo : AccessInformation) (types : gmap string bool) :
  getAccessInformation w (Page.courseId p) = Ok accessInfo ->
  getAllowedEventTypes w (Page.courseId p) = Ok types ->
  getEventTypeOptions pf types <> [] ->
  (allowed types "course" || allowed types "groups")%bool = true ->
  (if (isTrueOrOne pf (calendar_adminseesall w) && canmanageentries accessInfo)%bool
   then getCoursesByField w else getUserCourses w) = Ok [] ->
  (forall courses : list CoreCourseData, (Z.of_nat (length courses) <? 0) = false)
  /\ (forall q,
        Page.showAll q
        = (isTrueOrOne pf (calendar_adminseesall w) && canmanageentries accessInfo)%bool ->
        fetchCourses pf w q
        = (Throw (TypeError "Cannot use 'in' operator to search for 'contacts' in undefined"),
           q, []))
  /\ (exists e t,
        trace_of (fetchData pf w p) = t ++ [ShowErrorModalDefault e "Error getting data."])
  /\ Page.error (page_of (fetchData pf w p)) = true
  /\ Page.courses (page_of (fetchData pf w p)) = Page.courses p.
Proof.
  intros Haccess Htypes Hsome Hwanted Hempty.
  split; [intros courses; apply length_not_negative |].
  split; [intros q Hq; apply fetchCourses_empty; rewrite Hq; exact Hempty |].
  assert (Haccess' : getAccessInformation w (Page.courseId (Page.set_error false p))
                     = Ok accessInfo) by (destruct p; exact Haccess).
  assert (Htypes' : getAllowedEventTypes w (Page.courseId (Page.set_error false p))
                    = Ok types) by (destruct p; exact Htypes).
  destruct (fetchData_load_no_course pf w (Page.set_error false p) accessInfo types
              Haccess' Htypes' Hsome Hwanted Hempty) as (e & Hr & Hc).
  unfold result_of, page_of in Hr, Hc.
  destruct (fetchData_load pf w (Page.set_error false p)) as [[r q] t] eqn:Hload.
  cbn [fst snd] in Hr, Hc. subst r.
  rewrite (fetchData_load_fails pf w p q e t Hload).
  unfold trace_of, page_of. cbn [fst snd].
  split; [exists e, t; reflexivity |].
  split; [destruct q; reflexivity |].
  transitivity (Page.courses q); [destruct q; reflexivity |].
  rewrite Hc. destruct p; reflexivity.
Qed.

Lemma fetchCourses_empty_list_faults_witness :
  getUserCourses Demo.world = Ok []
  /\ result_of (fetchCourses Demo.platform Demo.world constructor)
     = Throw (TypeError "Cannot use 'in' operator to search for 'contacts' in undefined")
  /\ Page.error (page_of (fetchData Demo.platform Demo.world constructor)) = true.
Proof.
  split; [reflexivity |].
  destruct (fetchCourses_empty_list_faults Demo.platform Demo.world constructor
              {| canmanageentries := false; canmanageownentries := true;
                 canmanagegroupentries := false |}
              (<["user" := true]> (<["course" := true]> ∅)))
    as (_ & Hfault & _ & Herror & _).
  - reflexivity.
  - reflexivity.
  - vm_compute; discriminate.
  - vm_compute; reflexivity.
  - vm_compute; reflexivity.
  - split; [| exact Herror].
    rewrite (Hfault constructor); [reflexivity | vm_compute; reflexivity].
Defined.

(** C10. When the data load of [fetchData] ended well and no event type is
    selected at that moment, the type control is set to Course if the Course
    type is allowed, and else to the first of the options of the allowed
    types; a type that was selected is kept.  So the control is never left
    empty after a load that ended well.  When no type is allowed the load
    fails with the no-permission error. *)
Theorem fetchData_initial_type (pf : Platform) (w : World) (p : Page.t)
    (accessInfo : AccessInformation) (types : gmap string bool) :
  getAccessInformation w (Page.courseId p) = Ok accessInfo ->
  getAllowedEventTypes w (Page.courseId p) = Ok types ->
  match getEventTypeOptions pf types with
  | [] =>
      trace_of (fetchData pf w p)
      = [ShowErrorModalDefault
           (CoreError (instant pf "addon.calendar.nopermissiontoupdatecalendar"))
           "Error getting data."]
      /\ Page.error (page_of (fetchData pf w p)) = true
  | first :: _ =>
      forall r q t,
        fetchData_load pf w (Page.set_error false p) = (Ok r, q, t) ->
        result_of (fetchData pf w p) = Ok tt
        /\ Page.error (page_of (fetchData pf w p)) = false
        /\ Js.truthy (field (Page.form (page_of (fetchData pf w p))) "eventtype") = true
        /\ field (Page.form (page_of (fetchData pf w p))) "eventtype"
           = (if Js.truthy (field (Page.form q) "eventtype")
              then field (Page.form q) "eventtype"
              else JStr (type_value (if allowed types "course" then COURSE
                                     else opt_value first)))
  end.
Proof.
  intros Haccess Htypes.
  assert (Haccess' : getAccessInformation w (Page.courseId (Page.set_error false p))
                     = Ok accessInfo) by (destruct p; exact Haccess).
  assert (Htypes' : getAllowedEventTypes w (Page.courseId (Page.set_error false p))
                    = Ok types) by (destruct p; exact Htypes).
  destruct (getEventTypeOptions pf types) as [|first rest] eqn:Hoptions.
  - pose proof (fetchData_load_no_type pf w (Page.set_error false p) accessInfo types
                  Haccess' Htypes' Hoptions) as Hload.
    rewrite (fetchData_load_fails pf w p _ _ _ Hload).
    split; [reflexivity | destruct p; reflexivity].
  - intros r q t Hload.
    destruct (fetchData_load_answer pf w (Page.set_error false p) accessInfo types
                Haccess' Htypes' r q t Hload) as [-> _].
    pose proof (fetchData_load_error pf w (Page.set_error false p)) as Herror.
    rewrite Hload in Herror. cbn [page_of fst snd] in Herror.
    assert (Hq : Page.error q = false) by (rewrite Herror; destruct p; reflexivity).
    rewrite Hoptions in Hload.
    rewrite (fetchData_load_succeeds pf w p q types first rest t Hload).
    unfold result_of, page_of. cbn [fst snd].
    split; [reflexivity |].
    destruct (Js.truthy (field (Page.form q) "eventtype")) eqn:Hselected.
    + destruct q; cbn in *. repeat split; assumption.
    + destruct q; cbn in *. rewrite field_insert_eq.
      split; [exact Hq |]. split; [| reflexivity].
      destruct (allowed types "course"); [reflexivity |].
      destruct (opt_value first); reflexivity.
Qed.

Lemma fetchData_initial_type_witness :
  (exists r q t,
     fetchData_load Demo.platform Demo.world_courses (Page.set_error false constructor)
     = (Ok r, q, t))
  /\ Js.truthy (field (Page.form (page_of (fetchData Demo.platform Demo.world_courses
                                            constructor))) "eventtype") = true
  /\ field (Page.form (page_of (fetchData Demo.platform Demo.world_courses constructor)))
           "eventtype" = JStr "course"
  /\ field (Page.form (page_of (fetchData Demo.platform Demo.world_user constructor)))
           "eventtype" = JStr "user"
  /\ Page.error (page_of (fetchData Demo.platform Demo.world_none constructor)) = true.
Proof.
  assert (Hload : exists r q t,
            fetchData_load Demo.platform Demo.world_courses
              (Page.set_error false constructor) = (Ok r, q, t))
    by (eexists _, _, _; vm_compute; reflexivity).
  split; [exact Hload |].
  split; [| split; [vm_compute; reflexivity | split; [vm_compute; reflexivity |]]].
  - destruct Hload as (r & q & t & Hload).
    pose proof (fetchData_initial_type Demo.platform Demo.world_courses constructor
                  _ _ eq_refl eq_refl) as H.
    destruct (H r q t Hload) as (_ & _ & Htruthy & _).
    exact Htruthy.
  - destruct (fetchData_initial_type Demo.platform Demo.world_none constructor
                _ _ eq_refl eq_refl) as [_ Herror].
    exact Herror.
Defined.

(** * More properties of the page *)

(** ** What the validation accepts *)

(** X1. [submit] accepts a form exactly when no rule on the fields of the
    event type fails, the until-time (in that mode) is not before the start,
    and the minutes (in that mode) parse to an integer that is 1 at least. *)
Theorem submit_error_none_iff (pf : Platform) (formData : gmap string JsVal) :
  submit_error pf formData = None <->
  type_rules_hold pf formData = true
  /\ (duration_is pf formData 1 = true ->
      Js.gt (convertToTimestamp pf (field formData "timestart"))
            (convertToTimestamp pf (field formData "timedurationuntil")) = false)
  /\ (duration_is pf formData 2 = true ->
      exists z, Js.parseInt (Js.or (field formData "timedurationminutes") (JStr ""))
                = Fin z /\ 1 <= z).
Proof.
  destruct (type_rules_hold pf formData) eqn:Hr.
  - rewrite (submit_error_durations pf formData Hr).
    setoid_rewrite <- minutes_accepted.
    destruct (duration_is pf formData 1) eqn:H1.
    + rewrite (duration_is_excl pf formData 1 2 H1) by lia.
      destruct (Js.gt _ _); cbn; split.
      * discriminate.
      * intros (_ & H & _). discriminate (H eq_refl).
      * intros _. repeat split; intros; try reflexivity; discriminate.
      * reflexivity.
    + cbn. destruct (duration_is pf formData 2) eqn:H2; cbn.
      * destruct (_ || _)%bool; split.
        -- discriminate.
        -- intros (_ & _ & H). discriminate (H eq_refl).
        -- intros _. repeat split; intros; try reflexivity; discriminate.
        -- reflexivity.
      * split; [intros _; repeat split; intros; discriminate | reflexivity].
  - destruct (submit_error_type_rule pf formData Hr) as (error & He & _).
    rewrite He. split; [discriminate | intros (H & _); discriminate H].
Qed.

(** The chain of rules of [submit], on the outcome of its four first tests. *)
Lemma rule_chain (a b c d : bool) (rest : option string) :
  rest <> Some "core.selectacourse" ->
  rest <> Some "core.selectagroup" ->
  rest <> Some "core.selectacategory" ->
  let error :=
    if a then Some "core.selectacourse"
    else if b then Some "core.selectacourse"
    else if c then Some "core.selectagroup"
    else if d then Some "core.selectacategory"
    else rest in
  (error = Some "core.selectacourse" <-> a = true \/ b = true)
  /\ (error = Some "core.selectagroup" <-> a = false /\ b = false /\ c = true)
  /\ (error = Some "core.selectacategory"
      <-> a = false /\ b = false /\ c = false /\ d = true).
Proof.
  intros H1 H2 H3. cbv zeta.
  destruct a, b, c, d; (split; [| split]); split; intros Hyp;
    try discriminate Hyp; try reflexivity; try contradiction; try tauto;
    try (destruct Hyp as [Hyp|Hyp]; discriminate Hyp);
    try (destruct Hyp as (Ha & Hb & Hc); discriminate);
    try (destruct Hyp as (Ha & Hb & Hc & Hd); discriminate).
Qed.

(** X2. Which message a missing field gets.  The message asking for a
    course is shown exactly for a Course event without a course or a Group
    event without the course of the group; the one asking for a group
    exactly for a Group event with that course and without a group; the one
    asking for a category exactly for a Category event without a category. *)
Theorem submit_error_missing_field (pf : Platform) (formData : gmap string JsVal) :
  (submit_error pf formData = Some "core.selectacourse" <->
   (is_type pf formData COURSE = true /\ Js.truthy (field formData "courseid") = false)
   \/ (is_type pf formData GROUP = true
       /\ Js.truthy (field formData "groupcourseid") = false))
  /\ (submit_error pf formData = Some "core.selectagroup" <->
      is_type pf formData GROUP = true
      /\ Js.truthy (field formData "groupcourseid") = true
      /\ Js.truthy (field formData "groupid") = false)
  /\ (submit_error pf formData = Some "core.selectacategory" <->
      is_type pf formData CATEGORY = true
      /\ Js.truthy (field formData "categoryid") = false).
Proof.
  pose proof (is_type_excl pf formData GROUP COURSE) as Hgc.
  pose proof (is_type_excl pf formData CATEGORY COURSE) as Hcc.
  pose proof (is_type_excl pf formData CATEGORY GROUP) as Hcg.
  unfold submit_error.
  match goal with
  | |- context [if ?a then _ else if ?b then _ else if ?c then _
                else if ?d then _ else ?rest] =>
      destruct (rule_chain a b c d rest) as (Hcourse & Hgroup & Hcat)
  end.
  1-3: repeat match goal with
         | |- context [if ?b then _ else _] => destruct b
         end; discriminate.
  rewrite Hcourse, Hgroup, Hcat. clear Hcourse Hgroup Hcat.
  destruct (is_type pf formData COURSE), (is_type pf formData GROUP),
    (is_type pf formData CATEGORY);
    try (discriminate (Hgc eq_refl ltac:(discriminate)));
    try (discriminate (Hcc eq_refl ltac:(discriminate)));
    try (discriminate (Hcg eq_refl ltac:(discriminate)));
    destruct (Js.truthy (field formData "courseid")),
      (Js.truthy (field formData "groupcourseid")),
      (Js.truthy (field formData "groupid")),
      (Js.truthy (field formData "categoryid"));
    cbn; intuition discriminate.
Qed.

(** ** Sending the event *)

(** What [returnToList] does, all of it. *)
Lemma returnToList_run (w : World) (event : option CalendarEvent) (p : Page.t) :
  returnToList w event p =
    (Ok tt,
     (if outletActivated w
      then Page.set_originalData (Some (form_reset (Page.originalData p) (Page.form p)))
             (Page.set_form (form_reset (Page.originalData p) (Page.form p))
                (Page.set_hasOffline false p))
      else Page.set_originalData None p),
     (if Js.truthy (Js.of_opt (Page.eventId p))
      then [UnblockOperation COMPONENT (default 0 (Page.eventId p))] else [])
     ++ [if (Js.truthy (Js.of_opt (Page.eventId p)) && (0 <? default 0 (Page.eventId p)))%bool
         then EventsTrigger EDIT_EVENT_EVENT (Page.eventId p) (siteId w)
         else match event with
              | Some event => EventsTrigger NEW_EVENT_EVENT (Some (Ev.id event)) (siteId w)
              | None => EventsTrigger NEW_EVENT_DISCARDED_EVENT None (siteId w)
              end]
     ++ (if outletActivated w then [] else [NavigatorBack])).
Proof.
  unfold returnToList, unblockSync. unfold_monad. cbv beta.
  destruct (Js.truthy (Js.of_opt (Page.eventId p))) eqn:Hid; cbn [andb];
    rewrite ?Hid; cbn [andb];
    destruct (0 <? default 0 (Page.eventId p)), event, (outletActivated w); reflexivity.
Qed.

(** What is left of [submit] once the server has accepted the event. *)
Lemma submit_resume_run (w : World) (formData : gmap string JsVal) (data : Data.t)
    (result : SubmitResult) (p : Page.t) :
  exists repeated,
    submit_resume w formData data (Ok result) p =
      (Ok tt, page_of (returnToList w (Some (event result)) p),
       TriggerFormSubmittedEvent (sent result) (siteId w)
       :: (if sent result then [RefreshAfterChangeEvent (event result) repeated] else [])
       ++ trace_of (returnToList w (Some (event result)) p) ++ [ModalDismiss]).
Proof.
  unfold submit_resume. unfold_monad. cbv beta.
  destruct (sent result).
  - match goal with
    | |- context [refreshAfterChangeEvent ?w ?e ?n] =>
        exists n; destruct (refreshAfterChangeEvent w e n)
    end; cbv beta iota zeta;
      rewrite (returnToList_run w (Some (event result)) p);
      cbn; rewrite ?app_nil_r; reflexivity.
  - exists JUndefined. cbv beta iota zeta.
    rewrite (returnToList_run w (Some (event result)) p).
    cbn. rewrite ?app_nil_r. reflexivity.
Qed.

(** X3. When the form passes the validation and the server rejects the
    event, [submit] shows the error with the default text
    'Error sending data.', dismisses the loading modal and leaves the page
    as it was: the form keeps what the user typed, the lock is not released
    and nothing is notified. *)
Theorem submit_rejected (pf : Platform) (w : World) (p : Page.t) (e : Err) :
  submit_error pf (Page.form p) = None ->
  submitEvent w (Page.eventId p) (submit_data pf (Page.form p) (Page.eventRepeatId p))
  = Throw e ->
  submit pf w p =
    (Ok tt, p,
     [ShowModalLoading "core.sending";
      SubmitEvent (Page.eventId p) (submit_data pf (Page.form p) (Page.eventRepeatId p));
      ShowErrorModalDefault e "Error sending data.";
      ModalDismiss]).
Proof.
  intros Hv Hrejected. unfold submit. unfold_monad.
  rewrite (submit_sends pf p Hv). unfold submit_resume. unfold_monad.
  rewrite Hrejected. reflexivity.
Qed.

Lemma submit_rejected_witness :
  submit_error Demo.platform (Page.form Demo.until_page) = None
  /\ page_of (submit Demo.platform
                (Demo.with_submit (Throw (ServiceError "offline")) Demo.world)
                Demo.until_page) = Demo.until_page
  /\ unblock_calls 7
       (trace_of (submit Demo.platform
                    (Demo.with_submit (Throw (ServiceError "offline")) Demo.world)
                    Demo.until_page)) = 0%nat.
Proof.
  split; [vm_compute; reflexivity |].
  rewrite (submit_rejected Demo.platform
             (Demo.with_submit (Throw (ServiceError "offline")) Demo.world)
             Demo.until_page (ServiceError "offline")).
  - split; reflexivity.
  - vm_compute; reflexivity.
  - reflexivity.
Defined.

(** X4. Once the server has accepted the event, the calendar is refreshed
    exactly when the event was sent (not stored offline), and a failure of
    that refresh changes nothing: [submit] goes on to [returnToList] and
    ends well either way. *)
Theorem submit_refresh (pf : Platform) (w : World) (p : Page.t) (result : SubmitResult) :
  submit_error pf (Page.form p) = None ->
  submitEvent w (Page.eventId p) (submit_data pf (Page.form p) (Page.eventRepeatId p))
  = Ok result ->
  result_of (submit pf w p) = Ok tt
  /\ page_of (submit pf w p) = page_of (returnToList w (Some (event result)) p)
  /\ length (List.filter is_refresh (trace_of (submit pf w p)))
     = (if sent result then 1 else 0)%nat.
Proof.
  intros Hv Haccepted. unfold submit. unfold_monad.
  rewrite (submit_sends pf p Hv), Haccepted.
  destruct (submit_resume_run w (Page.form p)
              (submit_data pf (Page.form p) (Page.eventRepeatId p)) result p)
    as [repeated ->].
  rewrite (returnToList_run w (Some (event result)) p).
  unfold result_of, page_of, trace_of. cbn [fst snd].
  split; [reflexivity |]. split; [reflexivity |].
  destruct (sent result), (Js.truthy (Js.of_opt (Page.eventId p))),
    (0 <? default 0 (Page.eventId p)), (outletActivated w); reflexivity.
Qed.

Lemma submit_refresh_witness :
  submit_error Demo.platform (Page.form Demo.until_page) = None
  /\ length (List.filter is_refresh
               (trace_of (submit Demo.platform Demo.world Demo.until_page))) = 1%nat
  /\ length (List.filter is_refresh
               (trace_of (submit Demo.platform
                  (Demo.with_submit
                     (Ok {| sent := false; event := OfflineEvent Demo.draft |}) Demo.world)
                  Demo.until_page))) = 0%nat.
Proof.
  split; [vm_compute; reflexivity |]. split.
  - apply (submit_refresh Demo.platform Demo.world Demo.until_page
             {| sent := true; event := OnlineEvent Demo.serverEvent |});
      vm_compute; reflexivity.
  - apply (submit_refresh Demo.platform
             (Demo.with_submit
                (Ok {| sent := false; event := OfflineEvent Demo.draft |}) Demo.world)
             Demo.until_page {| sent := false; event := OfflineEvent Demo.draft |});
      vm_compute; reflexivity.
Defined.

(** X5. A submission that the server accepts notifies the other pages
    exactly once: an edited event for a page that edits a server event (its
    id is positive), else a new event with the id that the server answered.
    It releases the lock once when the page has an event id and never when
    it has none, and it navigates back exactly when the page is not in the
    split view. *)
Theorem submit_accepted_effects (pf : Platform) (w : World) (p : Page.t)
    (result : SubmitResult) :
  submit_error pf (Page.form p) = None ->
  submitEvent w (Page.eventId p) (submit_data pf (Page.form p) (Page.eventRepeatId p))
  = Ok result ->
  List.filter is_trigger (trace_of (submit pf w p))
  = [if (Js.truthy (Js.of_opt (Page.eventId p)) && (0 <? default 0 (Page.eventId p)))%bool
     then EventsTrigger EDIT_EVENT_EVENT (Page.eventId p) (siteId w)
     else EventsTrigger NEW_EVENT_EVENT (Some (Ev.id (event result))) (siteId w)]
  /\ (forall id,
        unblock_calls id (trace_of (submit pf w p))
        = if (Js.truthy (Js.of_opt (Page.eventId p))
              && (default 0 (Page.eventId p) =? id))%bool
          then 1%nat else 0%nat)
  /\ (In NavigatorBack (trace_of (submit pf w p)) <-> outletActivated w = false).
Proof.
  intros Hv Haccepted. unfold submit. unfold_monad.
  rewrite (submit_sends pf p Hv), Haccepted.
  destruct (submit_resume_run w (Page.form p)
              (submit_data pf (Page.form p) (Page.eventRepeatId p)) result p)
    as [repeated ->].
  rewrite (returnToList_run w (Some (event result)) p).
  unfold trace_of, unblock_calls. cbn [fst snd].
  split; [| split].
  - destruct (sent result), (Js.truthy (Js.of_opt (Page.eventId p))),
      (0 <? default 0 (Page.eventId p)), (outletActivated w); reflexivity.
  - intros id.
    destruct (sent result), (Js.truthy (Js.of_opt (Page.eventId p))),
      (0 <? default 0 (Page.eventId p)), (outletActivated w); cbn;
      try reflexivity;
      destruct (default 0 (Page.eventId p) =? id); reflexivity.
  - destruct (sent result), (Js.truthy (Js.of_opt (Page.eventId p))),
      (0 <? default 0 (Page.eventId p)), (outletActivated w); cbn;
      split; intros H; try reflexivity; try discriminate H; try tauto;
      repeat (destruct H as [H|H]; [discriminate H |]); try contradiction.
Qed.

Lemma submit_accepted_effects_witness :
  submit_error Demo.platform (Page.form Demo.new_page) = None
  /\ Page.eventId Demo.new_page = None
  /\ List.filter is_trigger (trace_of (submit Demo.platform Demo.world Demo.new_page))
     = [EventsTrigger NEW_EVENT_EVENT (Some 7) "site1"]
  /\ unblock_calls 7 (trace_of (submit Demo.platform Demo.world Demo.new_page)) = 0%nat.
Proof.
  split; [vm_compute; reflexivity |]. split; [reflexivity |].
  destruct (submit_accepted_effects Demo.platform Demo.world Demo.new_page
              {| sent := true; event := OnlineEvent Demo.serverEvent |})
    as (Ht & Hu & _).
  - vm_compute; reflexivity.
  - vm_compute; reflexivity.
  - split; [exact Ht | exact (Hu 7)].
Defined.

(** [form.reset(value)] gives every control the value it has in [value],
    [null] standing for [undefined]; when [value] has the controls of the
    form, the form becomes [value] read that way. *)
Lemma form_reset_same_controls (value form : gmap string JsVal) :
  dom value = dom form ->
  form_reset (Some value) form = (fun v => reset_value (Some v)) <$> value.
Proof.
  intros Hdom. apply map_eq. intros name. unfold form_reset.
  rewrite map_lookup_imap, lookup_fmap. cbn [default].
  assert (Hname : is_Some (value !! name) <-> is_Some (form !! name))
    by (rewrite <- !elem_of_dom, Hdom; reflexivity).
  destruct (form !! name) as [v|] eqn:Hform; cbn.
  - destruct (value !! name) as [v'|] eqn:Hvalue; [reflexivity |].
    destruct Hname as [_ Hname].
    destruct (Hname (ex_intro _ v eq_refl)) as [v' Hv']. discriminate Hv'.
  - destruct (value !! name) as [v'|] eqn:Hvalue; [| reflexivity].
    destruct Hname as [Hname _].
    destruct (Hname (ex_intro _ v' eq_refl)) as [v Hv]. discriminate Hv.
Qed.

(** X6. In the split view, [returnToList] resets the form to the data
    recorded at load time, whatever the user typed: when that data has the
    controls of the form, every control takes its recorded value again, a
    control recorded as [undefined] (the location of an event that has
    none) becoming [null]; the data is recorded anew from the form so
    reset, the offline mark is cleared and the page does not navigate
    back. *)
Theorem returnToList_resets_form (w : World) (event : option CalendarEvent) (p : Page.t)
    (original : gmap string JsVal) :
  outletActivated w = true ->
  Page.originalData p = Some original ->
  dom original = dom (Page.form p) ->
  Page.form (page_of (returnToList w event p))
  = (fun v => reset_value (Some v)) <$> original
  /\ Page.originalData (page_of (returnToList w event p))
     = Some ((fun v => reset_value (Some v)) <$> original)
  /\ Page.hasOffline (page_of (returnToList w event p)) = false
  /\ ~ In NavigatorBack (trace_of (returnToList w event p)).
Proof.
  intros Hsplit Horiginal Hdom.
  rewrite (returnToList_run w event p), Hsplit, Horiginal.
  rewrite (form_reset_same_controls original (Page.form p) Hdom).
  unfold page_of, trace_of. cbn [fst snd].
  repeat split.
  destruct (Js.truthy (Js.of_opt (Page.eventId p))), (0 <? default 0 (Page.eventId p)),
    event; cbn; intros H;
    repeat (destruct H as [H|H]; [discriminate H |]); contradiction.
Qed.

Lemma returnToList_resets_form_witness :
  field (Page.form Demo.edited_page) "name" = JStr "Oral exam"
  /\ field (Page.form Demo.edited_page) "location" = JUndefined
  /\ field (Page.form (page_of (returnToList (Demo.with_outlet true Demo.world_courses)
                                  None Demo.edited_page))) "name" = JStr "Exam"
  /\ field (Page.form (page_of (returnToList (Demo.with_outlet true Demo.world_courses)
                                  None Demo.edited_page))) "location" = JNull.
Proof.
  split; [vm_compute; reflexivity |]. split; [vm_compute; reflexivity |].
  destruct (returnToList_resets_form (Demo.with_outlet true Demo.world_courses) None
              Demo.edited_page (<["location" := JUndefined]> (Demo.form "user" 0)))
    as (Hform & _).
  - reflexivity.
  - reflexivity.
  - change (Page.form Demo.edited_page)
      with (<["name" := JStr "Oral exam"]>
              (<["location" := JUndefined]> (Demo.form "user" 0))).
    rewrite dom_insert_L.
    assert (Hname : "name" ∈ dom (<["location" := JUndefined]> (Demo.form "user" 0)))
      by (apply elem_of_dom; exists (JStr "Exam"); vm_compute; reflexivity).
    set_solver.
  - rewrite Hform. unfold field. rewrite !lookup_fmap.
    split; vm_compute; reflexivity.
Defined.

(** ** More on loading an event *)

Lemma never_throws_ret {A} (a : A) : never_throws (ret a).
Proof. intros p. exists a. reflexivity. Qed.

Lemma never_throws_modify (f : Page.t -> Page.t) : never_throws (modify f).
Proof. intros p. exists tt. reflexivity. Qed.

Lemma never_throws_emit (e : Effect) : never_throws (emit e).
Proof. intros p. exists tt. reflexivity. Qed.

Lemma never_throws_get : never_throws get.
Proof. intros p. exists p. reflexivity. Qed.

Lemma never_throws_bind {A B} (m : M A) (k : A -> M B) :
  never_throws m -> (forall a, never_throws (k a)) -> never_throws (m ≫= k).
Proof.
  intros Hm Hk p. destruct (Hm p) as [a Ha].
  unfold mbind, M_bind, bind, result_of in *.
  destruct (m p) as [[r p1] t1]; cbn [fst snd] in *. subst r.
  destruct (Hk a p1) as [b Hb]. unfold result_of in Hb.
  destruct (k a p1) as [[r p2] t2]; cbn [fst snd] in *. subst r.
  exists b. reflexivity.
Qed.

(** A sequence of steps none of which can throw. *)
Ltac total :=
  repeat
    (cbv beta iota zeta;
     lazymatch goal with
     | |- never_throws (_ ≫= _) => apply never_throws_bind; [| intros ?]
     | |- never_throws (setValue _ _) => apply never_throws_setValue
     | |- never_throws (ret _) => apply never_throws_ret
     | |- never_throws (modify _) => apply never_throws_modify
     | |- never_throws (emit _) => apply never_throws_emit
     | |- never_throws get => apply never_throws_get
     | |- never_throws (if ?b then _ else _) => destruct b
     end).

(** Finds the step that sets the control, as [establish] does, in a
    sequence whose first part may be a sequence itself. *)
Ltac settle :=
  cbv beta iota;
  lazymatch goal with
  | |- sets _ _ (setValue _ _) => apply sets_setValue
  | |- sets _ _ (_ ≫= _) =>
      first [ apply sets_bind_l; [ solve [settle] | intros ?; solve [keep] ]
            | apply sets_bind_r; [ solve [total] | intros ?; settle ] ]
  end.

(** X7. Loading a server event whose [timeduration] is not positive sets
    the duration mode to 0 (no duration) and the until-time control to the
    date string of the current time ([toDatetimeFormat] without argument). *)
Theorem loadEventData_online_no_duration (pf : Platform) (w : World) (p : Page.t)
    (e : Online.t) :
  Online.timeduration e <= 0 ->
  field (Page.form (page_of (loadEventData pf w (Some (OnlineEvent e)) false p))) "duration"
  = JNum (Fin 0)
  /\ field (Page.form (page_of (loadEventData pf w (Some (OnlineEvent e)) false p)))
           "timedurationuntil"
     = JStr (toDatetimeFormat pf JUndefined).
Proof.
  intros Hle.
  assert (Hgt : gt_zero pf (Ev.timeduration (OnlineEvent e)) = false)
    by (apply Z.ltb_ge; exact Hle).
  assert (H : sets "duration" (JNum (Fin 0)) (loadEventData pf w (Some (OnlineEvent e)) false)
              /\ sets "timedurationuntil" (JStr (toDatetimeFormat pf JUndefined))
                   (loadEventData pf w (Some (OnlineEvent e)) false)).
  { unfold loadEventData. rewrite Hgt. split; settle. }
  destruct H as [Hd Hu]. split; [apply Hd | apply Hu].
Qed.

Lemma loadEventData_online_no_duration_witness :
  has_controls (Page.form (Demo.page "user" 1)) = true
  /\ field (Page.form (Demo.page "user" 1)) "duration" = JNum (Fin 1)
  /\ field (Page.form (Demo.page "user" 1)) "timedurationuntil" = JStr "2021-03-01T09:00"
  /\ Online.timeduration Demo.seriesEvent <= 0
  /\ field (Page.form (page_of (loadEventData Demo.platform Demo.world
                                  (Some (OnlineEvent Demo.seriesEvent)) false
                                  (Demo.page "user" 1))))
           "duration" = JNum (Fin 0)
  /\ field (Page.form (page_of (loadEventData Demo.platform Demo.world
                                  (Some (OnlineEvent Demo.seriesEvent)) false
                                  (Demo.page "user" 1))))
           "timedurationuntil" = JStr "2021-03-01T08:00".
Proof.
  split; [vm_compute; reflexivity |]. split; [vm_compute; reflexivity |].
  split; [vm_compute; reflexivity |]. split; [vm_compute; discriminate |].
  apply (loadEventData_online_no_duration Demo.platform Demo.world (Demo.page "user" 1)
           Demo.seriesEvent).
  vm_compute; discriminate.
Defined.

(** X8. Loading a server event fills the controls of the recurrence from
    the series: [repeat] says whether the event has a [repeatid], [repeats]
    is the count of events of the series or ['1'] when there is none,
    [repeateditall] is 1 and the minutes are empty. *)
Theorem loadEventData_online_recurrence (pf : Platform) (w : World) (p : Page.t)
    (e : Online.t) :
  field (Page.form (page_of (loadEventData pf w (Some (OnlineEvent e)) false p))) "repeat"
  = JBool (Js.truthy (Js.of_opt (Online.repeatid e)))
  /\ field (Page.form (page_of (loadEventData pf w (Some (OnlineEvent e)) false p))) "repeats"
     = match Online.eventcount e with
       | Some count => if count =? 0 then JStr "1" else JNum (Fin count)
       | None => JStr "1"
       end
  /\ field (Page.form (page_of (loadEventData pf w (Some (OnlineEvent e)) false p)))
           "repeateditall" = JNum (Fin 1)
  /\ field (Page.form (page_of (loadEventData pf w (Some (OnlineEvent e)) false p)))
           "timedurationminutes" = JStr "".
Proof.
  assert (H : sets "repeat" (Js.bangbang (Ev.repeatid (OnlineEvent e)))
                (loadEventData pf w (Some (OnlineEvent e)) false)
              /\ sets "repeats" (Js.or (Ev.eventcount (OnlineEvent e)) (JStr "1"))
                   (loadEventData pf w (Some (OnlineEvent e)) false)
              /\ sets "repeateditall" (JNum (Fin 1))
                   (loadEventData pf w (Some (OnlineEvent e)) false)
              /\ sets "timedurationminutes" (JStr "")
                   (loadEventData pf w (Some (OnlineEvent e)) false)).
  { unfold loadEventData.
    destruct (gt_zero pf (Ev.timeduration (OnlineEvent e)));
      (split; [| split; [| split]]); settle. }
  destruct H as (Hrepeat & Hrepeats & Hall & Hminutes).
  rewrite (Hrepeat p), (Hrepeats p), (Hall p), (Hminutes p).
  repeat split.
  cbn. destruct (Online.eventcount e) as [count|]; [| reflexivity].
  unfold Js.or. cbn. destruct (count =? 0); reflexivity.
Qed.

(** X9. After a load the two course controls agree: [courseid] and
    [groupcourseid] both get the course of the event, or the empty string
    when it has none.  For a draft that course is its [courseid]: the
    [groupcourseid] that the draft stores is not read. *)
Theorem loadEventData_course_controls (pf : Platform) (w : World) (p : Page.t)
    (event : CalendarEvent) (isOffline : bool) :
  field (Page.form (page_of (loadEventData pf w (Some event) isOffline p))) "courseid"
  = Js.or (if isOffline then Ev.courseid event else Ev.course_id event) (JStr "")
  /\ field (Page.form (page_of (loadEventData pf w (Some event) isOffline p))) "groupcourseid"
     = field (Page.form (page_of (loadEventData pf w (Some event) isOffline p))) "courseid".
Proof.
  assert (H : sets "courseid"
                (Js.or (if isOffline then Ev.courseid event else Ev.course_id event) (JStr ""))
                (loadEventData pf w (Some event) isOffline)
              /\ sets "groupcourseid"
                   (Js.or (if isOffline then Ev.courseid event else Ev.course_id event)
                      (JStr ""))
                   (loadEventData pf w (Some event) isOffline)).
  { unfold loadEventData.
    destruct isOffline; [| destruct (gt_zero pf (Ev.timeduration event))];
      split; settle. }
  destruct H as [Hc Hg]. rewrite (Hc p), (Hg p). split; reflexivity.
Qed.

Lemma answers_bind_r {A B} (r : outcome B) (m : M A) (k : A -> M B) :
  never_throws m -> (forall a, answers r (k a)) -> answers r (m ≫= k).
Proof.
  intros Hm Hk p. destruct (Hm p) as [a Ha].
  unfold mbind, M_bind, bind, result_of in *.
  destruct (m p) as [[r1 p1] t1]; cbn [fst snd] in *. subst r1.
  specialize (Hk a p1). unfold result_of in Hk.
  destruct (k a p1) as [[r2 p2] t2]; cbn [fst snd] in *. exact Hk.
Qed.

(** [loadGroups] ends as the fetch of the groups did. *)
Lemma loadGroups_answers (w : World) (courseId : JsVal) :
  answers (match getUserGroupsInCourse w courseId with
           | Ok _ => Ok tt
           | Throw e => Throw e
           end) (loadGroups w courseId).
Proof.
  intros p. unfold loadGroups. unfold_monad.
  destruct (getUserGroupsInCourse w courseId); reflexivity.
Qed.

(** X10. On a form that has its controls, [loadEventData] can only fail on
    the groups: it rejects exactly when the event is a Group event with a
    course and the groups of that course cannot be fetched, with the error
    of that fetch.  The form has been filled by then: the name control
    holds the name of the event whatever the outcome. *)
Theorem loadEventData_outcome (pf : Platform) (w : World) (p : Page.t)
    (event : CalendarEvent) (isOffline : bool) :
  has_controls (Page.form p) = true ->
  result_of (loadEventData pf w (Some event) isOffline p)
  = (if (String.eqb (Ev.eventtype event) (type_value GROUP)
         && Js.truthy (if isOffline then Ev.courseid event else Ev.course_id event))%bool
     then match getUserGroupsInCourse w
                  (if isOffline then Ev.courseid event else Ev.course_id event) with
          | Ok _ => Ok tt
          | Throw e => Throw e
          end
     else Ok tt)
  /\ field (loaded_form pf w event isOffline p) "name" = Ev.name event.
Proof.
  intros _. split.
  - revert p.
    change (answers
              (if (String.eqb (Ev.eventtype event) (type_value GROUP)
                   && Js.truthy (if isOffline then Ev.courseid event
                                 else Ev.course_id event))%bool
               then match getUserGroupsInCourse w
                            (if isOffline then Ev.courseid event
                             else Ev.course_id event) with
                    | Ok _ => Ok tt
                    | Throw e => Throw e
                    end
               else Ok tt)
              (loadEventData pf w (Some event) isOffline)).
    unfold loadEventData.
    repeat (cbv beta iota zeta; apply answers_bind_r; [solve [total] | intros ?]).
    cbv beta iota zeta.
    destruct (String.eqb (Ev.eventtype event) (type_value GROUP)
              && Js.truthy (if isOffline then Ev.courseid event else Ev.course_id event))%bool.
    + apply loadGroups_answers.
    + intros p. reflexivity.
  - unfold loaded_form. revert p.
    change (sets "name" (Ev.name event) (loadEventData pf w (Some event) isOffline)).
    unfold loadEventData.
    destruct isOffline; [| destruct (gt_zero pf (Ev.timeduration event))]; settle.
Qed.

Lemma loadEventData_outcome_witness :
  has_controls (Page.form (Demo.page "user" 0)) = true
  /\ result_of (loadEventData Demo.platform
                  (Demo.with_groups (Throw (ServiceError "No groups")) Demo.world)
                  (Some (OfflineEvent Demo.groupDraft)) true (Demo.page "user" 0))
     = Throw (ServiceError "No groups")
  /\ field (loaded_form Demo.platform
              (Demo.with_groups (Throw (ServiceError "No groups")) Demo.world)
              (OfflineEvent Demo.groupDraft) true (Demo.page "user" 0)) "name"
     = JStr "Lab"
  /\ result_of (loadEventData Demo.platform
                  (Demo.with_groups (Throw (ServiceError "No groups")) Demo.world)
                  (Some (OnlineEvent Demo.serverEvent)) false (Demo.page "user" 0))
     = Ok tt.
Proof.
  split; [vm_compute; reflexivity |].
  destruct (loadEventData_outcome Demo.platform
              (Demo.with_groups (Throw (ServiceError "No groups")) Demo.world)
              (Demo.page "user" 0) (OfflineEvent Demo.groupDraft) true)
    as [Hresult Hname]; [vm_compute; reflexivity |].
  destruct (loadEventData_outcome Demo.platform
              (Demo.with_groups (Throw (ServiceError "No groups")) Demo.world)
              (Demo.page "user" 0) (OnlineEvent Demo.serverEvent) false)
    as [Hresult' _]; [vm_compute; reflexivity |].
  split; [rewrite Hresult; vm_compute; reflexivity |].
  split; [rewrite Hname; vm_compute; reflexivity |].
  rewrite Hresult'. vm_compute; reflexivity.
Defined.

(** X11. [groupCourseSelected] does nothing when no course is selected for
    the group.  With a course it shows the loading modal and dismisses it,
    and never rejects: when the groups come, they replace the groups of the
    page and the group control is emptied; when the fetch fails, the error
    is shown with the default text 'Error getting data.' and the groups and
    the group control are kept.  The loading flag is cleared either way. *)
Theorem groupCourseSelected_run (w : World) (p : Page.t) :
  if Js.truthy (field (Page.form p) "groupcourseid") then
    match getUserGroupsInCourse w (field (Page.form p) "groupcourseid") with
    | Ok groups =>
        groupCourseSelected w p
        = (Ok tt,
           Page.set_form (<["groupid" := JStr ""]> (Page.form p))
             (Page.set_loadingGroups false
                (Page.set_courseGroupSet true
                   (Page.set_groups groups (Page.set_loadingGroups true p)))),
           [ShowModalLoading ""; ModalDismiss])
    | Throw e =>
        groupCourseSelected w p
        = (Ok tt, Page.set_loadingGroups false (Page.set_loadingGroups true p),
           [ShowModalLoading ""; ShowErrorModalDefault e "Error getting data.";
            ModalDismiss])
    end
  else groupCourseSelected w p = (Ok tt, p, []).
Proof.
  unfold groupCourseSelected, loadGroups, setValue. unfold_monad. cbv beta zeta.
  destruct (Js.truthy (field (Page.form p) "groupcourseid")); cbn [negb]; [| reflexivity].
  destruct (getUserGroupsInCourse w (field (Page.form p) "groupcourseid")); reflexivity.
Qed.

(** What the payload takes from the form as it is. *)
Lemma submit_data_fixed (pf : Platform) (formData : gmap string JsVal)
    (eventRepeatId : option Z) :
  Data.name (submit_data pf formData eventRepeatId) = field formData "name"
  /\ Data.eventtype (submit_data pf formData eventRepeatId) = field formData "eventtype"
  /\ Data.timestart (submit_data pf formData eventRepeatId)
     = convertToTimestamp pf (field formData "timestart")
  /\ Data.duration (submit_data pf formData eventRepeatId) = field formData "duration".
Proof.
  unfold submit_data.
  destruct (Js.truthy (Js.of_opt eventRepeatId)), (Js.truthy (field formData "repeat"));
    (destruct (duration_is pf formData 1); [| destruct (duration_is pf formData 2)]);
    (destruct (is_type pf formData COURSE);
     [| destruct (is_type pf formData GROUP);
        [| destruct (is_type pf formData CATEGORY)]]);
    repeat split.
Qed.

(** X12. Opening a server event that has a duration and submitting it
    untouched sends the times of the event back, when the platform reads
    back the dates it prints: the form is in the until-time mode, its
    until-time is not before its start, and the payload holds the start of
    the event and, as until-time, its start plus its duration. *)
Theorem load_then_submit_online (pf : Platform) (w : World) (p : Page.t) (e : Online.t)
    (eventRepeatId : option Z) :
  0 < Online.timeduration e ->
  convertToTimestamp pf
    (JStr (toDatetimeFormat pf (JNum (Fin (Online.timestart e * 1000)))))
  = Fin (Online.timestart e) ->
  convertToTimestamp pf
    (JStr (toDatetimeFormat pf
       (JNum (Fin ((Online.timestart e + Online.timeduration e) * 1000)))))
  = Fin (Online.timestart e + Online.timeduration e) ->
  duration_is pf (loaded_form pf w (OnlineEvent e) false p) 1 = true
  /\ Js.gt (convertToTimestamp pf
              (field (loaded_form pf w (OnlineEvent e) false p) "timestart"))
           (convertToTimestamp pf
              (field (loaded_form pf w (OnlineEvent e) false p) "timedurationuntil"))
     = false
  /\ Data.timestart (submit_data pf (loaded_form pf w (OnlineEvent e) false p) eventRepeatId)
     = Fin (Online.timestart e)
  /\ Data.timedurationuntil
       (submit_data pf (loaded_form pf w (OnlineEvent e) false p) eventRepeatId)
     = Some (JNum (Fin (Online.timestart e + Online.timeduration e)))
  /\ Data.name (submit_data pf (loaded_form pf w (OnlineEvent e) false p) eventRepeatId)
     = JStr (Online.name e).
Proof.
  intros Hpos Hstart Huntil.
  assert (Hpos' : (0 <? Online.timeduration e) = true) by (apply Z.ltb_lt; exact Hpos).
  destruct (loadEventData_online_form pf w e Hpos') as (Hd & Hu).
  assert (Hs : sets "timestart"
                 (JStr (toDatetimeFormat pf (JNum (Fin (Online.timestart e * 1000)))))
                 (loadEventData pf w (Some (OnlineEvent e)) false)
               /\ sets "name" (JStr (Online.name e))
                    (loadEventData pf w (Some (OnlineEvent e)) false)).
  { assert (Hgt : gt_zero pf (Ev.timeduration (OnlineEvent e)) = true) by exact Hpos'.
    unfold loadEventData. rewrite Hgt. split; settle. }
  destruct Hs as (Hs & Hn).
  specialize (Hd p). specialize (Hu p). specialize (Hs p). specialize (Hn p).
  fold (loaded_form pf w (OnlineEvent e) false p) in Hd, Hu, Hs, Hn.
  assert (Hmode : duration_is pf (loaded_form pf w (OnlineEvent e) false p) 1 = true).
  { unfold duration_is. rewrite Hd. cbn. reflexivity. }
  destruct (submit_data_fixed pf (loaded_form pf w (OnlineEvent e) false p) eventRepeatId)
    as (Hname & _ & Htimestart & _).
  destruct (submit_data_optional pf (loaded_form pf w (OnlineEvent e) false p) eventRepeatId)
    as (_ & _ & _ & _ & Htu & _).
  rewrite Hname, Htimestart, Htu, Hmode, Hs, Hu, Hn, Hstart, Huntil.
  repeat split. cbn. apply Z.ltb_ge. lia.
Qed.

Lemma load_then_submit_online_witness :
  has_controls (Page.form (Demo.page "user" 0)) = true
  /\ 0 < Online.timeduration Demo.serverEvent
  /\ Data.timestart
       (submit_data Demo.platform
          (loaded_form Demo.platform Demo.world (OnlineEvent Demo.serverEvent) false
             (Demo.page "user" 0)) None)
     = Fin 1614589200
  /\ Data.timedurationuntil
       (submit_data Demo.platform
          (loaded_form Demo.platform Demo.world (OnlineEvent Demo.serverEvent) false
             (Demo.page "user" 0)) None)
     = Some (JNum (Fin 1614592800)).
Proof.
  split; [vm_compute; reflexivity |]. split; [vm_compute; reflexivity |].
  destruct (load_then_submit_online Demo.platform Demo.world (Demo.page "user" 0)
              Demo.serverEvent None) as (_ & _ & Hs & Hu & _).
  - vm_compute; reflexivity.
  - vm_compute; reflexivity.
  - vm_compute; reflexivity.
  - split; [exact Hs | exact Hu].
Defined.

(** X13. A draft stored with a duration in minutes comes back as it was
    sent: once loaded, the form is in the minutes mode, its minutes (a
    number that is printed with all its digits, below 10^21) pass the rule
    of [submit], and the payload holds the stored minutes and no
    until-time. *)
Theorem load_then_submit_draft_minutes (pf : Platform) (w : World) (p : Page.t)
    (e : Offline.t) (minutes : Z) (eventRepeatId : option Z) :
  Offline.duration e = Some 2 ->
  Offline.timedurationminutes e = Some minutes ->
  1 <= minutes < 10 ^ 21 ->
  duration_is pf (loaded_form pf w (OfflineEvent e) true p) 2 = true
  /\ Js.parseInt (Js.or (field (loaded_form pf w (OfflineEvent e) true p)
                           "timedurationminutes") (JStr "")) = Fin minutes
  /\ Data.timedurationminutes
       (submit_data pf (loaded_form pf w (OfflineEvent e) true p) eventRepeatId)
     = Some (JNum (Fin minutes))
  /\ Data.timedurationuntil
       (submit_data pf (loaded_form pf w (OfflineEvent e) true p) eventRepeatId)
     = None.
Proof.
  intros Hduration Hminutes [Hle _].
  destruct (loadEventData_offline_form pf w e) as (Hd & _ & Hm).
  specialize (Hd p). specialize (Hm p).
  fold (loaded_form pf w (OfflineEvent e) true p) in Hd, Hm.
  rewrite Hduration in Hd. rewrite Hminutes in Hm.
  assert (Hnz : (minutes =? 0) = false) by (apply Z.eqb_neq; lia).
  assert (Hm' : field (loaded_form pf w (OfflineEvent e) true p) "timedurationminutes"
                = JNum (Fin minutes)).
  { rewrite Hm. unfold Js.or. cbn. rewrite Hnz. reflexivity. }
  assert (Hmode : duration_is pf (loaded_form pf w (OfflineEvent e) true p) 2 = true).
  { unfold duration_is. rewrite Hd. reflexivity. }
  pose proof (duration_is_excl pf _ 2 1 Hmode ltac:(lia)) as Hmode1.
  destruct (submit_data_optional pf (loaded_form pf w (OfflineEvent e) true p) eventRepeatId)
    as (_ & _ & _ & _ & Htu & Htm & _).
  rewrite Htu, Htm, Hmode, Hmode1, Hm'.
  repeat split. unfold Js.or. cbn. rewrite Hnz. reflexivity.
Qed.

Lemma load_then_submit_draft_minutes_witness :
  has_controls (Page.form (Demo.page "user" 0)) = true
  /\ Offline.duration Demo.groupDraft = Some 2
  /\ Data.timedurationminutes
       (submit_data Demo.platform
          (loaded_form Demo.platform Demo.world (OfflineEvent Demo.groupDraft) true
             (Demo.page "user" 0)) None)
     = Some (JNum (Fin 90)).
Proof.
  split; [vm_compute; reflexivity |]. split; [reflexivity |].
  destruct (load_then_submit_draft_minutes Demo.platform Demo.world (Demo.page "user" 0)
              Demo.groupDraft 90 None) as (_ & _ & Hm & _).
  - reflexivity.
  - reflexivity.
  - lia.
  - exact Hm.
Defined.

(** ** More on fetching *)

Lemma silent_ret {A} (a : A) : silent (ret a).
Proof. intros p. reflexivity. Qed.

Lemma silent_throw {A} (e : Err) : silent (@throw A e).
Proof. intros p. reflexivity. Qed.

Lemma silent_await {A} (o : outcome A) : silent (await o).
Proof. intros p. reflexivity. Qed.

Lemma silent_get : silent get.
Proof. intros p. reflexivity. Qed.

Lemma silent_modify (f : Page.t -> Page.t) : silent (modify f).
Proof. intros p. reflexivity. Qed.

Lemma silent_setValue (name : string) (v : JsVal) : silent (setValue name v).
Proof. intros p. reflexivity. Qed.

Lemma silent_bind {A B} (m : M A) (k : A -> M B) :
  silent m -> (forall a, silent (k a)) -> silent (m ≫= k).
Proof.
  intros Hm Hk p. specialize (Hm p).
  unfold mbind, M_bind, bind, trace_of in *.
  destruct (m p) as [[[a|e] p1] t1]; cbn [fst snd] in *; [| exact Hm].
  specialize (Hk a p1). unfold trace_of in Hk.
  destruct (k a p1) as [[r p2] t2]; cbn [fst snd] in *. subst. reflexivity.
Qed.

Lemma silent_try_catch {A} (m : M A) (h : Err -> M A) :
  silent m -> (forall e, silent (h e)) -> silent (try_catch m h).
Proof.
  intros Hm Hh p. specialize (Hm p).
  unfold try_catch, trace_of in *.
  destruct (m p) as [[[a|e] p1] t1]; cbn [fst snd] in *; [exact Hm |].
  specialize (Hh e p1). unfold trace_of in Hh.
  destruct (h e p1) as [[r p2] t2]; cbn [fst snd] in *. subst. reflexivity.
Qed.

Lemma silent_try_finally {A} (m : M A) (g : M unit) :
  silent m -> silent g -> silent (try_finally m g).
Proof.
  intros Hm Hg p. specialize (Hm p).
  unfold try_finally, trace_of in *.
  destruct (m p) as [[r p1] t1]; cbn [fst snd] in *.
  specialize (Hg p1). unfold trace_of in Hg.
  destruct (g p1) as [[[u|e] p2] t2]; cbn [fst snd] in *; subst; reflexivity.
Qed.

Lemma silent_promise_all (promises : list (M unit)) :
  Forall silent promises -> silent (promise_all promises).
Proof.
  induction 1 as [|m rest Hm _ IH]; intros p; [reflexivity |].
  specialize (Hm p). cbn [promise_all]. unfold trace_of in *.
  destruct (m p) as [[r p1] t1]; cbn [fst snd] in *.
  specialize (IH p1). unfold trace_of in IH.
  destruct (promise_all rest p1) as [[rs p2] t2]; cbn [fst snd] in *.
  subst. reflexivity.
Qed.

(** Walks through a method that calls nothing out of the component. *)
Ltac quiet :=
  repeat
    (cbv beta zeta;
     lazymatch goal with
     | |- silent (_ ≫= _) => apply silent_bind; [| intros ?]
     | |- silent (ret _) => apply silent_ret
     | |- silent (throw _) => apply silent_throw
     | |- silent (await _) => apply silent_await
     | |- silent get => apply silent_get
     | |- silent (modify _) => apply silent_modify
     | |- silent (setValue _ _) => apply silent_setValue
     | |- silent (try_catch _ _) => apply silent_try_catch; [| intros ?]
     | |- silent (try_finally _ _) => apply silent_try_finally
     | |- silent (promise_all _) => apply silent_promise_all
     | |- silent (loadGroups _ _) => unfold loadGroups
     | |- silent (contacts_in _) => unfold contacts_in
     | |- silent (if ?b then _ else _) => destruct b
     | |- silent (match ?x with _ => _ end) => destruct x
     | |- Forall _ (_ ++ _) => apply Forall_app; split
     | |- Forall _ [] => constructor
     | |- Forall _ (_ :: _) => constructor
     | |- Forall _ (if ?b then _ else _) => destruct b
     end).

Lemma loadEventData_silent (pf : Platform) (w : World) (event : option CalendarEvent)
    (isOffline : bool) : silent (loadEventData pf w event isOffline).
Proof. unfold loadEventData. quiet. Qed.

Lemma fetchCategories_silent (w : World) : silent (fetchCategories w).
Proof. unfold fetchCategories. quiet. Qed.

Lemma fetchCourses_silent (pf : Platform) (w : World) : silent (fetchCourses pf w).
Proof. unfold fetchCourses. quiet. Qed.

(** The trace of a sequence, by its first step. *)
Lemma trace_await_bind {A B} (o : outcome A) (k : A -> M B) (p : Page.t) :
  trace_of ((await o ≫= k) p)
  = match o with Ok a => trace_of (k a p) | Throw _ => [] end.
Proof.
  unfold mbind, M_bind, bind, await, trace_of.
  destruct o as [a|e]; [| reflexivity].
  destruct (k a p) as [[r p2] t2]. reflexivity.
Qed.

Lemma trace_get_bind {B} (k : Page.t -> M B) (p : Page.t) :
  trace_of ((get ≫= k) p) = trace_of (k p p).
Proof.
  unfold mbind, M_bind, bind, get, trace_of.
  destruct (k p p) as [[r p2] t2]. reflexivity.
Qed.

Lemma trace_bind_silent {A B} (m : M A) (k : A -> M B) (p : Page.t) :
  never_throws m -> (forall a, silent (k a)) ->
  trace_of ((m ≫= k) p) = trace_of (m p).
Proof.
  intros Hm Hk. destruct (Hm p) as [a Ha].
  unfold mbind, M_bind, bind, trace_of, result_of in *.
  destruct (m p) as [[r p1] t1]; cbn [fst snd] in *. subst r.
  specialize (Hk a p1). unfold trace_of in Hk.
  destruct (k a p1) as [[r p2] t2]; cbn [fst snd] in *. subst.
  apply app_nil_r.
Qed.

(** The calls that [fetchEvent] logs. *)
Lemma fetchEvent_calls (pf : Platform) (w : World) (p : Page.t) :
  trace_of (fetchEvent pf w p)
  = match waitForSync w with
    | Ok _ =>
        if (negb (Page.isDestroyed p) && Js.truthy (Js.of_opt (Page.eventId p)))%bool
        then [BlockOperation COMPONENT (default 0 (Page.eventId p))]
        else []
    | Throw _ => []
    end.
Proof.
  unfold fetchEvent. rewrite trace_await_bind.
  destruct (waitForSync w) as [[]|e]; [| reflexivity].
  rewrite trace_get_bind. cbv beta zeta.
  rewrite trace_bind_silent.
  - destruct (negb (Page.isDestroyed p) && Js.truthy (Js.of_opt (Page.eventId p)))%bool;
      reflexivity.
  - total.
  - intros a. quiet.
    apply loadEventData_silent.
Qed.

(** X14. Fetching the event to edit calls [CoreSync.blockOperation] at most
    once, for the event id of the page, and only once the wait for the
    running sync is over; it does not block when that wait fails, when the
    page was destroyed meanwhile or when it has no event id. *)
Theorem fetchEvent_blocks_once (pf : Platform) (w : World) (p : Page.t) :
  List.filter is_block (trace_of (fetchEvent pf w p))
  = match waitForSync w with
    | Ok _ =>
        if (negb (Page.isDestroyed p) && Js.truthy (Js.of_opt (Page.eventId p)))%bool
        then [BlockOperation COMPONENT (default 0 (Page.eventId p))]
        else []
    | Throw _ => []
    end.
Proof.
  rewrite fetchEvent_calls.
  destruct (waitForSync w) as [[]|e]; [| reflexivity].
  destruct (negb (Page.isDestroyed p) && Js.truthy (Js.of_opt (Page.eventId p)))%bool;
    reflexivity.
Qed.

Section LoadFrames.
Context (pf : Platform) (w : World) (event : option CalendarEvent) (isOffline : bool).

Lemma loadEventData_hasOffline :
  preserves Page.hasOffline (loadEventData pf w event isOffline).
Proof. unfold loadEventData. frame. Qed.

Lemma loadEventData_eventRepeatId :
  preserves Page.eventRepeatId (loadEventData pf w event isOffline).
Proof. unfold loadEventData. frame. Qed.

Lemma loadEventData_otherEventsCount :
  preserves Page.otherEventsCount (loadEventData pf w event isOffline).
Proof. unfold loadEventData. frame. Qed.

Lemma loadEventData_gotEventData :
  preserves Page.gotEventData (loadEventData pf w event isOffline).
Proof. unfold loadEventData. frame. Qed.

End LoadFrames.

(** The page that [fetchEvent] hands to [loadEventData], for a server event
    that the server knows. *)
Lemma fetchEvent_page (pf : Platform) (w : World) (p : Page.t) (id : Z) (e : Online.t) :
  waitForSync w = Ok tt ->
  Page.eventId p = Some id ->
  0 < id ->
  getEventById w id = Ok (Some e) ->
  page_of (fetchEvent pf w p)
  = page_of
      (loadEventData pf w
         (Some (match offlineGetEvent w id with
                | Ok draft => OfflineEvent draft
                | Throw _ => OnlineEvent e
                end))
         (match offlineGetEvent w id with Ok _ => true | Throw _ => false end)
         (Page.set_gotEventData true
            ((if Js.truthy (Js.of_opt (Online.repeatid e))
              then Page.set_otherEventsCount
                     (if Js.truthy (Js.of_opt (Online.eventcount e))
                      then default 0 (Online.eventcount e) - 1 else 0)
              else fun q => q)
               (Page.set_eventRepeatId (Online.repeatid e)
                  (Page.set_hasOffline
                     (match offlineGetEvent w id with Ok _ => true | Throw _ => false end)
                     p))))).
Proof.
  intros Hsync Hid Hpos Hserver. apply Z.ltb_lt in Hpos.
  unfold fetchEvent. remember (loadEventData pf w) as load eqn:Hload.
  unfold_monad. rewrite Hsync. cbv beta iota zeta. rewrite Hid.
  cbn [default from_option Datatypes.id].
  destruct (negb (Page.isDestroyed p) && Js.truthy (Js.of_opt (Some id)))%bool;
    cbv beta iota zeta;
    destruct (offlineGetEvent w id) as [draft|err];
    cbv beta iota zeta; rewrite Hpos, Hserver;
    cbv beta iota zeta; cbn [option_bind mbind option_fmap fmap option_map];
    destruct (Js.truthy (Js.of_opt (Online.repeatid e)));
    cbv beta iota zeta;
    match goal with
    | |- page_of ?run = _ =>
        match run with
        | context [load ?ev ?off ?q] =>
            transitivity (page_of (load ev off q));
            [destruct (load ev off q) as [[r q'] t]; reflexivity | reflexivity]
        end
    end.
Qed.

(** X15. Editing an event that the server knows (its id is positive):
    the copy kept offline, when there is one, is the one loaded in the form
    and the page is marked as having offline data; else the form is loaded
    from the server.  The series always comes from the server: the repeat
    id of the page is that of the server event and, for an event of a
    series, the count of its other events is its event count minus one (0
    when the server gives no count). *)
Theorem fetchEvent_offline_first (pf : Platform) (w : World) (p : Page.t) (id : Z)
    (e : Online.t) :
  waitForSync w = Ok tt ->
  Page.eventId p = Some id ->
  0 < id ->
  getEventById w id = Ok (Some e) ->
  Page.hasOffline (page_of (fetchEvent pf w p))
  = match offlineGetEvent w id with Ok _ => true | Throw _ => false end
  /\ field (Page.form (page_of (fetchEvent pf w p))) "name"
     = JStr (match offlineGetEvent w id with
             | Ok draft => Offline.name draft
             | Throw _ => Online.name e
             end)
  /\ Page.eventRepeatId (page_of (fetchEvent pf w p)) = Online.repeatid e
  /\ Page.gotEventData (page_of (fetchEvent pf w p)) = true
  /\ Page.otherEventsCount (page_of (fetchEvent pf w p))
     = if Js.truthy (Js.of_opt (Online.repeatid e))
       then match Online.eventcount e with
            | Some count => if count =? 0 then 0 else count - 1
            | None => 0
            end
       else Page.otherEventsCount p.
Proof.
  intros Hsync Hid Hpos Hserver.
  rewrite (fetchEvent_page pf w p id e Hsync Hid Hpos Hserver).
  assert (Hname : forall event isOffline,
            sets "name" (Ev.name event) (loadEventData pf w (Some event) isOffline)).
  { intros event isOffline. unfold loadEventData.
    destruct isOffline; [| destruct (gt_zero pf (Ev.timeduration event))]; settle. }
  rewrite loadEventData_hasOffline, Hname, loadEventData_eventRepeatId,
    loadEventData_gotEventData, loadEventData_otherEventsCount.
  destruct (Js.truthy (Js.of_opt (Online.repeatid e))).
  - repeat split.
    + destruct (offlineGetEvent w id); reflexivity.
    + cbn. destruct (Online.eventcount e) as [count|]; [| reflexivity].
      cbn. destruct (count =? 0); reflexivity.
  - repeat split. destruct (offlineGetEvent w id); reflexivity.
Qed.

Lemma fetchEvent_offline_first_witness :
  Page.eventId (Demo.page "user" 0) = Some 7
  /\ field (Page.form (page_of (fetchEvent Demo.platform
                                  (Demo.with_offline (Ok Demo.groupDraft) Demo.world)
                                  (Demo.page "user" 0)))) "name" = JStr "Lab"
  /\ Page.hasOffline (page_of (fetchEvent Demo.platform
                                 (Demo.with_offline (Ok Demo.groupDraft) Demo.world)
                                 (Demo.page "user" 0))) = true.
Proof.
  split; [reflexivity |].
  destruct (fetchEvent_offline_first Demo.platform
              (Demo.with_offline (Ok Demo.groupDraft) Demo.world)
              (Demo.page "user" 0) 7 Demo.serverEvent) as (Hoffline & Hname & _).
  - reflexivity.
  - reflexivity.
  - lia.
  - reflexivity.
  - split; [exact Hname | exact Hoffline].
Defined.

(** A load that ended well answers the options of the allowed types, and
    there is one at least. *)
Lemma fetchData_load_ok_inv (pf : Platform) (w : World) (p q : Page.t)
    (r : gmap string bool * list AddonCalendarEventTypeOption) (t : list Effect) :
  fetchData_load pf w p = (Ok r, q, t) ->
  exists types first rest, r = (types, first :: rest).
Proof.
  intros Hload.
  destruct (getAccessInformation w (Page.courseId p)) as [accessInfo|e] eqn:Haccess;
    [| unfold fetchData_load in Hload; unfold_monad; rewrite Haccess in Hload;
       discriminate Hload].
  destruct (getAllowedEventTypes w (Page.courseId p)) as [types|e] eqn:Htypes;
    [| unfold fetchData_load in Hload; unfold_monad; rewrite Haccess, Htypes in Hload;
       discriminate Hload].
  destruct (fetchData_load_answer pf w p accessInfo types Haccess Htypes r q t Hload)
    as [-> Hsome].
  destruct (getEventTypeOptions pf types) as [|first rest]; [contradiction |].
  exists types, first, rest. reflexivity.
Qed.

(** How [fetchData] ends, by the outcome of its load. *)
Lemma fetchData_run (pf : Platform) (w : World) (p : Page.t) :
  result_of (fetchData pf w p) = Ok tt
  /\ match result_of (fetchData_load pf w (Page.set_error false p)) with
     | Ok _ =>
         Page.error (page_of (fetchData pf w p)) = false
         /\ trace_of (fetchData pf w p)
            = trace_of (fetchData_load pf w (Page.set_error false p))
     | Throw e =>
         Page.error (page_of (fetchData pf w p)) = true
         /\ trace_of (fetchData pf w p)
            = trace_of (fetchData_load pf w (Page.set_error false p))
              ++ [ShowErrorModalDefault e "Error getting data."]
     end.
Proof.
  pose proof (fetchData_load_error pf w (Page.set_error false p)) as Herror.
  destruct (fetchData_load pf w (Page.set_error false p)) as [[[r|e] q] t] eqn:Hload.
  - destruct (fetchData_load_ok_inv pf w _ q r t Hload) as (types & first & rest & ->).
    rewrite (fetchData_load_succeeds pf w p q types first rest t Hload).
    unfold result_of, page_of, trace_of in *. cbn [fst snd] in *.
    split; [reflexivity |]. split; [| reflexivity].
    destruct (Js.truthy (field (Page.form q) "eventtype")); cbn; exact Herror.
  - rewrite (fetchData_load_fails pf w p q e t Hload).
    unfold result_of, page_of, trace_of. cbn [fst snd]. repeat split.
Qed.


(** The calls of a method are all of one kind. *)
Lemma logs_only_silent {A} (P : Effect -> bool) (m : M A) : silent m -> logs_only P m.
Proof. intros Hm p. rewrite (Hm p). constructor. Qed.

Lemma logs_only_bind {A B} (P : Effect -> bool) (m : M A) (k : A -> M B) :
  logs_only P m -> (forall a, logs_only P (k a)) -> logs_only P (m ≫= k).
Proof.
  intros Hm Hk p. specialize (Hm p).
  unfold mbind, M_bind, bind, trace_of in *.
  destruct (m p) as [[[a|e] p1] t1]; cbn [fst snd] in *; [| exact Hm].
  specialize (Hk a p1). unfold trace_of in Hk.
  destruct (k a p1) as [[r p2] t2]; cbn [fst snd] in *.
  apply Forall_app; split; assumption.
Qed.

Lemma logs_only_promise_all (P : Effect -> bool) (promises : list (M unit)) :
  Forall (logs_only P) promises -> logs_only P (promise_all promises).
Proof.
  induction 1 as [|m rest Hm _ IH]; intros p; [constructor |].
  specialize (Hm p). cbn [promise_all]. unfold trace_of in *.
  destruct (m p) as [[r p1] t1]; cbn [fst snd] in *.
  specialize (IH p1). unfold trace_of in IH.
  destruct (promise_all rest p1) as [[rs p2] t2]; cbn [fst snd] in *.
  apply Forall_app; split; assumption.
Qed.

Lemma fetchEvent_logs (pf : Platform) (w : World) : logs_only is_block (fetchEvent pf w).
Proof.
  intros p. rewrite fetchEvent_calls.
  destruct (waitForSync w) as [[]|e]; [| constructor].
  destruct (negb (Page.isDestroyed p) && Js.truthy (Js.of_opt (Page.eventId p)))%bool;
    repeat constructor.
Qed.

(** The load of [fetchData] shows nothing: the only calls it logs are those
    that block the sync. *)
Lemma fetchData_load_logs (pf : Platform) (w : World) :
  logs_only is_block (fetchData_load pf w).
Proof.
  unfold fetchData_load.
  repeat
    (cbv beta zeta;
     lazymatch goal with
     | |- logs_only _ (_ ≫= _) => apply logs_only_bind; [| intros ?]
     | |- logs_only _ (promise_all _) => apply logs_only_promise_all
     | |- logs_only _ (fetchEvent _ _) => apply fetchEvent_logs
     | |- logs_only _ (fetchCategories _) =>
         apply logs_only_silent, fetchCategories_silent
     | |- logs_only _ (fetchCourses _ _) =>
         apply logs_only_silent, fetchCourses_silent
     | |- logs_only _ (if ?b then _ else _) => destruct b
     | |- logs_only _ _ => apply logs_only_silent; solve [quiet]
     | |- Forall _ (_ ++ _) => apply Forall_app; split
     | |- Forall _ [] => constructor
     | |- Forall _ (_ :: _) => constructor
     | |- Forall _ (if ?b then _ else _) => destruct b
     end).
Qed.

Lemma filter_error_modal_blocks (t : list Effect) :
  Forall (fun e => is_block e = true) t -> List.filter is_error_modal t = [].
Proof.
  induction 1 as [|e t He _ IH]; [reflexivity |].
  destruct e; try discriminate He. exact IH.
Qed.

(** X16. [fetchData] never rejects: a failure of the load is caught and
    recorded in [error], and one error is shown, once, with the default
    text 'Error getting data.'; after a load that ended well [error] is
    false, whatever it was before, and no error is shown. *)
Theorem fetchData_settles (pf : Platform) (w : World) (p : Page.t) :
  result_of (fetchData pf w p) = Ok tt
  /\ (Page.error (page_of (fetchData pf w p)) = true <->
      exists e, result_of (fetchData_load pf w (Page.set_error false p)) = Throw e)
  /\ (Page.error (page_of (fetchData pf w p)) = true ->
      exists e,
        List.filter is_error_modal (trace_of (fetchData pf w p))
        = [ShowErrorModalDefault e "Error getting data."])
  /\ (Page.error (page_of (fetchData pf w p)) = false ->
      List.filter is_error_modal (trace_of (fetchData pf w p)) = []).
Proof.
  destruct (fetchData_run pf w p) as [Hok Hrun].
  pose proof (filter_error_modal_blocks _
                (fetchData_load_logs pf w (Page.set_error false p))) as Hquiet.
  split; [exact Hok |].
  destruct (result_of (fetchData_load pf w (Page.set_error false p))) as [r|e].
  - destruct Hrun as [Herror Htrace]. rewrite Herror, Htrace.
    split; [split; [discriminate | intros [e He]; discriminate He] |].
    split; [discriminate | intros _; exact Hquiet].
  - destruct Hrun as [Herror Htrace]. rewrite Herror, Htrace.
    split; [split; [intros _; exists e; reflexivity | reflexivity] |].
    split; [| discriminate].
    intros _. exists e. rewrite List.filter_app, Hquiet. reflexivity.
Qed.

Lemma ends_bind_r {A B} (Q : Page.t -> Prop) (m : M A) (k : A -> M B) :
  never_throws m -> (forall a, ends Q (k a)) -> ends Q (m ≫= k).
Proof.
  intros Hm Hk p. destruct (Hm p) as [a Ha].
  unfold mbind, M_bind, bind, result_of, page_of in *.
  destruct (m p) as [[r1 p1] t1]; cbn [fst snd] in *. subst r1.
  specialize (Hk a p1). unfold page_of in Hk.
  destruct (k a p1) as [[r2 p2] t2]; cbn [fst snd] in *. exact Hk.
Qed.

(** How [ngOnInit] ends. *)
Lemma ngOnInit_run (pf : Platform) (w : World) (p : Page.t) :
  result_of (ngOnInit pf w p) = Ok tt
  /\ Page.loaded (page_of (ngOnInit pf w p)) = true
  /\ Page.originalData (page_of (ngOnInit pf w p))
     = Some (Page.form (page_of (ngOnInit pf w p))).
Proof.
  assert (Hlast : forall q,
            result_of (try_finally (fetchData pf w)
                         (modify (fun p => Page.set_originalData (Some (Page.form p)) p);;
                          modify (Page.set_loaded true)) q) = Ok tt
            /\ Page.loaded (page_of (try_finally (fetchData pf w)
                         (modify (fun p => Page.set_originalData (Some (Page.form p)) p);;
                          modify (Page.set_loaded true)) q)) = true
            /\ Page.originalData (page_of (try_finally (fetchData pf w)
                         (modify (fun p => Page.set_originalData (Some (Page.form p)) p);;
                          modify (Page.set_loaded true)) q))
               = Some (Page.form (page_of (try_finally (fetchData pf w)
                         (modify (fun p => Page.set_originalData (Some (Page.form p)) p);;
                          modify (Page.set_loaded true)) q)))).
  { intros q. destruct (fetchData_run pf w q) as [Hok _].
    unfold try_finally. unfold_monad. unfold result_of in Hok.
    destruct (fetchData pf w q) as [[r q'] t]. cbn [fst snd] in Hok. subst r.
    repeat split. }
  split.
  - revert p.
    change (answers (Ok tt) (ngOnInit pf w)).
    unfold ngOnInit.
    repeat (cbv beta iota zeta; apply answers_bind_r; [solve [total] | intros ?]).
    intros q. apply Hlast.
  - revert p.
    change (ends (fun q => Page.loaded q = true
                           /\ Page.originalData q = Some (Page.form q))
              (ngOnInit pf w)).
    unfold ngOnInit.
    repeat (cbv beta iota zeta; apply ends_bind_r; [solve [total] | intros ?]).
    intros q. apply Hlast.
Qed.

(** X17. [ngOnInit] always ends well and always marks the page as loaded,
    whether the data could be fetched or not.  When the data was fetched
    ([error] is false), the data it records as the original data is the
    form as the load left it, so that the page has no unsaved change when
    it opens. *)
Theorem ngOnInit_settles (pf : Platform) (w : World) (p : Page.t) :
  result_of (ngOnInit pf w p) = Ok tt
  /\ Page.loaded (page_of (ngOnInit pf w p)) = true
  /\ (Page.error (page_of (ngOnInit pf w p)) = false ->
      Page.originalData (page_of (ngOnInit pf w p))
      = Some (Page.form (page_of (ngOnInit pf w p)))).
Proof.
  destruct (ngOnInit_run pf w p) as (Hok & Hloaded & Horiginal).
  split; [exact Hok |]. split; [exact Hloaded | intros _; exact Horiginal].
Qed.

(** ** The list of courses *)

Lemma sort_insert_perm {A} (cmp : A -> A -> Z) (x : A) (l : list A) :
  sort_insert cmp x l ≡ₚ x :: l.
Proof.
  induction l as [|y r IH]; cbn; [reflexivity |].
  destruct (cmp x y <=? 0); [reflexivity |].
  rewrite IH. apply perm_swap.
Qed.

Lemma array_sort_perm {A} (cmp : A -> A -> Z) (l : list A) : array_sort cmp l ≡ₚ l.
Proof.
  induction l as [|x r IH]; cbn; [reflexivity |].
  rewrite sort_insert_perm, IH. reflexivity.
Qed.

Lemma sort_insert_sorted {A} (cmp : A -> A -> Z) (x : A) (l : list A) :
  (forall a b, cmp a b <= 0 \/ cmp b a <= 0) ->
  Sorted (fun a b => cmp a b <= 0) l ->
  Sorted (fun a b => cmp a b <= 0) (sort_insert cmp x l).
Proof.
  intros Htotal. induction 1 as [|y r Hr IH Hhd]; cbn.
  - repeat constructor.
  - destruct (cmp x y <=? 0) eqn:Hxy.
    + apply Z.leb_le in Hxy. repeat constructor; assumption.
    + apply Z.leb_gt in Hxy. constructor; [exact IH |].
      destruct Hhd as [|z r' Hyz]; cbn.
      * constructor. destruct (Htotal x y); lia.
      * destruct (cmp x z <=? 0); constructor; [| exact Hyz].
        destruct (Htotal x y); lia.
Qed.

Lemma array_sort_sorted {A} (cmp : A -> A -> Z) (l : list A) :
  (forall a b, cmp a b <= 0 \/ cmp b a <= 0) ->
  Sorted (fun a b => cmp a b <= 0) (array_sort cmp l).
Proof.
  intros Htotal. induction l as [|x r IH]; cbn; [constructor |].
  apply sort_insert_sorted; assumption.
Qed.

Lemma courseFillterFullname_id (w : World) (course : CoreCourseData) :
  course_id (courseFillterFullname w course) = course_id course.
Proof.
  unfold courseFillterFullname.
  destruct (getFiltersAndFormatText w (fullname course) (course_id course)); reflexivity.
Qed.

(** [fetchCourses] when it is left with a course at least. *)
Lemma fetchCourses_run (pf : Platform) (w : World) (p : Page.t)
    (courses : list CoreCourseData) :
  (if Page.showAll p then getCoursesByField w else getUserCourses w) = Ok courses ->
  courses_kept w (Page.showAll p) courses <> [] ->
  fetchCourses pf w p
  = (Ok tt,
     Page.set_courses
       (array_sort (compare_fullname pf) (courses_kept w (Page.showAll p) courses)) p,
     []).
Proof.
  intros Hfetch Hkept. unfold fetchCourses, contacts_in, courses_kept in *.
  unfold_monad. rewrite Hfetch. cbv beta iota zeta. rewrite length_not_negative.
  destruct (Page.showAll p).
  - destruct courses as [|first rest]; [contradiction |].
    cbn [lookup list_lookup].
    destruct (List.filter _ (first :: rest)) as [|kept others] eqn:Hfilter;
      [contradiction |].
    destruct (has_contacts first); cbv beta iota;
      cbn [lookup list_lookup]; destruct (has_contacts kept); reflexivity.
  - destruct courses as [|first rest]; [contradiction |].
    cbn [lookup list_lookup]. destruct (has_contacts first); reflexivity.
Qed.

(** X18. When [fetchCourses] is left with a course at least, it ends well
    and the courses of the page are the fetched courses, each once, their
    names filtered; when all the courses of the site are listed, the site
    home is not among them. *)
Theorem fetchCourses_keeps_courses (pf : Platform) (w : World) (p : Page.t)
    (courses : list CoreCourseData) :
  (if Page.showAll p then getCoursesByField w else getUserCourses w) = Ok courses ->
  courses_kept w (Page.showAll p) courses <> [] ->
  result_of (fetchCourses pf w p) = Ok tt
  /\ Page.courses (page_of (fetchCourses pf w p))
     ≡ₚ courses_kept w (Page.showAll p) courses
  /\ (Page.showAll p = true ->
      forall course, course ∈ Page.courses (page_of (fetchCourses pf w p)) ->
                     course_id course <> getCurrentSiteHomeId w)
  /\ (Page.showAll p = false ->
      length (Page.courses (page_of (fetchCourses pf w p))) = length courses).
Proof.
  intros Hfetch Hkept. rewrite (fetchCourses_run pf w p courses Hfetch Hkept).
  unfold result_of, page_of. cbn [fst snd Page.courses Page.set_courses].
  split; [reflexivity |]. split; [apply array_sort_perm |]. split.
  - intros Hall course Hin. rewrite array_sort_perm in Hin.
    unfold courses_kept in Hin. rewrite Hall in Hin.
    apply list_elem_of_fmap in Hin. destruct Hin as (original & -> & Hin).
    rewrite courseFillterFullname_id.
    apply list_elem_of_In, filter_In in Hin. destruct Hin as [_ Hne].
    apply negb_true_iff, Z.eqb_neq in Hne. exact Hne.
  - intros Hmine. rewrite array_sort_perm. unfold courses_kept. rewrite Hmine.
    apply length_map.
Qed.

Lemma fetchCourses_keeps_courses_witness :
  getUserCourses Demo.world_courses
  = Ok [ {| course_id := 12; fullname := "physics"; has_contacts := false |};
         {| course_id := 11; fullname := "algebra"; has_contacts := false |} ]
  /\ length (Page.courses (page_of (fetchCourses Demo.platform Demo.world_courses
                                      constructor))) = 2%nat.
Proof.
  split; [reflexivity |].
  destruct (fetchCourses_keeps_courses Demo.platform Demo.world_courses constructor
              [ {| course_id := 12; fullname := "physics"; has_contacts := false |};
                {| course_id := 11; fullname := "algebra"; has_contacts := false |} ])
    as (_ & _ & _ & Hlength).
  - reflexivity.
  - vm_compute; discriminate.
  - rewrite Hlength; reflexivity.
Defined.

(** X19. When the comparison of names is total, the courses that
    [fetchCourses] leaves in the page are sorted by name: none compares
    greater than the next. *)
Theorem fetchCourses_sorted (pf : Platform) (w : World) (p : Page.t)
    (courses : list CoreCourseData) :
  (forall a b, name_before pf a b \/ name_before pf b a) ->
  (if Page.showAll p then getCoursesByField w else getUserCourses w) = Ok courses ->
  courses_kept w (Page.showAll p) courses <> [] ->
  Sorted (name_before pf) (Page.courses (page_of (fetchCourses pf w p))).
Proof.
  intros Htotal Hfetch Hkept. rewrite (fetchCourses_run pf w p courses Hfetch Hkept).
  unfold page_of. cbn [fst snd Page.courses Page.set_courses].
  apply (array_sort_sorted (compare_fullname pf)). exact Htotal.
Qed.

Lemma compareNames_total (a b : CoreCourseData) :
  name_before Demo.platform a b \/ name_before Demo.platform b a.
Proof.
  unfold name_before, compare_fullname. cbn. unfold Demo.compareNames.
  rewrite (String.compare_antisym (fullname a) (fullname b)).
  destruct (String.compare (fullname b) (fullname a)); cbn; lia.
Qed.

Lemma fetchCourses_sorted_witness :
  Sorted (name_before Demo.platform)
    (Page.courses (page_of (fetchCourses Demo.platform Demo.world_courses constructor)))
  /\ map fullname
       (Page.courses (page_of (fetchCourses Demo.platform Demo.world_courses constructor)))
     = ["algebra"; "physics"].
Proof.
  split; [| vm_compute; reflexivity].
  apply (fetchCourses_sorted Demo.platform Demo.world_courses constructor
           [ {| course_id := 12; fullname := "physics"; has_contacts := false |};
             {| course_id := 11; fullname := "algebra"; has_contacts := false |} ]).
  - exact compareNames_total.
  - reflexivity.
  - vm_compute; discriminate.
Defined.

(** X20. When all the courses of the site are listed and the site home is
    the only one, removing it leaves an empty list and [fetchCourses]
    rejects with the type error of ['contacts' in courses[0]]; the courses
    of the page are not replaced. *)
Theorem fetchCourses_only_site_home (pf : Platform) (w : World) (p : Page.t)
    (courses : list CoreCourseData) :
  Page.showAll p = true ->
  getCoursesByField w = Ok courses ->
  courses <> [] ->
  Forall (fun course => course_id course = getCurrentSiteHomeId w) courses ->
  fetchCourses pf w p
  = (Throw (TypeError "Cannot use 'in' operator to search for 'contacts' in undefined"),
     p, []).
Proof.
  intros Hall Hfetch Hsome Hhome.
  assert (Hfilter : List.filter
                      (fun course => negb (course_id course =? getCurrentSiteHomeId w))
                      courses = []).
  { clear Hfetch Hsome. induction Hhome as [|course rest Hid _ IH]; [reflexivity |].
    cbn. rewrite Hid, Z.eqb_refl. exact IH. }
  unfold fetchCourses, contacts_in. unfold_monad. rewrite Hall, Hfetch.
  cbv beta iota zeta. rewrite length_not_negative.
  destruct courses as [|first rest]; [contradiction |].
  cbn [lookup list_lookup].
  destruct (has_contacts first); cbv beta iota; rewrite Hfilter; reflexivity.
Qed.

Lemma fetchCourses_only_site_home_witness :
  getCoursesByField Demo.world_site_home
  = Ok [ {| course_id := 1; fullname := "Campus"; has_contacts := true |} ]
  /\ result_of (fetchCourses Demo.platform Demo.world_site_home
                  (Page.set_showAll true constructor))
     = Throw (TypeError "Cannot use 'in' operator to search for 'contacts' in undefined").
Proof.
  split; [reflexivity |].
  rewrite (fetchCourses_only_site_home Demo.platform Demo.world_site_home
             (Page.set_showAll true constructor)
             [ {| course_id := 1; fullname := "Campus"; has_contacts := true |} ]).
  - reflexivity.
  - reflexivity.
  - reflexivity.
  - discriminate.
  - repeat constructor.
Defined.

(** ** Fetching again *)

Lemma fetchCategories_form (w : World) : preserves Page.form (fetchCategories w).
Proof. unfold fetchCategories. frame. Qed.

Lemma fetchCourses_form (pf : Platform) (w : World) :
  preserves Page.form (fetchCourses pf w).
Proof. unfold fetchCourses, contacts_in. frame. Qed.

(** The load when it does not fetch the event: it calls nothing out of the
    component and leaves the form alone. *)
Lemma fetchData_load_without_event (pf : Platform) (w : World) (p : Page.t) :
  (Js.truthy (Js.of_opt (Page.eventId p)) && negb (Page.gotEventData p))%bool = false ->
  trace_of (fetchData_load pf w p) = []
  /\ Page.form (page_of (fetchData_load pf w p)) = Page.form p.
Proof.
  intros Hevent. unfold fetchData_load. unfold_monad. cbv beta zeta.
  destruct (getAccessInformation w (Page.courseId p)) as [accessInfo|e];
    [| split; reflexivity].
  destruct (getAllowedEventTypes w (Page.courseId p)) as [types|e];
    [| split; reflexivity].
  cbv beta iota zeta.
  destruct (getEventTypeOptions pf types) as [|first rest]; [split; reflexivity |].
  cbn [length Nat.eqb]. rewrite Hevent.
  match goal with
  | |- context [promise_all ?promises ?q] =>
      assert (Hsilent : Forall silent promises)
        by (destruct (allowed types "category"),
              (allowed types "course" || allowed types "groups")%bool;
            repeat constructor;
            first [apply fetchCategories_silent | apply fetchCourses_silent]);
      assert (Hform : Forall (preserves Page.form) promises)
        by (destruct (allowed types "category"),
              (allowed types "course" || allowed types "groups")%bool;
            repeat constructor;
            first [apply fetchCategories_form | apply fetchCourses_form]);
      pose proof (silent_promise_all promises Hsilent q) as Htrace;
      pose proof (preserves_promise_all Page.form promises Hform q) as Hpage;
      destruct (promise_all promises q) as [[[[]|e] q'] t]
  end;
    unfold trace_of, page_of in *; cbn [fst snd] in *; subst t;
    (split; [reflexivity | exact Hpage]).
Qed.

(** [fetchData] when it does not fetch the event. *)
Lemma fetchData_without_event_run (pf : Platform) (w : World) (p : Page.t) :
  (Js.truthy (Js.of_opt (Page.eventId p)) && negb (Page.gotEventData p))%bool = false ->
  List.filter is_block (trace_of (fetchData pf w p)) = []
  /\ (forall name, name <> "eventtype" ->
        field (Page.form (page_of (fetchData pf w p))) name = field (Page.form p) name)
  /\ (Js.truthy (field (Page.form p) "eventtype") = true ->
      Page.form (page_of (fetchData pf w p)) = Page.form p).
Proof.
  intros Hevent.
  assert (Hevent' : (Js.truthy (Js.of_opt (Page.eventId (Page.set_error false p)))
                     && negb (Page.gotEventData (Page.set_error false p)))%bool = false)
    by exact Hevent.
  destruct (fetchData_load_without_event pf w (Page.set_error false p) Hevent')
    as [Htrace Hform].
  destruct (fetchData_run pf w p) as [_ Hsettles].
  destruct (fetchData_load pf w (Page.set_error false p)) as [[[r|e] q] t] eqn:Hload;
    unfold trace_of, page_of, result_of in *; cbn [fst snd] in *; subst t.
  - destruct Hsettles as [_ ->].
    destruct (fetchData_load_ok_inv pf w _ q r [] Hload) as (types & first & rest & ->).
    rewrite (fetchData_load_succeeds pf w p q types first rest [] Hload).
    cbn [fst snd]. split; [reflexivity |].
    change (Page.form (Page.set_error false p)) with (Page.form p) in Hform.
    split.
    + intros name Hname.
      destruct (Js.truthy (field (Page.form q) "eventtype")); cbn.
      * rewrite Hform. reflexivity.
      * rewrite field_insert_ne by congruence. rewrite Hform. reflexivity.
    + intros Hselected. rewrite Hform, Hselected. cbn. exact Hform.
  - destruct Hsettles as [_ ->].
    rewrite (fetchData_load_fails pf w p q e [] Hload). cbn [fst snd].
    change (Page.form (Page.set_error false p)) with (Page.form p) in Hform.
    split; [reflexivity |]. split.
    + intros name _. cbn. rewrite Hform. reflexivity.
    + intros _. exact Hform.
Qed.

(** X21. When [fetchData] runs for a page that has no event to fetch (a new
    event) or has fetched it already (a refresh), it does not block the
    sync and keeps what the form holds: no control changes but the event
    type, which is only set when it is empty. *)
Theorem fetchData_without_event (pf : Platform) (w : World) (p : Page.t) :
  (Js.truthy (Js.of_opt (Page.eventId p)) && negb (Page.gotEventData p))%bool = false ->
  List.filter is_block (trace_of (fetchData pf w p)) = []
  /\ (forall name, name <> "eventtype" ->
        field (Page.form (page_of (fetchData pf w p))) name = field (Page.form p) name)
  /\ (Js.truthy (field (Page.form p) "eventtype") = true ->
      Page.form (page_of (fetchData pf w p)) = Page.form p).
Proof.
  intros Hevent.
  destruct (fetchData_without_event_run pf w p Hevent) as (Hblock & Hkeep & Hsame).
  split; [exact Hblock |]. split; [exact Hkeep | exact Hsame].
Qed.

Lemma fetchData_without_event_witness :
  (Js.truthy (Js.of_opt (Page.eventId Demo.new_page))
   && negb (Page.gotEventData Demo.new_page))%bool = false
  /\ field (Page.form (page_of (fetchData Demo.platform Demo.world_courses Demo.new_page)))
           "name" = JStr "Exam"
  /\ List.filter is_block (trace_of (fetchData Demo.platform Demo.world_courses
                                       Demo.new_page)) = [].
Proof.
  split; [reflexivity |].
  destruct (fetchData_without_event Demo.platform Demo.world_courses Demo.new_page)
    as (Hblock & Hkeep & _).
  - reflexivity.
  - split; [| exact Hblock].
    rewrite Hkeep; [vm_compute; reflexivity | discriminate].
Defined.

(** ** Asking the user *)

(** X22. [discard] never rejects.  When the user does not confirm, it does
    nothing more: no offline copy is deleted and the page stays as it is.
    When the deletion fails, it shows 'Error discarding event.' and the page
    stays as it is: the lock is kept and nothing is notified.  When the
    deletion is done, it returns to the list: the lock is released if the
    page has an event id, and the other pages are told that the event was
    edited (a server event, its id positive) or that a new event was
    discarded. *)
Theorem discard_outcome (pf : Platform) (w : World) (a : Answers) (p : Page.t) :
  (discard pf w a p).1.1 = Ok tt
  /\ match showConfirm a (instant pf "core.areyousure"),
           deleteEvent a (Page.eventId p) with
     | Throw _, _ =>
         (discard pf w a p).1.2 = p
         /\ (discard pf w a p).2 = [ShowConfirm (instant pf "core.areyousure")]
     | Ok _, Throw _ =>
         (discard pf w a p).1.2 = p
         /\ (discard pf w a p).2
            = [ShowConfirm (instant pf "core.areyousure"); DeleteEvent (Page.eventId p);
               PageCall (ShowErrorModal "Error discarding event.")]
     | Ok _, Ok _ =>
         (discard pf w a p).1.2 = page_of (returnToList w None p)
         /\ (discard pf w a p).2
            = [ShowConfirm (instant pf "core.areyousure"); DeleteEvent (Page.eventId p);
               TriggerFormCancelledEvent (siteId w)]
              ++ map PageCall
                   ((if Js.truthy (Js.of_opt (Page.eventId p))
                     then [UnblockOperation COMPONENT (default 0 (Page.eventId p))]
                     else [])
                    ++ [if (Js.truthy (Js.of_opt (Page.eventId p))
                            && (0 <? default 0 (Page.eventId p)))%bool
                        then EventsTrigger EDIT_EVENT_EVENT (Page.eventId p) (siteId w)
                        else EventsTrigger NEW_EVENT_DISCARDED_EVENT None (siteId w)]
                    ++ (if outletActivated w then [] else [NavigatorBack]))
     end.
Proof.
  unfold discard.
  destruct (showConfirm a (instant pf "core.areyousure")) as [[]|e]; [| repeat split].
  destruct (deleteEvent a (Page.eventId p)) as [[]|e]; [| repeat split].
  rewrite (returnToList_run w None p). cbn [fst snd page_of].
  rewrite app_nil_r. repeat split.
Qed.

(** X23. Right after an [ngOnInit] that could fetch the data ([error] is
    false) the page can be left without a question: when
    [hasEventDataChanged] finds no change between a form and itself,
    [canLeave] asks for no confirmation, tells that the form was cancelled
    and answers true. *)
Theorem canLeave_after_init (pf : Platform) (w : World) (a : Answers) (p : Page.t) :
  (forall form, hasEventDataChanged a form (Some form) = false) ->
  Page.error (page_of (ngOnInit pf w p)) = false ->
  canLeave pf w a (page_of (ngOnInit pf w p))
  = (Ok true, page_of (ngOnInit pf w p), [TriggerFormCancelledEvent (siteId w)]).
Proof.
  intros Hsame _. destruct (ngOnInit_run pf w p) as (_ & _ & Horiginal).
  unfold canLeave. rewrite Horiginal, Hsame. reflexivity.
Qed.

Lemma sameData_refl (form : gmap string JsVal) : sameData form (Some form) = false.
Proof. unfold sameData. rewrite bool_decide_eq_true_2; reflexivity. Qed.

Lemma canLeave_after_init_witness :
  (forall form, hasEventDataChanged accepting form (Some form) = false)
  /\ Page.error (page_of (ngOnInit Demo.platform Demo.world_courses constructor)) = false
  /\ (canLeave Demo.platform Demo.world_courses accepting
        (page_of (ngOnInit Demo.platform Demo.world_courses constructor))).1.1 = Ok true.
Proof.
  split; [exact sameData_refl |]. split; [vm_compute; reflexivity |].
  rewrite (canLeave_after_init Demo.platform Demo.world_courses accepting constructor
             sameData_refl); [reflexivity |].
  vm_compute; reflexivity.
Defined.

Lemma filter_invalidation_page_calls (t : list Effect) :
  List.filter is_invalidation (map PageCall t) = [].
Proof. induction t as [|e t IH]; [reflexivity | exact IH]. Qed.

(** X24. [refreshData] invalidates the access information and the allowed
    types, the categories when Category events are allowed, and one list of
    courses when Course or Group events are allowed: all the courses of the
    site when the page shows them all, else those of the user.  Then it
    fetches the data again and always ends well: the page is the one that
    [fetchData] leaves.  A page that has fetched its event does not block
    the sync again; on a page with no event left to fetch, the refresher,
    when there is one, is completed last. *)
Theorem refreshData_run (pf : Platform) (w : World) (refresher : bool) (p : Page.t) :
  (refreshData pf w refresher p).1.1 = Ok tt
  /\ (refreshData pf w refresher p).1.2 = page_of (fetchData pf w p)
  /\ List.filter is_invalidation (refreshData pf w refresher p).2
     = [InvalidateAccessInformation (Page.courseId p);
        InvalidateAllowedEventTypes (Page.courseId p)]
       ++ (if allowed (Page.types p) "category" then [InvalidateCategories] else [])
       ++ (if (allowed (Page.types p) "course" || allowed (Page.types p) "groups")%bool
           then [if Page.showAll p then InvalidateCoursesByField
                 else InvalidateUserCourses]
           else [])
  /\ (refresher = true ->
      (Js.truthy (Js.of_opt (Page.eventId p)) && negb (Page.gotEventData p))%bool = false ->
      last (refreshData pf w refresher p).2 = Some RefresherComplete)
  /\ (Page.gotEventData p = true ->
      forall component id,
        ~ In (PageCall (BlockOperation component id)) (refreshData pf w refresher p).2).
Proof.
  unfold refreshData. cbv zeta.
  pose proof (fetchData_without_event_run pf w p) as Hblock.
  unfold page_of, trace_of in *.
  destruct (fetchData pf w p) as [[r q] t]. cbn [fst snd] in *.
  split; [reflexivity |]. split; [reflexivity |]. split; [| split].
  - rewrite !List.filter_app, filter_invalidation_page_calls.
    destruct (allowed (Page.types p) "category"),
      (allowed (Page.types p) "course" || allowed (Page.types p) "groups")%bool,
      (Page.showAll p), refresher; reflexivity.
  - intros -> _. rewrite !app_assoc. apply last_snoc.
  - intros Hgot component id Hin.
    destruct Hblock as (Hnone & _).
    { rewrite Hgot. apply andb_false_r. }
    assert (Hcall : In (PageCall (BlockOperation component id)) (map PageCall t)).
    { apply in_app_or in Hin. destruct Hin as [Hin|Hin].
      - exfalso.
        destruct (allowed (Page.types p) "category"),
          (allowed (Page.types p) "course" || allowed (Page.types p) "groups")%bool,
          (Page.showAll p); cbn in Hin;
          repeat (destruct Hin as [Hin|Hin]; [discriminate Hin |]); exact Hin.
      - apply in_app_or in Hin. destruct Hin as [Hin|Hin]; [exact Hin |].
        exfalso. destruct refresher; cbn in Hin;
          repeat (destruct Hin as [Hin|Hin]; [discriminate Hin |]); exact Hin. }
    apply in_map_iff in Hcall. destruct Hcall as (e & He & Hin').
    injection He as ->.
    assert (Hfiltered : In (BlockOperation component id) (List.filter is_block t))
      by (apply filter_In; split; [exact Hin' | reflexivity]).
    rewrite Hnone in Hfiltered. exact Hfiltered.
Qed.
